(** * SlinkHard backend: order / payment reconciliation and sessions

    A shallow embedding of the storefront's request handlers
    (controllers/paymentController.js, controllers/authController.js,
    controllers/productController.js, middleware/auth.js,
    config/mercadopago.js, config/database.js) over the
    relational schema of database/schema.sql.

    Conventions.
    - A table is the list of its rows, in insertion order; a row is a record
      holding the columns that the embedded statements read or write.
    - UUID and VARCHAR columns are strings, INTEGER columns are [Z],
      DECIMAL(12,2) columns are [Z] counted in hundredths, instants are [Z]
      in milliseconds.  A nullable column is an [option].
    - An UPDATE or INSERT enforces the CHECK and NOT NULL constraints of the
      columns it writes and fails as a whole when one row violates them.
      Column widths are not represented, nor foreign keys other than the
      ON DELETE CASCADE of [order_items.product_id] in [deleteProduct].
    - The payment gateway SDK, bcrypt, jsonwebtoken and the built-in
      String.prototype.toLowerCase are parameters.
    - An identifier that a request carries is text until the database casts
      it to uuid: a [UuidParam] tells whether the cast succeeds.  The
      identifiers the server hands on itself ([req.user.id], the external
      reference the gateway echoes) are uuid values.
    - Every handler receives the instant [now] of the request and, where it
      inserts a row, the identifier drawn by uuid_generate_v4(). *)

From Stdlib Require Import ZArith List String Ascii Bool Lia DecimalString.
Import ListNotations.

#[local] Open Scope string_scope.
#[local] Open Scope Z_scope.

Definition Id := string.
Definition Time := Z.

(** JavaScript [===] on strings and SQL [=] on text columns. *)
Definition str_eq (a b : string) : bool := String.eqb a b.

(** SQL [col = $n] on a nullable column or with a NULL parameter: NULL never
    compares equal. *)
Definition sql_eq (a b : option string) : bool :=
  match a, b with
  | Some x, Some y => str_eq x y
  | _, _ => false
  end.

(** A text that a request binds to a parameter compared with a uuid column
    ([WHERE o.id = $1]).  The server casts the text: one that spells a uuid
    is that uuid, any other makes the statement fail
    (invalid_text_representation) and the driver throw. *)
Inductive UuidParam :=
| IsUuid (id : Id)
| NotUuid (text : string).

(** What the statement sees of a field of [req.body]: NULL when the body has
    no such key, the uuid when the text spells one; [None] when the cast
    fails. *)
Definition uuid_param (field : option UuidParam) : option (option Id) :=
  match field with
  | None => Some None
  | Some (IsUuid id) => Some (Some id)
  | Some (NotUuid _) => None
  end.

(** [Array.prototype.includes] on a list of string literals. *)
Definition includes (l : list string) (s : string) : bool :=
  existsb (str_eq s) l.

(** ** Gateway payloads (config/mercadopago.js) *)

(** What [payment.get] of the SDK answers. *)
Record PaymentInfo := {
  pi_id : Id;
  pi_status : string;
  pi_status_detail : string;
  pi_external_reference : option Id;
  pi_transaction_amount : Z;
  pi_currency_id : string;
  pi_payment_method_id : string;
  pi_payment_type_id : string;
  pi_payer : string;
  pi_date_created : string;
  pi_date_approved : option string
}.

(** The object [processWebhook] builds from it. *)
Record PaymentData := {
  payment_id : Id;
  status : string;
  status_detail : string;
  external_reference : option Id;
  transaction_amount : Z;
  currency_id : string;
  payment_method_id : string;
  payment_method_type : string;
  payer : string;
  date_created : string;
  date_approved : option string
}.

(** The [gateway_response] JSONB column: the stringified webhook payment data,
    or the record of a manual submission. *)
Inductive GatewayResponse :=
| GwPayment (pd : PaymentData)
| GwManual (proof : option string) (submitted_at : Time).

(** ** Schema (database/schema.sql) *)

Record User := {
  u_id : Id;
  u_name : string;
  u_email : string;
  u_password : string;
  u_role : string;
  u_phone : option string;
  u_address : option string
}.

Record Session := {
  s_user_id : Id;
  s_token : string;
  s_expires_at : Time
}.

Record Product := {
  p_id : Id;
  p_name : string;
  p_image_url : option string;
  p_status : string;
  p_product_type : string;
  p_stock : Z;
  p_updated_at : Time
}.

Record Order := {
  o_id : Id;
  o_user_id : Id;
  o_status : string;
  o_total : Z;
  o_shipping_address : string;
  o_payment_id : option string;
  o_updated_at : Time
}.

Record OrderItem := {
  oi_order_id : Id;
  oi_product_id : Id;
  oi_quantity : Z;
  oi_unit_price : Z
}.

Record Payment := {
  pay_id : Id;
  pay_order_id : Id;
  pay_payment_method : string;
  pay_amount : Z;
  pay_currency : string;
  pay_status : string;
  pay_external_id : option string;
  pay_gateway_response : option GatewayResponse;
  pay_created_at : Time;
  pay_updated_at : Time
}.

Record DB := {
  users : list User;
  user_sessions : list Session;
  products : list Product;
  orders : list Order;
  order_items : list OrderItem;
  payments : list Payment
}.

Definition set_user_sessions (db : DB) (t : list Session) : DB :=
  {| users := users db; user_sessions := t; products := products db;
     orders := orders db; order_items := order_items db;
     payments := payments db |}.

Definition set_users (db : DB) (t : list User) : DB :=
  {| users := t; user_sessions := user_sessions db; products := products db;
     orders := orders db; order_items := order_items db;
     payments := payments db |}.

Definition set_products (db : DB) (t : list Product) : DB :=
  {| users := users db; user_sessions := user_sessions db; products := t;
     orders := orders db; order_items := order_items db;
     payments := payments db |}.

Definition set_orders (db : DB) (t : list Order) : DB :=
  {| users := users db; user_sessions := user_sessions db;
     products := products db; orders := t; order_items := order_items db;
     payments := payments db |}.

Definition set_payments (db : DB) (t : list Payment) : DB :=
  {| users := users db; user_sessions := user_sessions db;
     products := products db; orders := orders db;
     order_items := order_items db; payments := t |}.

(** CHECK constraints of the columns the handlers write. *)
Definition chk_payment_status (s : string) : bool :=
  includes ["pending"; "approved"; "rejected"; "cancelled"] s.

Definition chk_order_status (s : string) : bool :=
  includes ["pendiente"; "pagado"; "enviado"; "entregado"; "cancelado"] s.

Definition chk_product_status (s : string) : bool :=
  includes ["disponible"; "agotado"; "descontinuado"] s.

Definition chk_nonneg (z : Z) : bool := 0 <=? z.

(** [UPDATE t SET ... WHERE cond]: every row satisfying [cond] is rewritten by
    [set]; the statement fails when a rewritten row violates [chk]. *)
Definition sql_update {R : Type} (cond : R -> bool) (set : R -> R)
    (chk : R -> bool) (t : list R) : option (list R) :=
  if forallb (fun r => if cond r then chk (set r) else true) t
  then Some (map (fun r => if cond r then set r else r) t)
  else None.

(** ** Exceptions, responses, effects *)

Inductive Exn :=
| ConnectionError          (* the driver or the server failed the statement *)
| CheckViolation           (* a CHECK or NOT NULL constraint rejected it *)
| GatewayError             (* the gateway SDK rejected or did not answer *)
| TypeError.               (* property access on undefined *)

Inductive Res (A : Type) :=
| Ok (a : A)
| Throw (e : Exn).
Arguments Ok {A} a.
Arguments Throw {A} e.

Record AuthUser := {
  au_id : Id;
  au_name : string;
  au_email : string;
  au_role : string
}.

Inductive Data :=
| DPreference (preference_id init_point sandbox_init_point : string)
| DPaymentStatus (payment_id : Id) (status : string) (amount : Z)
    (currency : string) (order_status : string) (created_at updated_at : Time)
| DManual (payment_id : Id) (status : string)
| DAuth (user : AuthUser) (token : string).

Inductive Body :=
| Text (s : string)
| Json (success : bool) (message : option string) (data : option Data)
| JsonErrors (message : string) (errors : list string).

Record Response := { code : Z; body : Body }.

Definition send (c : Z) (s : string) : Response := {| code := c; body := Text s |}.
Definition reply_error (c : Z) (msg : string) : Response :=
  {| code := c; body := Json false (Some msg) None |}.

(** ** The persistence gateway (config/database.js)

    [transaction] hands its callback a client whose statements act on a
    working copy of the store.  A statement can fail for reasons outside the
    program ([faults] tells, by position in the transaction, which ones do:
    position 0 is BEGIN) or because a constraint rejects it.  COMMIT
    publishes the working copy; ROLLBACK drops it. *)

Record Client := { issued : nat; work : DB }.

Definition Tx (A : Type) : Type := Client -> Res A * Client.

Definition ret {A : Type} (a : A) : Tx A := fun c => (Ok a, c).

Definition bind {A B : Type} (m : Tx A) (k : A -> Tx B) : Tx B :=
  fun c =>
    match m c with
    | (Ok a, c') => k a c'
    | (Throw e, c') => (Throw e, c')
    end.

Notation "x <- m ;; k" := (bind m (fun x => k))
  (at level 100, m at next level, right associativity).
Notation "m ;;; k" := (bind m (fun _ => k))
  (at level 100, right associativity).

(** [for (const x of xs) { await body(x) }] *)
Fixpoint for_of {A : Type} (xs : list A) (body : A -> Tx unit) : Tx unit :=
  match xs with
  | [] => ret tt
  | x :: xs' => body x ;;; for_of xs' body
  end.

Definition Faults := nat -> bool.

Definition next_client (c : Client) (db : DB) : Client :=
  {| issued := S (issued c); work := db |}.

(** [client.query(text, params)]: the statement is a partial function of the
    working copy. *)
Definition client_query {A : Type} (faults : Faults)
    (stmt : DB -> option (A * DB)) : Tx A :=
  fun c =>
    if faults (issued c) then (Throw ConnectionError, next_client c (work c))
    else match stmt (work c) with
         | Some (a, db') => (Ok a, next_client c db')
         | None => (Throw CheckViolation, next_client c (work c))
         end.

Definition transaction {A : Type} (faults : Faults) (callback : Tx A)
    (db : DB) : Res A * DB :=
  if faults 0%nat then (Throw ConnectionError, db)            (* BEGIN *)
  else
    match callback {| issued := 1; work := db |} with
    | (Ok a, c) =>
        if faults (issued c) then (Throw ConnectionError, db) (* COMMIT *)
        else (Ok a, work c)
    | (Throw e, _) => (Throw e, db)                           (* ROLLBACK *)
    end.

(** ** MercadoPagoService (config/mercadopago.js) *)

Record Notification := {
  n_type : string;
  n_data : option Id     (* [data.id]; [None] when [data] is missing *)
}.

Definition processWebhook (payment_get : Id -> option PaymentInfo)
    (n : Notification) : Res (option PaymentData) :=
  if str_eq (n_type n) "payment" then
    match n_data n with
    | None => Throw TypeError
    | Some id =>
        match payment_get id with
        | None => Throw GatewayError
        | Some paymentInfo =>
            Ok (Some {| payment_id := pi_id paymentInfo;
                        status := pi_status paymentInfo;
                        status_detail := pi_status_detail paymentInfo;
                        external_reference := pi_external_reference paymentInfo;
                        transaction_amount := pi_transaction_amount paymentInfo;
                        currency_id := pi_currency_id paymentInfo;
                        payment_method_id := pi_payment_method_id paymentInfo;
                        payment_method_type := pi_payment_type_id paymentInfo;
                        payer := pi_payer paymentInfo;
                        date_created := pi_date_created paymentInfo;
                        date_approved := pi_date_approved paymentInfo |})
        end
    end
  else Ok None.

Definition isPaymentApproved (st : string) : bool := str_eq st "approved".

Definition isPaymentRejected (st : string) : bool :=
  includes ["rejected"; "cancelled"] st.

Definition isPaymentPending (st : string) : bool :=
  includes ["pending"; "in_process"; "in_mediation"] st.

(** ** PaymentController.handleWebhook (controllers/paymentController.js) *)

(** UPDATE payments SET status = $1, gateway_response = $2,
    updated_at = CURRENT_TIMESTAMP WHERE external_id = $3 OR order_id = $4 *)
Definition payment_matches (pd : PaymentData) (p : Payment) : bool :=
  sql_eq (pay_external_id p) (Some (payment_id pd))
  || sql_eq (Some (pay_order_id p)) (external_reference pd).

Definition payment_set (pd : PaymentData) (now : Time) (p : Payment) : Payment :=
  {| pay_id := pay_id p; pay_order_id := pay_order_id p;
     pay_payment_method := pay_payment_method p; pay_amount := pay_amount p;
     pay_currency := pay_currency p;
     pay_status := status pd;
     pay_external_id := pay_external_id p;
     pay_gateway_response := Some (GwPayment pd);
     pay_created_at := pay_created_at p;
     pay_updated_at := now |}.

Definition update_payments (pd : PaymentData) (now : Time) (db : DB)
    : option (unit * DB) :=
  match sql_update (payment_matches pd) (payment_set pd now)
          (fun p => chk_payment_status (pay_status p)) (payments db) with
  | Some t => Some (tt, set_payments db t)
  | None => None
  end.

(** SELECT oi.product_id, oi.quantity, p.stock, p.product_type
    FROM order_items oi JOIN products p ON oi.product_id = p.id
    WHERE oi.order_id = $1 *)
Record ItemRow := {
  product_id : Id;
  quantity : Z;
  stock : Z;
  product_type : string
}.

Definition order_item_rows (ref : option Id) (items : list OrderItem)
    (prods : list Product) : list ItemRow :=
  flat_map (fun oi =>
      if sql_eq (Some (oi_order_id oi)) ref then
        map (fun p => {| product_id := oi_product_id oi;
                         quantity := oi_quantity oi;
                         stock := p_stock p;
                         product_type := p_product_type p |})
            (filter (fun p => str_eq (oi_product_id oi) (p_id p)) prods)
      else [])
    items.

Definition select_order_items (ref : option Id) (db : DB)
    : option (list ItemRow * DB) :=
  Some (order_item_rows ref (order_items db) (products db), db).

(** UPDATE products SET status = $1, stock = $2 WHERE id = $3; the trigger
    update_products_updated_at stamps the rewritten rows. *)
Definition product_set (new_status : string) (new_stock : Z) (now : Time)
    (p : Product) : Product :=
  {| p_id := p_id p; p_name := p_name p; p_image_url := p_image_url p;
     p_status := new_status; p_product_type := p_product_type p;
     p_stock := new_stock; p_updated_at := now |}.

Definition update_product (id : Id) (new_status : string) (new_stock : Z)
    (now : Time) (db : DB) : option (unit * DB) :=
  match sql_update (fun p => str_eq (p_id p) id)
          (product_set new_status new_stock now)
          (fun p => chk_product_status (p_status p) && chk_nonneg (p_stock p))
          (products db) with
  | Some t => Some (tt, set_products db t)
  | None => None
  end.

(** UPDATE orders SET status = $1, payment_id = $2,
    updated_at = CURRENT_TIMESTAMP WHERE id = $3 *)
Definition order_set (new_status : string) (pid : Id) (now : Time)
    (o : Order) : Order :=
  {| o_id := o_id o; o_user_id := o_user_id o; o_status := new_status;
     o_total := o_total o; o_shipping_address := o_shipping_address o;
     o_payment_id := Some pid; o_updated_at := now |}.

Definition update_order (new_status : string) (pid : Id) (ref : option Id)
    (now : Time) (db : DB) : option (unit * DB) :=
  match sql_update (fun o => sql_eq (Some (o_id o)) ref)
          (order_set new_status pid now)
          (fun o => chk_order_status (o_status o)) (orders db) with
  | Some t => Some (tt, set_orders db t)
  | None => None
  end.

(** The body of the loop over [orderItems.rows]. *)
Definition reduce_stock (faults : Faults) (now : Time) (item : ItemRow)
    : Tx unit :=
  if str_eq (product_type item) "unico" then
    client_query faults (update_product (product_id item) "agotado" 0 now)
  else
    let newStock := Z.max 0 (stock item - quantity item) in
    let newStatus := if newStock =? 0 then "agotado" else "disponible" in
    client_query faults (update_product (product_id item) newStatus newStock now).

(** The callback passed to [transaction]. *)
Definition reconcile (faults : Faults) (now : Time) (paymentData : PaymentData)
    : Tx unit :=
  client_query faults (update_payments paymentData now) ;;;
  orderStatus <-
    (if isPaymentApproved (status paymentData) then
       orderItems <- client_query faults
                       (select_order_items (external_reference paymentData)) ;;
       for_of orderItems (reduce_stock faults now) ;;;
       ret "pagado"
     else if isPaymentRejected (status paymentData) then ret "cancelado"
     else ret "pendiente") ;;
  client_query faults
    (update_order orderStatus (payment_id paymentData)
       (external_reference paymentData) now).

Definition handleWebhook (payment_get : Id -> option PaymentInfo)
    (faults : Faults) (now : Time) (notification : Notification) (db : DB)
    : Response * DB :=
  match processWebhook payment_get notification with
  | Throw _ => (send 500 "Error", db)
  | Ok None => (send 200 "OK", db)
  | Ok (Some paymentData) =>
      match transaction faults (reconcile faults now paymentData) db with
      | (Ok _, db') => (send 200 "OK", db')
      | (Throw _, db') => (send 500 "Error", db')
      end
  end.

(** ** PaymentController.createPaymentPreference *)

(** One element of the [json_agg] of the order query.  The LEFT JOINs make
    every column nullable. *)
Record OrderDataItem := {
  odi_product_id : option Id;
  odi_name : option string;
  odi_quantity : option Z;
  odi_unit_price : option Z;
  odi_image_url : option string
}.

Record OrderData := {
  od_order_id : Id;
  od_items : list OrderDataItem;
  od_user : option (string * string * option string);   (* name, email, phone *)
  od_shipping_address : string
}.

Record PrefItem := {
  pf_id : option Id;
  pf_title : option string;
  pf_quantity : option Z;
  pf_unit_price : option Z;
  pf_picture_url : option string
}.

(** The body sent to [preference.create]; the literal fields of the request
    (currency, installments, statement descriptor, ...) are left out. *)
Record PreferenceRequest := {
  pr_items : list PrefItem;
  pr_payer_name : string;
  pr_payer_email : string;
  pr_payer_phone : string;
  pr_street_name : string;
  pr_back_url_success : string;
  pr_notification_url : string;
  pr_external_reference : Id;
  pr_expiration_from : Time;
  pr_expiration_to : Time
}.

Record PreferenceResult := {
  res_id : string;
  res_init_point : string;
  res_sandbox_init_point : string
}.

Record Preference := {
  preference_id : string;
  init_point : string;
  sandbox_init_point : string
}.

Definition order_json_items (o : Order) (db : DB) : list OrderDataItem :=
  match filter (fun oi => str_eq (o_id o) (oi_order_id oi)) (order_items db) with
  | [] => [ {| odi_product_id := None; odi_name := None; odi_quantity := None;
               odi_unit_price := None; odi_image_url := None |} ]
  | ois =>
      flat_map (fun oi =>
          match filter (fun p => str_eq (oi_product_id oi) (p_id p)) (products db) with
          | [] => [ {| odi_product_id := Some (oi_product_id oi); odi_name := None;
                       odi_quantity := Some (oi_quantity oi);
                       odi_unit_price := Some (oi_unit_price oi);
                       odi_image_url := None |} ]
          | ps => map (fun p =>
                    {| odi_product_id := Some (oi_product_id oi);
                       odi_name := Some (p_name p);
                       odi_quantity := Some (oi_quantity oi);
                       odi_unit_price := Some (oi_unit_price oi);
                       odi_image_url := p_image_url p |}) ps
          end) ois
  end.

(** [x || dflt] on a nullable string: null and the empty string are falsy. *)
Definition or_default (x : option string) (dflt : string) : string :=
  match x with
  | Some s => if str_eq s "" then dflt else s
  | None => dflt
  end.

(** [MercadoPagoService.createPreference]: answers the preference, or throws;
    the second component lists the requests that reached the gateway. *)
Definition createPreference
    (preference_create : PreferenceRequest -> option PreferenceResult)
    (frontend_url backend_url : string) (now : Time) (orderData : OrderData)
    : Res Preference * list PreferenceRequest :=
  match od_user orderData with
  | None => (Throw TypeError, [])
  | Some (name, email, phone) =>
      let preferenceData :=
        {| pr_items :=
             map (fun item =>
                    {| pf_id := odi_product_id item;
                       pf_title := odi_name item;
                       pf_quantity := odi_quantity item;
                       pf_unit_price := odi_unit_price item;
                       pf_picture_url :=
                         match odi_image_url item with
                         | Some u => if str_eq u "" then None
                                     else Some (frontend_url ++ u)
                         | None => None
                         end |})
                 (od_items orderData);
           pr_payer_name := name;
           pr_payer_email := email;
           pr_payer_phone := or_default phone "1234567890";
           pr_street_name := od_shipping_address orderData;
           pr_back_url_success := frontend_url ++ "/payment/success";
           pr_notification_url := backend_url ++ "/api/payments/webhook";
           pr_external_reference := od_order_id orderData;
           pr_expiration_from := now;
           pr_expiration_to := now + 24 * 60 * 60 * 1000 |} in
      match preference_create preferenceData with
      | None => (Throw GatewayError, [preferenceData])
      | Some result =>
          (Ok {| preference_id := res_id result;
                 init_point := res_init_point result;
                 sandbox_init_point := res_sandbox_init_point result |},
           [preferenceData])
      end
  end.

(** INSERT INTO payments: [id], [created_at] and [updated_at] take their
    defaults; [payment_method] is NOT NULL, [status] and [amount] are
    CHECKed. *)
Definition insert_payment (uuid : Id) (now : Time) (order_id : Id)
    (method : option string) (amount : Z) (currency st : string)
    (external_id : option string) (response : option GatewayResponse)
    (db : DB) : option (Payment * DB) :=
  match method with
  | None => None
  | Some m =>
      if chk_payment_status st && chk_nonneg amount then
        let row := {| pay_id := uuid; pay_order_id := order_id;
                      pay_payment_method := m; pay_amount := amount;
                      pay_currency := currency; pay_status := st;
                      pay_external_id := external_id;
                      pay_gateway_response := response;
                      pay_created_at := now; pay_updated_at := now |} in
        Some (row, set_payments db (payments db ++ [row]))
      else None
  end.

(** [body_order_id] is [req.body.order_id]: the SELECT compares it with
    [orders.id]. *)
Definition createPaymentPreference
    (preference_create : PreferenceRequest -> option PreferenceResult)
    (frontend_url backend_url : string) (uuid : Id) (now : Time)
    (body_order_id : option UuidParam) (user : AuthUser) (db : DB)
    : Response * list PreferenceRequest * DB :=
  let userId := au_id user in
  match uuid_param body_order_id with
  | None => (reply_error 500 "Error procesando la solicitud de pago", [], db)
  | Some order_id =>
  match find (fun o => sql_eq (Some (o_id o)) order_id
                       && str_eq (o_user_id o) userId) (orders db) with
  | None => (reply_error 404 "Orden no encontrada", [], db)
  | Some order =>
      if negb (str_eq (o_status order) "pendiente") then
        (reply_error 400 "La orden no está en estado válido para pago", [], db)
      else
        let userResult :=
          find (fun u => str_eq (u_id u) userId) (users db) in
        let orderData :=
          {| od_order_id := o_id order;
             od_items := order_json_items order db;
             od_user := option_map
                          (fun u => (u_name u, u_email u, u_phone u)) userResult;
             od_shipping_address := o_shipping_address order |} in
        match createPreference preference_create frontend_url backend_url
                now orderData with
        | (Throw _, calls) =>
            (reply_error 500 "Error procesando la solicitud de pago", calls, db)
        | (Ok preference, calls) =>
            match insert_payment uuid now (o_id order) (Some "mercadopago")
                    (o_total order) "ARS" "pending"
                    (Some (preference_id preference)) None db with
            | None =>
                (reply_error 500 "Error procesando la solicitud de pago",
                 calls, db)
            | Some (_, db') =>
                ({| code := 200;
                    body := Json true None
                              (Some (DPreference (preference_id preference)
                                       (init_point preference)
                                       (sandbox_init_point preference))) |},
                 calls, db')
            end
        end
  end
  end.

(** ** PaymentController.checkPaymentStatus *)

(** ORDER BY created_at DESC LIMIT 1 over the rows in table order: the first
    row carrying the greatest [created_at]. *)
Fixpoint latest (rows : list (Payment * Order)) : option (Payment * Order) :=
  match rows with
  | [] => None
  | r :: rest =>
      match latest rest with
      | None => Some r
      | Some r' =>
          if pay_created_at (fst r) <? pay_created_at (fst r')
          then Some r' else Some r
      end
  end.

Definition payment_order_rows (order_id userId : Id) (db : DB)
    : list (Payment * Order) :=
  flat_map (fun p =>
      map (fun o => (p, o))
          (filter (fun o => str_eq (pay_order_id p) (o_id o)
                            && str_eq (pay_order_id p) order_id
                            && str_eq (o_user_id o) userId)
                  (orders db)))
    (payments db).

(** [params_order_id] is [req.params.order_id], a segment of the URL. *)
Definition checkPaymentStatus (params_order_id : UuidParam) (user : AuthUser)
    (db : DB) : Response * DB :=
  match params_order_id with
  | NotUuid _ => (reply_error 500 "Error verificando el pago", db)
  | IsUuid order_id =>
  match latest (payment_order_rows order_id (au_id user) db) with
  | None => (reply_error 404 "Pago no encontrado", db)
  | Some (payment, order) =>
      ({| code := 200;
          body := Json true None
                    (Some (DPaymentStatus (pay_id payment) (pay_status payment)
                             (pay_amount payment) (pay_currency payment)
                             (o_status order) (pay_created_at payment)
                             (pay_updated_at payment))) |},
       db)
  end
  end.

(** ** PaymentController.processManualPayment *)

(** [req.body]: the three fields the handler destructures, and whatever else
    the client put in the object. *)
Record ManualBody := {
  mb_order_id : option UuidParam;
  mb_payment_method : option string;
  mb_payment_proof : option string;
  mb_other_fields : list (string * string)
}.

Definition processManualPayment (uuid : Id) (now : Time) (req_body : ManualBody)
    (user : AuthUser) (db : DB) : Response * DB :=
  match uuid_param (mb_order_id req_body) with
  | None => (reply_error 500 "Error procesando el pago", db)
  | Some order_id =>
  match find (fun o => sql_eq (Some (o_id o)) order_id
                       && str_eq (o_user_id o) (au_id user)
                       && str_eq (o_status o) "pendiente") (orders db) with
  | None => (reply_error 404 "Orden no encontrada o no válida", db)
  | Some order =>
      match insert_payment uuid now (o_id order) (mb_payment_method req_body)
              (o_total order) "ARS" "pending" None
              (Some (GwManual (mb_payment_proof req_body) now)) db with
      | None => (reply_error 500 "Error procesando el pago", db)
      | Some (row, db') =>
          ({| code := 200;
              body := Json true
                (Some "Comprobante de pago enviado. Será verificado en las próximas 24 horas.")
                (Some (DManual (pay_id row) "pending")) |},
           db')
      end
  end
  end.

(** ** Sessions and accounts (controllers/authController.js, middleware/auth.js) *)

Record JwtPayload := {
  jwt_userId : Id;
  jwt_email : string;
  jwt_role : string
}.

Inductive JwtResult :=
| JwtDecoded (payload : JwtPayload)
| JsonWebTokenError
| TokenExpiredError
| JwtOtherError.

(** bcrypt and jsonwebtoken, with the signing secret folded in.  [jwt_sign]
    and [jwt_verify] read the clock. *)
Record Crypto := {
  bcrypt_hash : string -> string;
  bcrypt_compare : string -> string -> bool;
  jwt_sign : JwtPayload -> Time -> string;
  jwt_verify : string -> Time -> JwtResult
}.

(** [s.split(' ')], with [cur] the segment being read. *)
Fixpoint split_space (s cur : string) : list string :=
  match s with
  | EmptyString => [cur]
  | String c s' =>
      if Ascii.eqb c " " then cur :: split_space s' ""
      else split_space s' (cur ++ String c "")
  end.

(** [authHeader && authHeader.split(' ')[1]] *)
Definition bearer_token (authHeader : option string) : option string :=
  match authHeader with
  | None => None
  | Some h => if str_eq h "" then Some "" else nth_error (split_space h "") 1
  end.

(** [!token] *)
Definition falsy (token : option string) : bool :=
  match token with
  | None => true
  | Some t => str_eq t ""
  end.

Definition seven_days : Z := 7 * 24 * 60 * 60 * 1000.

Definition auth_user (u : User) : AuthUser :=
  {| au_id := u_id u; au_name := u_name u; au_email := u_email u;
     au_role := u_role u |}.

Record RegisterBody := {
  rb_name : string;
  rb_email : string;
  rb_password : string;
  rb_phone : option string;
  rb_address : option string
}.

(** [errors] is [validationResult(req).array()]; [toLowerCase] is the
    built-in String.prototype.toLowerCase of the runtime, whatever it does to
    the letters of an email. *)
Definition register (toLowerCase : string -> string) (K : Crypto) (uuid : Id)
    (now : Time)
    (errors : list string) (req_body : RegisterBody) (db : DB)
    : Response * DB :=
  match errors with
  | _ :: _ => ({| code := 400; body := JsonErrors "Datos inválidos" errors |}, db)
  | [] =>
      let email := toLowerCase (rb_email req_body) in
      match filter (fun u => str_eq (u_email u) email) (users db) with
      | _ :: _ => (reply_error 400 "El email ya está registrado", db)
      | [] =>
          let hashedPassword := bcrypt_hash K (rb_password req_body) in
          let user := {| u_id := uuid; u_name := rb_name req_body;
                         u_email := email; u_password := hashedPassword;
                         u_role := "customer"; u_phone := rb_phone req_body;
                         u_address := rb_address req_body |} in
          let db1 := set_users db (users db ++ [user]) in
          let token := jwt_sign K {| jwt_userId := u_id user;
                                     jwt_email := u_email user;
                                     jwt_role := u_role user |} now in
          let db2 := set_user_sessions db1
                       (user_sessions db1 ++
                        [{| s_user_id := u_id user; s_token := token;
                            s_expires_at := now + seven_days |}]) in
          ({| code := 201;
              body := Json true (Some "Usuario registrado exitosamente")
                        (Some (DAuth (auth_user user) token)) |},
           db2)
      end
  end.

Definition login (toLowerCase : string -> string) (K : Crypto) (now : Time)
    (errors : list string) (email password : string) (db : DB)
    : Response * DB :=
  match errors with
  | _ :: _ => ({| code := 400; body := JsonErrors "Datos inválidos" errors |}, db)
  | [] =>
      match filter (fun u => str_eq (u_email u) (toLowerCase email)) (users db) with
      | [] => (reply_error 401 "Credenciales inválidas", db)
      | user :: _ =>
          if negb (bcrypt_compare K password (u_password user)) then
            (reply_error 401 "Credenciales inválidas", db)
          else
            let token := jwt_sign K {| jwt_userId := u_id user;
                                       jwt_email := u_email user;
                                       jwt_role := u_role user |} now in
            (* DELETE FROM user_sessions WHERE user_id = $1 *)
            let db1 := set_user_sessions db
                         (filter (fun s => negb (str_eq (s_user_id s) (u_id user)))
                                 (user_sessions db)) in
            (* INSERT INTO user_sessions (user_id, token, expires_at) *)
            let db2 := set_user_sessions db1
                         (user_sessions db1 ++
                          [{| s_user_id := u_id user; s_token := token;
                              s_expires_at := now + seven_days |}]) in
            ({| code := 200;
                body := Json true (Some "Inicio de sesión exitoso")
                          (Some (DAuth (auth_user user) token)) |},
             db2)
      end
  end.

(** The middleware either calls [next()] with [req.user] set, or answers. *)
Inductive AuthOutcome :=
| Next (user : AuthUser)
| Reply (r : Response).

Definition authenticateToken (K : Crypto) (now : Time)
    (authHeader : option string) (db : DB) : AuthOutcome * DB :=
  let token := bearer_token authHeader in
  if falsy token then (Reply (reply_error 401 "Token de acceso requerido"), db)
  else
    let tok := match token with Some t => t | None => "" end in
    match filter (fun s => str_eq (s_token s) tok) (user_sessions db) with
    | [] => (Reply (reply_error 401 "Token inválido"), db)
    | session :: _ =>
        if s_expires_at session <? now then
          (Reply (reply_error 401 "Token expirado"),
           set_user_sessions db
             (filter (fun s => negb (str_eq (s_token s) tok)) (user_sessions db)))
        else
          match jwt_verify K tok now with
          | JwtDecoded decoded =>
              match filter (fun u => str_eq (u_id u) (jwt_userId decoded))
                           (users db) with
              | [] => (Reply (reply_error 401 "Usuario no encontrado"), db)
              | user :: _ => (Next (auth_user user), db)
              end
          | JsonWebTokenError => (Reply (reply_error 401 "Token inválido"), db)
          | TokenExpiredError => (Reply (reply_error 401 "Token expirado"), db)
          | JwtOtherError =>
              (Reply (reply_error 500 "Error interno del servidor"), db)
          end
    end.

(** ** What a committed reconciliation leaves behind

    The tables a successful run of [reconcile] publishes, as functions of the
    tables it started from; [reconcile_commits] below relates them to the
    code. *)

Definition written_status_stock (item : ItemRow) : string * Z :=
  if str_eq (product_type item) "unico" then ("agotado", 0)
  else
    let newStock := Z.max 0 (stock item - quantity item) in
    (if newStock =? 0 then "agotado" else "disponible", newStock).

Definition write_row (now : Time) (item : ItemRow) (p : Product) : Product :=
  if str_eq (p_id p) (product_id item)
  then product_set (fst (written_status_stock item))
         (snd (written_status_stock item)) now p
  else p.

Definition stock_write (now : Time) (t : list Product) (item : ItemRow)
    : list Product :=
  map (write_row now item) t.

(** The products table once the loop has gone through [rows]. *)
Definition stock_after (now : Time) (rows : list ItemRow) (t : list Product)
    : list Product :=
  fold_left (stock_write now) rows t.

Definition order_status_for (st : string) : string :=
  if isPaymentApproved st then "pagado"
  else if isPaymentRejected st then "cancelado"
  else "pendiente".

Definition payments_after (pd : PaymentData) (now : Time) (t : list Payment)
    : list Payment :=
  map (fun p => if payment_matches pd p then payment_set pd now p else p) t.

Definition orders_after (pd : PaymentData) (now : Time) (t : list Order)
    : list Order :=
  map (fun o => if sql_eq (Some (o_id o)) (external_reference pd)
                then order_set (order_status_for (status pd)) (payment_id pd) now o
                else o) t.

Definition committed (pd : PaymentData) (now : Time) (db : DB) : DB :=
  {| users := users db;
     user_sessions := user_sessions db;
     products :=
       if isPaymentApproved (status pd)
       then stock_after now
              (order_item_rows (external_reference pd) (order_items db)
                 (products db))
              (products db)
       else products db;
     orders := orders_after pd now (orders db);
     order_items := order_items db;
     payments := payments_after pd now (payments db) |}.

(** The payment UPDATE passes the CHECK on [status]. *)
Definition payment_update_accepted (pd : PaymentData) (db : DB) : bool :=
  forallb (fun p => if payment_matches pd p
                    then chk_payment_status (status pd) else true)
          (payments db).

(** What step (d) asks of the row [p'] of a product that was [p] when the
    webhook arrived and of which [q] units were ordered. *)
Definition stock_rule (p : Product) (q : Z) (p' : Product) : Prop :=
  p_id p' = p_id p
  /\ p_product_type p' = p_product_type p
  /\ if str_eq (p_product_type p) "unico"
     then p_stock p' = 0 /\ p_status p' = "agotado"
     else p_stock p' = Z.max 0 (p_stock p - q)
          /\ p_status p' = (if p_stock p' =? 0 then "agotado" else "disponible").

(** A step of the reconciliation transaction fails: BEGIN, a statement of the
    callback, or COMMIT. *)
Definition reconciliation_fails (faults : Faults) (now : Time)
    (pd : PaymentData) (db : DB) : Prop :=
  faults 0%nat = true
  \/ (exists e c, reconcile faults now pd {| issued := 1; work := db |}
                  = (Throw e, c))
  \/ (exists u c, reconcile faults now pd {| issued := 1; work := db |}
                  = (Ok u, c) /\ faults (issued c) = true).

(** The primary key of [products]. *)
Definition products_pk (db : DB) : Prop := NoDup (map p_id (products db)).

(** ** Sample data

    The sample rows write short names ("O", "P", "alice") for their uuids;
    a request names the order "O" by a text that spells that uuid,
    [IsUuid "O"]. *)

Definition sample_product (id kind : string) (st : Z) : Product :=
  {| p_id := id; p_name := id; p_image_url := None; p_status := "disponible";
     p_product_type := kind; p_stock := st; p_updated_at := 0 |}.

Definition sample_payment (id order_id : Id) (ext : option string)
    (created : Time) : Payment :=
  {| pay_id := id; pay_order_id := order_id;
     pay_payment_method := "mercadopago"; pay_amount := 30000;
     pay_currency := "ARS"; pay_status := "pending"; pay_external_id := ext;
     pay_gateway_response := None; pay_created_at := created;
     pay_updated_at := created |}.

Definition sample_order (id user_id : Id) (st : string) : Order :=
  {| o_id := id; o_user_id := user_id; o_status := st; o_total := 30000;
     o_shipping_address := "Calle 1"; o_payment_id := None;
     o_updated_at := 0 |}.

Definition alice : User :=
  {| u_id := "alice"; u_name := "Alice"; u_email := "alice@example.com";
     u_password := "h:Secret1"; u_role := "customer"; u_phone := None;
     u_address := None |}.

(** A shop with a normal product of stock 5 and a unique item, and a pending
    order of alice for [q] units of the former. *)
Definition shop (q : Z) : DB :=
  {| users := [alice];
     user_sessions := [];
     products := [sample_product "P" "normal" 5; sample_product "U" "unico" 1];
     orders := [sample_order "O" "alice" "pendiente"];
     order_items := [ {| oi_order_id := "O"; oi_product_id := "P";
                         oi_quantity := q; oi_unit_price := 10000 |} ];
     payments := [sample_payment "pay-1" "O" (Some "pref-1") 100] |}.

(** The gateway knows payment 77, for order O, in state [st]. *)
Definition gateway_says (st : string) (id : Id) : option PaymentInfo :=
  if str_eq id "77" then
    Some {| pi_id := "77"; pi_status := st; pi_status_detail := "";
            pi_external_reference := Some "O"; pi_transaction_amount := 30000;
            pi_currency_id := "ARS"; pi_payment_method_id := "visa";
            pi_payment_type_id := "credit_card"; pi_payer := "alice";
            pi_date_created := "2024-01-01"; pi_date_approved := None |}
  else None.

(** What [processWebhook] makes of that answer. *)
Definition payment_data_77 (st : string) : PaymentData :=
  {| payment_id := "77"; status := st; status_detail := "";
     external_reference := Some "O"; transaction_amount := 30000;
     currency_id := "ARS"; payment_method_id := "visa";
     payment_method_type := "credit_card"; payer := "alice";
     date_created := "2024-01-01"; date_approved := None |}.

Definition payment_77 : Notification :=
  {| n_type := "payment"; n_data := Some "77" |}.

Definition no_faults : Faults := fun _ => false.

(** The same order with two payment attempts: one opened through the gateway,
    whose external id is already the gateway's payment id, and a manual
    submission. *)
Definition manual_attempt : Payment :=
  {| pay_id := "pay-2"; pay_order_id := "O";
     pay_payment_method := "transferencia"; pay_amount := 30000;
     pay_currency := "ARS"; pay_status := "pending"; pay_external_id := None;
     pay_gateway_response := Some (GwManual (Some "comprobante.png") 200);
     pay_created_at := 200; pay_updated_at := 200 |}.

Definition shop_two_attempts : DB :=
  set_payments (shop 3) [sample_payment "pay-1" "O" (Some "77") 100;
                         manual_attempt].

(** The order names the same product on two lines, 2 units and 1 unit. *)
Definition shop_two_lines : DB :=
  {| users := users (shop 2); user_sessions := [];
     products := products (shop 2); orders := orders (shop 2);
     order_items := [ {| oi_order_id := "O"; oi_product_id := "P";
                         oi_quantity := 2; oi_unit_price := 10000 |};
                      {| oi_order_id := "O"; oi_product_id := "P";
                         oi_quantity := 1; oi_unit_price := 10000 |} ];
     payments := payments (shop 2) |}.

(** The order is for three units of the unique item. *)
Definition shop_unique : DB :=
  {| users := users (shop 3); user_sessions := [];
     products := products (shop 3); orders := orders (shop 3);
     order_items := [ {| oi_order_id := "O"; oi_product_id := "U";
                         oi_quantity := 3; oi_unit_price := 10000 |} ];
     payments := payments (shop 3) |}.

(** The [k]-th statement of the transaction, and only it, fails. *)
Definition fault_at (k : nat) : Faults := fun i => Nat.eqb i k.

Definition alice_auth : AuthUser := auth_user alice.

Definition bob_auth : AuthUser :=
  {| au_id := "bob"; au_name := "Bob"; au_email := "bob@example.com";
     au_role := "customer" |}.

(** A gateway that grants every preference under the id pref-9. *)
Definition granting_gateway (req : PreferenceRequest)
    : option PreferenceResult :=
  Some {| res_id := "pref-9"; res_init_point := "https://mp/init";
          res_sandbox_init_point := "https://mp/sandbox" |}.

(** Two manual submissions for alice's order that differ in the amount the
    client claims. *)
Definition manual_body (claimed_amount : string) : ManualBody :=
  {| mb_order_id := Some (IsUuid "O");
     mb_payment_method := Some "transferencia";
     mb_payment_proof := Some "comprobante.png";
     mb_other_fields := [("amount", claimed_amount); ("status", "approved")] |}.

(** What String.prototype.toLowerCase does to text whose letters are ASCII
    or in the Latin-1 supplement, as the examples' emails are.  A string
    here is the UTF-8 encoding of the JavaScript string: A to Z are single
    bytes, and the capitals U+00C0 to U+00DE (but for the sign U+00D7) are
    the byte 195 followed by a byte from 128 to 158; the small letter is 32
    further in both ranges. *)
Definition lower_ascii (c : ascii) : ascii :=
  let n := N_of_ascii c in
  if ((65 <=? n) && (n <=? 90))%N then ascii_of_N (n + 32) else c.

Definition lower_latin1 (c : ascii) : ascii :=
  let n := N_of_ascii c in
  if ((128 <=? n) && (n <=? 158) && negb (n =? 151))%N
  then ascii_of_N (n + 32) else c.

Fixpoint latin1_toLowerCase (s : string) : string :=
  match s with
  | EmptyString => EmptyString
  | String c t =>
      match t with
      | String c' t' =>
          if (N_of_ascii c =? 195)%N
          then String c (String (lower_latin1 c') (latin1_toLowerCase t'))
          else String (lower_ascii c) (latin1_toLowerCase t)
      | EmptyString => String (lower_ascii c) EmptyString
      end
  end.

(** A stand-in for the two libraries: the hash is the password behind a
    prefix, a token is the user id and the instant of issue, and every token
    verifies as alice's. *)
Definition sample_crypto : Crypto :=
  {| bcrypt_hash := fun pw => "h:" ++ pw;
     bcrypt_compare := fun pw h => str_eq ("h:" ++ pw) h;
     jwt_sign := fun payload t =>
       jwt_userId payload ++ "." ++ NilZero.string_of_int (Z.to_int t);
     jwt_verify := fun _ _ =>
       JwtDecoded {| jwt_userId := "alice"; jwt_email := "alice@example.com";
                     jwt_role := "customer" |} |}.

(** Alice has logged in at instant 1000. *)
Definition after_first_login : DB :=
  snd (login latin1_toLowerCase sample_crypto 1000 [] "Alice@Example.com"
         "Secret1" (shop 3)).

Definition alice_again : RegisterBody :=
  {| rb_name := "Alice B"; rb_email := "ALICE@example.COM";
     rb_password := "Secret2"; rb_phone := None; rb_address := None |}.

(** An account whose email has letters outside ASCII, and a request to
    register the same email in capitals. *)
Definition nandu : User :=
  {| u_id := "nandu"; u_name := "Ñandú"; u_email := "ñandú@example.com";
     u_password := "h:Secret4"; u_role := "customer"; u_phone := None;
     u_address := None |}.

Definition shop_nandu : DB := set_users (shop 3) [alice; nandu].

Definition nandu_again : RegisterBody :=
  {| rb_name := "Ñandú"; rb_email := "ÑANDÚ@example.com";
     rb_password := "Secret5"; rb_phone := None; rb_address := None |}.

(** jsonwebtoken stamps a token with the second of issue ([iat], and [exp]
    seven days later) and signs header and payload with an HMAC, so that two
    tokens signed for one payload within one second are the same text.  This
    stand-in keeps the user id and the second of issue. *)
Definition seconds_crypto : Crypto :=
  {| bcrypt_hash := bcrypt_hash sample_crypto;
     bcrypt_compare := bcrypt_compare sample_crypto;
     jwt_sign := fun payload t =>
       jwt_userId payload ++ "." ++ NilZero.string_of_int (Z.to_int (t / 1000));
     jwt_verify := jwt_verify sample_crypto |}.

(** The sample shop once the approved webhook of payment 77 has been
    acknowledged: the order is pagado, its payment row approved. *)
Definition shop_paid : DB :=
  snd (handleWebhook (gateway_says "approved") no_faults 1000 payment_77
         (shop 3)).

(** ** The other handlers of the account (controllers/authController.js) *)

(** [n] characters off the front of [s]. *)
Fixpoint skip (n : nat) (s : string) : string :=
  match n, s with
  | O, _ => s
  | S n', String _ s' => skip n' s'
  | S _, EmptyString => EmptyString
  end.

(** [s.replace(pat, '')] with a string pattern: the first occurrence goes. *)
Fixpoint remove_first (pat s : string) : string :=
  match s with
  | EmptyString => EmptyString
  | String c s' =>
      if String.prefix pat s then skip (String.length pat) s
      else String c (remove_first pat s')
  end.

Definition logout (authHeader : option string) (db : DB) : Response * DB :=
  let token := option_map (remove_first "Bearer ") authHeader in
  let answer := {| code := 200;
                   body := Json true (Some "Sesión cerrada exitosamente") None |} in
  if falsy token then (answer, db)
  else
    let tok := match token with Some t => t | None => "" end in
    (answer,
     set_user_sessions db
       (filter (fun s => negb (str_eq (s_token s) tok)) (user_sessions db))).

(** The columns of [users] that [getProfile] and [updateProfile] return. *)
Record ProfileRow := {
  row_id : Id;
  row_name : string;
  row_email : string;
  row_phone : option string;
  row_address : option string;
  row_role : string
}.

Definition profile_row (u : User) : ProfileRow :=
  {| row_id := u_id u; row_name := u_name u; row_email := u_email u;
     row_phone := u_phone u; row_address := u_address u;
     row_role := u_role u |}.

Inductive ProfileAnswer :=
| ProfileJson (code : Z) (message : option string) (data : option ProfileRow)
| ProfileReply (r : Response).

Definition getProfile (user : AuthUser) (db : DB) : ProfileAnswer * DB :=
  match filter (fun u => str_eq (u_id u) (au_id user)) (users db) with
  | [] => (ProfileReply (reply_error 404 "Usuario no encontrado"), db)
  | row :: _ => (ProfileJson 200 None (Some (profile_row row)), db)
  end.

Record ProfileBody := {
  pb_name : option string;
  pb_phone : option string;
  pb_address : option string
}.

(** UPDATE users SET name = $1, phone = $2, address = $3 WHERE id = $4
    RETURNING ...; [name] is NOT NULL. *)
Definition updateProfile (errors : list string) (req_body : ProfileBody)
    (user : AuthUser) (db : DB) : ProfileAnswer * DB :=
  match errors with
  | _ :: _ =>
      (ProfileReply {| code := 400; body := JsonErrors "Datos inválidos" errors |},
       db)
  | [] =>
      let hit := fun u => str_eq (u_id u) (au_id user) in
      match pb_name req_body, filter hit (users db) with
      | None, _ :: _ =>
          (ProfileReply (reply_error 500 "Error interno del servidor"), db)
      | None, [] =>
          (ProfileJson 200 (Some "Perfil actualizado exitosamente") None, db)
      | Some name, _ =>
          let set := fun u =>
            {| u_id := u_id u; u_name := name; u_email := u_email u;
               u_password := u_password u; u_role := u_role u;
               u_phone := pb_phone req_body;
               u_address := pb_address req_body |} in
          let t := map (fun u => if hit u then set u else u) (users db) in
          (ProfileJson 200 (Some "Perfil actualizado exitosamente")
             (option_map profile_row (hd_error (filter hit t))),
           set_users db t)
      end
  end.

Definition changePassword (K : Crypto) (errors : list string)
    (currentPassword newPassword : string) (user : AuthUser) (db : DB)
    : Response * DB :=
  match errors with
  | _ :: _ => ({| code := 400; body := JsonErrors "Datos inválidos" errors |}, db)
  | [] =>
      let userId := au_id user in
      match filter (fun u => str_eq (u_id u) userId) (users db) with
      | [] => (reply_error 404 "Usuario no encontrado", db)
      | row :: _ =>
          if negb (bcrypt_compare K currentPassword (u_password row)) then
            (reply_error 400 "Contraseña actual incorrecta", db)
          else
            let hashedNewPassword := bcrypt_hash K newPassword in
            (* UPDATE users SET password = $1 WHERE id = $2 *)
            let db1 := set_users db
                         (map (fun u =>
                                 if str_eq (u_id u) userId then
                                   {| u_id := u_id u; u_name := u_name u;
                                      u_email := u_email u;
                                      u_password := hashedNewPassword;
                                      u_role := u_role u; u_phone := u_phone u;
                                      u_address := u_address u |}
                                 else u)
                              (users db)) in
            (* DELETE FROM user_sessions WHERE user_id = $1 *)
            let db2 := set_user_sessions db1
                         (filter (fun s => negb (str_eq (s_user_id s) userId))
                                 (user_sessions db1)) in
            ({| code := 200;
                body := Json true
                  (Some "Contraseña cambiada exitosamente. Por favor, inicia sesión nuevamente.")
                  None |},
             db2)
      end
  end.

(** ** The other middlewares (middleware/auth.js) *)

(** [req.user] is what an earlier middleware left, if any. *)
Definition requireAdmin (req_user : option AuthUser) : AuthOutcome :=
  match req_user with
  | None => Reply (reply_error 401 "Autenticación requerida")
  | Some user =>
      if negb (str_eq (au_role user) "admin") then
        Reply (reply_error 403 "Permisos de administrador requeridos")
      else Next user
  end.

(** Always calls [next()]; the first component is [req.user]. *)
Definition optionalAuth (K : Crypto) (now : Time) (authHeader : option string)
    (db : DB) : option AuthUser * DB :=
  let token := bearer_token authHeader in
  if falsy token then (None, db)
  else
    let tok := match token with Some t => t | None => "" end in
    match filter (fun s => str_eq (s_token s) tok) (user_sessions db) with
    | [] => (None, db)
    | session :: _ =>
        if s_expires_at session <? now then (None, db)
        else
          match jwt_verify K tok now with
          | JwtDecoded decoded =>
              match filter (fun u => str_eq (u_id u) (jwt_userId decoded))
                           (users db) with
              | [] => (None, db)
              | user :: _ => (Some (auth_user user), db)
              end
          | _ => (None, db)
          end
    end.

(** [`Bearer ${this.token}`], the header the storefront client sends
    (frontend/js/api.js, [ApiClient.request]). *)
Definition bearer_header (token : string) : string := "Bearer " ++ token.

Fixpoint no_space (s : string) : bool :=
  match s with
  | EmptyString => true
  | String c s' => negb (Ascii.eqb c " ") && no_space s'
  end.

Definition admin_ids (db : DB) : list Id :=
  map u_id (filter (fun u => str_eq (u_role u) "admin") (users db)).

(** Stored emails are pairwise distinct, and each is what [toLowerCase]
    made of some text. *)
Definition emails_normal (toLowerCase : string -> string) (db : DB) : Prop :=
  NoDup (map u_email (users db))
  /\ forall u, In u (users db) -> exists text, u_email u = toLowerCase text.

(** What identifies an account and what it may do. *)
Definition identity_of (u : User) : Id * string * string :=
  (u_id u, u_email u, u_role u).

(** ** Deleting a product (controllers/productController.js)

    DELETE FROM products WHERE id = $1 RETURNING image_url.  The line items
    that reference the product go with it: [order_items.product_id] is
    declared ON DELETE CASCADE.  [params_id] is [req.params.id].  The second
    component lists the files the handler tried to unlink; [unlink] tells
    which attempts succeed. *)
Definition deleteProduct (unlink : string -> bool) (params_id : UuidParam)
    (db : DB) : Response * list string * DB :=
  match params_id with
  | NotUuid _ => (reply_error 500 "Error interno del servidor", [], db)
  | IsUuid id =>
  match filter (fun p => str_eq (p_id p) id) (products db) with
  | [] => (reply_error 404 "Producto no encontrado", [], db)
  | row :: _ =>
      let db1 :=
        {| users := users db; user_sessions := user_sessions db;
           products := filter (fun p => negb (str_eq (p_id p) id)) (products db);
           orders := orders db;
           order_items :=
             filter (fun oi => negb (str_eq (oi_product_id oi) id))
                    (order_items db);
           payments := payments db |} in
      let answer := {| code := 200;
                       body := Json true (Some "Producto eliminado exitosamente")
                                 None |} in
      match p_image_url row with
      | Some url =>
          if str_eq url "" then (answer, [], db1)
          else if unlink url then (answer, [url], db1)
          else (answer, [url], db1)     (* the error is logged *)
      | None => (answer, [], db1)
      end
  end
  end.

(** ** The statements of the product listing (ProductController.getProducts)

    The WHERE conditions and the parameters the handler builds for its two
    queries.  [PLimit] and [POffset] stand for the JavaScript values [limit]
    and [(page - 1) * limit]. *)

Inductive SqlParam :=
| PText (s : string)
| PBool (b : bool)
| PLimit
| POffset.

Record ProductsQuery := {
  q_category : option string;
  q_type : option string;
  q_status : option string;
  q_featured : option string;
  q_search : option string
}.

(** [if (x)] on a query-string value. *)
Definition truthy (x : option string) : bool := negb (falsy x).

(** [`$${n}`] *)
Definition placeholder (n : nat) : string :=
  "$" ++ NilZero.string_of_uint (Nat.to_uint n).

(** [paramCount++; whereConditions.push(cond); queryParams.push(v)], with
    [paramCount] the number of parameters pushed so far. *)
Definition push_filter (cond : string -> string) (v : SqlParam)
    (st : list string * list SqlParam) : list string * list SqlParam :=
  let paramCount := S (List.length (snd st)) in
  ((fst st ++ [cond (placeholder paramCount)])%list, (snd st ++ [v])%list).

Definition push_if (x : option string) (cond : string -> string)
    (v : string -> SqlParam) (st : list string * list SqlParam)
    : list string * list SqlParam :=
  if truthy x then
    push_filter cond (v (match x with Some s => s | None => "" end)) st
  else st.

Definition product_filters (q : ProductsQuery)
    : list string * list SqlParam :=
  let status := match q_status q with Some s => s | None => "disponible" end in
  let st0 := (["p.status = $1"], [PText status]) in
  let st1 := push_if (q_category q) (fun ph => "c.slug = " ++ ph) PText st0 in
  let st2 := push_if (q_type q) (fun ph => "p.product_type = " ++ ph) PText st1 in
  let st3 := push_if (q_featured q) (fun ph => "p.is_featured = " ++ ph)
               (fun s => PBool (str_eq s "true")) st2 in
  push_if (q_search q)
    (fun ph => "(p.name ILIKE " ++ ph ++ " OR p.description ILIKE " ++ ph ++ ")")
    (fun s => PText ("%" ++ s ++ "%")) st3.

(** [xs.slice(0, -2)] *)
Definition slice_off_two {A : Type} (xs : list A) : list A :=
  firstn (List.length xs - 2) xs.

(** [xs.join(' AND ')] *)
Fixpoint join_and (xs : list string) : string :=
  match xs with
  | [] => ""
  | [x] => x
  | x :: rest => x ++ " AND " ++ join_and rest
  end.

Record ListingStatements := {
  list_where : string;
  list_limit : string;
  list_offset : string;
  list_params : list SqlParam;
  count_where : string;
  count_params : list SqlParam
}.

Definition getProducts_statements (q : ProductsQuery) : ListingStatements :=
  let whereConditions := fst (product_filters q) in
  let queryParams := (snd (product_filters q) ++ [PLimit; POffset])%list in
  let paramCount := List.length queryParams in
  {| list_where := join_and whereConditions;
     list_limit := placeholder (paramCount - 1);
     list_offset := placeholder paramCount;
     list_params := queryParams;
     count_where := join_and (slice_off_two whereConditions);
     count_params := slice_off_two queryParams |}.

(** How many of the four optional filters a request carries. *)
Definition optional_filters (q : ProductsQuery) : nat :=
  ((if truthy (q_category q) then 1 else 0)
   + (if truthy (q_type q) then 1 else 0)
   + (if truthy (q_featured q) then 1 else 0)
   + (if truthy (q_search q) then 1 else 0))%nat.

(** ** Further notions for the payment handlers *)

(** A product row is as it was, or was rewritten by the stock loop: same
    product, no stock left and agotado, or stock left and disponible. *)
Definition kept_or_rewritten (p p' : Product) : Prop :=
  p' = p
  \/ (p_id p' = p_id p /\ p_name p' = p_name p
      /\ p_product_type p' = p_product_type p
      /\ (p_stock p' = 0 /\ p_status p' = "agotado"
          \/ 0 < p_stock p' /\ p_status p' = "disponible")).

(** A discontinued product of stock 5, of which the order takes 3. *)
Definition shop_discontinued : DB :=
  set_products (shop 3)
    [product_set "descontinuado" 5 0 (sample_product "P" "normal" 5);
     sample_product "U" "unico" 1].

(** ** The statement of a product update (ProductController.updateProduct)

    The SET clauses and the parameters the handler builds from [req.body]
    (its keys in the order of [Object.keys]) and the uploaded file.  The
    values of the body and the parameters of the driver are left abstract,
    as are parseFloat, parseInt and JSON.stringify. *)

Section UpdateStatement.

Variables V P : Type.
Variables parseFloat parseInt stringify as_is : V -> P.
Variable text : string -> P.
Variable new_date : P.

Definition convert (key : string) (v : V) : P :=
  if str_eq key "price" || str_eq key "weight" then parseFloat v
  else if str_eq key "stock" then parseInt v
  else if str_eq key "dimensions" then stringify v
  else as_is v.

Record Building := {
  fields : list string;
  values : list P;
  paramCount : nat
}.

Definition push_field (col : string) (v : P) (b : Building) : Building :=
  {| fields := fields b ++ [col ++ " = " ++ placeholder (paramCount b)];
     values := values b ++ [v];
     paramCount := S (paramCount b) |}.

(** The body of [Object.keys(updates).forEach]. *)
Definition each_key (b : Building) (kv : string * V) : Building :=
  if negb (str_eq (fst kv) "id") then push_field (fst kv) (convert (fst kv) (snd kv)) b
  else b.

Record UpdateStatement := {
  set_clauses : list string;
  where_id : string;
  parameters : list P
}.

(** [None] is the answer 400 "No hay campos para actualizar". *)
Definition updateProduct_statement (id : P) (updates : list (string * V))
    (file : option string) : option UpdateStatement :=
  let b1 := fold_left each_key updates
              {| fields := []; values := []; paramCount := 1 |} in
  match fields b1 with
  | [] => None
  | _ :: _ =>
      let b2 := match file with
                | Some filename =>
                    push_field "image_url"
                      (text ("/uploads/products/" ++ filename)) b1
                | None => b1
                end in
      let b3 := push_field "updated_at" new_date b2 in
      Some {| set_clauses := fields b3;
              where_id := "id = " ++ placeholder (paramCount b3);
              parameters := values b3 ++ [id] |}
  end.

End UpdateStatement.

Arguments fields {P} b.
Arguments values {P} b.
Arguments paramCount {P} b.
Arguments set_clauses {P} u.
Arguments where_id {P} u.
Arguments parameters {P} u.

(** The keys of the body that become SET clauses. *)
Definition kept_keys {V : Type} (updates : list (string * V)) : list string :=
  map fst (filter (fun kv => negb (str_eq (fst kv) "id")) updates).

(** [col = $k] for the columns in a row, [k] counting from [from]. *)
Fixpoint numbered (from : nat) (cols : list string) : list string :=
  match cols with
  | [] => []
  | c :: rest => (c ++ " = " ++ placeholder from) :: numbered (S from) rest
  end.

(** The lines of an order, in table order, and what of a line shows in the
    item sent to the gateway for it. *)
Definition order_lines (oid : Id) (db : DB) : list OrderItem :=
  filter (fun oi => str_eq oid (oi_order_id oi)) (order_items db).

Definition line_key (oi : OrderItem) : option Id * option Z * option Z :=
  (Some (oi_product_id oi), Some (oi_quantity oi), Some (oi_unit_price oi)).

Definition item_key (i : PrefItem) : option Id * option Z * option Z :=
  (pf_id i, pf_quantity i, pf_unit_price i).

(** A product row after the webhook against the row before: the same
    product, with a stock between 0 and what it was. *)
Definition stock_bounded (p p' : Product) : Prop :=
  p_id p' = p_id p /\ 0 <= p_stock p' <= p_stock p.

(** * Properties *)

(** ** Strings and rows *)

Lemma str_eq_true (a b : string) : str_eq a b = true <-> a = b.
Proof. unfold str_eq. apply String.eqb_eq. Qed.

Lemma str_eq_false (a b : string) : str_eq a b = false <-> a <> b.
Proof. unfold str_eq. apply String.eqb_neq. Qed.

Lemma str_eq_refl (a : string) : str_eq a a = true.
Proof. apply str_eq_true. reflexivity. Qed.

Lemma sql_eq_true (a b : option string) :
  sql_eq a b = true <-> exists x, a = Some x /\ b = Some x.
Proof.
  destruct a as [x|], b as [y|]; simpl; split; intros H;
    try discriminate; try (now destruct H as (? & ? & ?)).
  - apply str_eq_true in H. subst. eauto.
  - destruct H as [z [H1 H2]]. inversion H1; inversion H2; subst.
    apply str_eq_refl.
Qed.

(** The constraints on products can never reject what the loop writes. *)
Lemma written_status_stock_checked (item : ItemRow) :
  chk_product_status (fst (written_status_stock item))
  && chk_nonneg (snd (written_status_stock item)) = true.
Proof.
  unfold written_status_stock.
  destruct (str_eq (product_type item) "unico"); [reflexivity|].
  cbn [fst snd].
  assert (Hs : chk_nonneg (Z.max 0 (stock item - quantity item)) = true)
    by (unfold chk_nonneg; apply Z.leb_le; lia).
  rewrite Hs, andb_true_r.
  destruct (Z.max 0 (stock item - quantity item) =? 0); reflexivity.
Qed.

Lemma update_product_written (now : Time) (item : ItemRow) (db : DB) :
  update_product (product_id item) (fst (written_status_stock item))
    (snd (written_status_stock item)) now db
  = Some (tt, set_products db (stock_write now (products db) item)).
Proof.
  unfold update_product, sql_update, stock_write, write_row.
  replace (forallb _ (products db)) with true; [reflexivity|].
  symmetry. apply forallb_forall. intros p _.
  destruct (str_eq (p_id p) (product_id item)); [|reflexivity].
  cbn [product_set p_status p_stock]. apply written_status_stock_checked.
Qed.

(** A branch of a handler that answered an error is not the run at hand. *)
Ltac refused H := inversion H; subst; discriminate.

(** ** The reconciliation transaction, statement by statement *)

Section Reconciliation.

Variable faults : Faults.
Variable now : Time.

Lemma client_query_run {A : Type} (stmt : DB -> option (A * DB)) (c : Client) :
  client_query faults stmt c =
    if faults (issued c) then (Throw ConnectionError, next_client c (work c))
    else match stmt (work c) with
         | Some (a, db') => (Ok a, next_client c db')
         | None => (Throw CheckViolation, next_client c (work c))
         end.
Proof. reflexivity. Qed.

Lemma reduce_stock_run (item : ItemRow) (c : Client) :
  reduce_stock faults now item c =
    if faults (issued c) then (Throw ConnectionError, next_client c (work c))
    else (Ok tt,
          next_client c (set_products (work c)
                           (stock_write now (products (work c)) item))).
Proof.
  pose proof (update_product_written now item (work c)) as H.
  unfold reduce_stock, written_status_stock in *.
  destruct (str_eq (product_type item) "unico"); cbn [fst snd] in H;
    rewrite client_query_run, H; reflexivity.
Qed.

Lemma set_products_same (db : DB) : set_products db (products db) = db.
Proof. destruct db; reflexivity. Qed.

(** A loop over two runs of rows is the loop over the first, then the loop
    over the second. *)
Lemma for_of_app {A : Type} (xs ys : list A) (body : A -> Tx unit)
    (c : Client) :
  for_of (xs ++ ys) body c = (for_of xs body ;;; for_of ys body) c.
Proof.
  revert c. induction xs as [|x xs IH]; intros c; cbn [for_of app].
  - reflexivity.
  - unfold bind in *. destruct (body x c) as [[u|e] c1]; [|reflexivity].
    apply IH.
Qed.

(** A loop that ends normally has issued one UPDATE per row, none of them
    failed, and leaves [stock_after] in the working copy. *)
Lemma for_of_reduce_stock_ok (rows : list ItemRow) (c c' : Client) (u : unit) :
  for_of rows (reduce_stock faults now) c = (Ok u, c') ->
  c' = {| issued := issued c + List.length rows;
          work := set_products (work c)
                    (stock_after now rows (products (work c))) |}.
Proof.
  revert c. induction rows as [|item rows IH]; intros c H.
  - cbn in H. inversion H; subst. cbn.
    rewrite Nat.add_0_r, set_products_same. destruct c'; reflexivity.
  - cbn [for_of] in H. unfold bind in H. rewrite reduce_stock_run in H.
    destruct (faults (issued c)); [discriminate|].
    apply IH in H. subst c'. cbn.
    rewrite Nat.add_succ_r. reflexivity.
Qed.

(** Without outside failures the loop always ends normally. *)
Lemma for_of_reduce_stock_run (rows : list ItemRow) (c : Client) :
  (forall k, faults k = false) ->
  for_of rows (reduce_stock faults now) c =
    (Ok tt, {| issued := issued c + List.length rows;
               work := set_products (work c)
                         (stock_after now rows (products (work c))) |}).
Proof.
  intros Hf. revert c. induction rows as [|item rows IH]; intros c.
  - cbn. rewrite Nat.add_0_r, set_products_same. destruct c; reflexivity.
  - cbn [for_of]. unfold bind. rewrite reduce_stock_run, Hf, IH.
    cbn. rewrite Nat.add_succ_r. reflexivity.
Qed.

Variable pd : PaymentData.

Lemma update_payments_run (db : DB) :
  update_payments pd now db =
    if payment_update_accepted pd db
    then Some (tt, set_payments db (payments_after pd now (payments db)))
    else None.
Proof.
  unfold update_payments, sql_update, payment_update_accepted, payments_after.
  cbn [payment_set pay_status].
  destruct (forallb _ (payments db)); reflexivity.
Qed.

Lemma order_status_for_checked (st : string) :
  chk_order_status (order_status_for st) = true.
Proof.
  unfold order_status_for.
  destruct (isPaymentApproved st); [reflexivity|].
  destruct (isPaymentRejected st); reflexivity.
Qed.

Lemma update_order_run (db : DB) :
  update_order (order_status_for (status pd)) (payment_id pd)
    (external_reference pd) now db
  = Some (tt, set_orders db (orders_after pd now (orders db))).
Proof.
  unfold update_order, sql_update, orders_after.
  replace (forallb _ (orders db)) with true; [reflexivity|].
  symmetry. apply forallb_forall. intros o _.
  destruct (sql_eq _ _); [|reflexivity].
  cbn [order_set o_status]. apply order_status_for_checked.
Qed.

(** The callback written with [order_status_for] in place of the mutable
    [orderStatus]. *)
Lemma reconcile_unfold (c : Client) :
  reconcile faults now pd c =
    (client_query faults (update_payments pd now) ;;;
     (if isPaymentApproved (status pd) then
        orderItems <- client_query faults
                        (select_order_items (external_reference pd)) ;;
        for_of orderItems (reduce_stock faults now)
      else ret tt) ;;;
     client_query faults
       (update_order (order_status_for (status pd)) (payment_id pd)
          (external_reference pd) now)) c.
Proof.
  unfold reconcile, order_status_for, bind, ret.
  destruct (client_query faults (update_payments pd now) c) as [[u|e] c1];
    [|reflexivity].
  destruct (isPaymentApproved (status pd)).
  - destruct (client_query faults _ c1) as [[rows|e] c2]; [|reflexivity].
    destruct (for_of rows _ c2) as [[u'|e] c3]; reflexivity.
  - destruct (isPaymentRejected (status pd)); reflexivity.
Qed.

(** A callback that returns normally has applied the three updates. *)
Lemma reconcile_commits (c c' : Client) (u : unit) :
  reconcile faults now pd c = (Ok u, c') ->
  payment_update_accepted pd (work c) = true
  /\ work c' = committed pd now (work c).
Proof.
  rewrite reconcile_unfold. unfold bind.
  rewrite client_query_run, update_payments_run.
  destruct (faults (issued c)); [discriminate|].
  destruct (payment_update_accepted pd (work c)); [|discriminate].
  intros H. split; [reflexivity|].
  unfold committed.
  destruct (isPaymentApproved (status pd)).
  - rewrite client_query_run in H. cbn [next_client issued work] in H.
    destruct (faults (S (issued c))); [discriminate|].
    unfold select_order_items in H.
    destruct (for_of _ (reduce_stock faults now) _) as [[v|e] c1] eqn:Hloop;
      [|discriminate].
    apply for_of_reduce_stock_ok in Hloop. subst c1.
    rewrite client_query_run, update_order_run in H.
    cbn [issued work] in H.
    destruct (faults _); [discriminate|].
    inversion H; subst. reflexivity.
  - unfold ret in H. rewrite client_query_run, update_order_run in H.
    cbn [next_client issued work] in H.
    destruct (faults _); [discriminate|].
    inversion H; subst. cbn. destruct (work c); reflexivity.
Qed.

(** With no outside failure and a payment status the schema accepts, the
    callback returns normally. *)
Lemma reconcile_runs (c : Client) :
  (forall k, faults k = false) ->
  payment_update_accepted pd (work c) = true ->
  exists c', reconcile faults now pd c = (Ok tt, c')
             /\ work c' = committed pd now (work c).
Proof.
  intros Hf Hacc.
  rewrite reconcile_unfold. unfold bind.
  rewrite client_query_run, update_payments_run, Hf, Hacc.
  unfold committed.
  destruct (isPaymentApproved (status pd)).
  - rewrite client_query_run, Hf. unfold select_order_items.
    rewrite for_of_reduce_stock_run by exact Hf.
    rewrite client_query_run, update_order_run, Hf.
    eexists. split; reflexivity.
  - unfold ret. rewrite client_query_run, update_order_run, Hf.
    eexists. split; [reflexivity|]. cbn. destruct (work c); reflexivity.
Qed.

End Reconciliation.

Lemma transaction_cases {A : Type} (faults : Faults) (cb : Tx A) (db : DB) :
  (exists a c, cb {| issued := 1; work := db |} = (Ok a, c)
               /\ transaction faults cb db = (Ok a, work c))
  \/ (exists e, transaction faults cb db = (Throw e, db)).
Proof.
  unfold transaction.
  destruct (faults 0%nat); [right; eauto|].
  destruct (cb _) as [[a|e] c] eqn:Hcb; [|right; eauto].
  destruct (faults (issued c)); [right; eauto|].
  left. eauto.
Qed.

(** ** Stock after the loop *)

Lemma stock_write_ids (now : Time) (t : list Product) (item : ItemRow) :
  map p_id (stock_write now t item) = map p_id t.
Proof.
  unfold stock_write, write_row. rewrite map_map. apply map_ext.
  intros p. destruct (str_eq _ _); reflexivity.
Qed.

Lemma stock_after_ids (now : Time) (rows : list ItemRow) (t : list Product) :
  map p_id (stock_after now rows t) = map p_id t.
Proof.
  unfold stock_after. revert t.
  induction rows as [|r rows IH]; intros t; cbn; [reflexivity|].
  rewrite IH. apply stock_write_ids.
Qed.

Lemma stock_after_app (now : Time) (rows1 rows2 : list ItemRow)
    (t : list Product) :
  stock_after now (rows1 ++ rows2) t
  = stock_after now rows2 (stock_after now rows1 t).
Proof. unfold stock_after. apply fold_left_app. Qed.

(** A row of the table survives, with its identifier and kind, whatever the
    loop writes. *)
Lemma stock_after_keeps (now : Time) (rows : list ItemRow) (t : list Product)
    (p : Product) :
  In p t ->
  exists p', In p' (stock_after now rows t)
             /\ p_id p' = p_id p /\ p_product_type p' = p_product_type p.
Proof.
  unfold stock_after. revert t p.
  induction rows as [|r rows IH]; intros t p Hin; cbn.
  - eauto.
  - destruct (IH (stock_write now t r) (write_row now r p))
      as (p' & Hin' & Hid & Hty).
    + unfold stock_write. apply in_map. exact Hin.
    + exists p'. split; [exact Hin'|].
      unfold write_row in Hid, Hty.
      destruct (str_eq (p_id p) (product_id r)); cbn in Hid, Hty; auto.
Qed.

(** A row is left as it is by rows written for other products. *)
Lemma stock_after_other (now : Time) (rows : list ItemRow) (t : list Product)
    (p : Product) :
  (forall r, In r rows -> product_id r <> p_id p) ->
  In p t -> In p (stock_after now rows t).
Proof.
  unfold stock_after. revert t.
  induction rows as [|r rows IH]; intros t Hno Hin; cbn; [exact Hin|].
  apply IH.
  - intros r' Hr'. apply Hno. right. exact Hr'.
  - unfold stock_write.
    apply (in_map (write_row now r)) in Hin.
    assert (Hne : str_eq (p_id p) (product_id r) = false).
    { apply str_eq_false. intros E. apply (Hno r); [left; reflexivity|].
      symmetry. exact E. }
    unfold write_row in Hin at 1. rewrite Hne in Hin. exact Hin.
Qed.

(** The row written for a line item obeys the rule of step (d) when its
    snapshot is the product as it was. *)
Lemma stock_write_rule (now : Time) (t : list Product) (item : ItemRow)
    (p0 p1 : Product) :
  In p1 t -> p_id p1 = p_id p0 -> p_product_type p1 = p_product_type p0 ->
  product_id item = p_id p0 -> stock item = p_stock p0 ->
  product_type item = p_product_type p0 ->
  exists p', In p' (stock_write now t item)
             /\ stock_rule p0 (quantity item) p'.
Proof.
  intros Hin Hid Hty Hpid Hst Hpt.
  exists (product_set (fst (written_status_stock item))
            (snd (written_status_stock item)) now p1).
  split.
  - unfold stock_write.
    apply (in_map (write_row now item)) in Hin.
    assert (He : str_eq (p_id p1) (product_id item) = true)
      by (apply str_eq_true; congruence).
    unfold write_row in Hin at 1. rewrite He in Hin. exact Hin.
  - unfold stock_rule, written_status_stock.
    cbn [product_set p_id p_product_type p_stock p_status].
    rewrite Hpt, Hst.
    repeat split; try assumption.
    destruct (str_eq (p_product_type p0) "unico"); cbn [fst snd]; auto.
Qed.

Lemma filter_by_pk (prods : list Product) (p : Product) :
  NoDup (map p_id prods) -> In p prods ->
  filter (fun q => str_eq (p_id p) (p_id q)) prods = [p].
Proof.
  induction prods as [|a prods IH]; intros Hnd Hin; [contradiction|].
  cbn in Hnd. inversion Hnd as [|x l Hnotin Hnd']; subst.
  cbn. destruct Hin as [-> | Hin].
  - rewrite str_eq_refl. f_equal.
    clear IH Hnd Hnd'. induction prods as [|b prods IHp]; [reflexivity|].
    cbn. destruct (str_eq (p_id p) (p_id b)) eqn:E.
    + apply str_eq_true in E. exfalso. apply Hnotin. left. congruence.
    + apply IHp. intros H. apply Hnotin. right. exact H.
  - destruct (str_eq (p_id p) (p_id a)) eqn:E.
    + apply str_eq_true in E. exfalso. apply Hnotin.
      rewrite <- E. apply in_map. exact Hin.
    + apply IH; assumption.
Qed.

Lemma order_item_rows_app (ref : option Id) (l1 l2 : list OrderItem)
    (prods : list Product) :
  order_item_rows ref (l1 ++ l2) prods
  = (order_item_rows ref l1 prods ++ order_item_rows ref l2 prods)%list.
Proof. unfold order_item_rows. apply flat_map_app. Qed.

Lemma order_item_rows_in (ref : option Id) (items : list OrderItem)
    (prods : list Product) (r : ItemRow) :
  In r (order_item_rows ref items prods) ->
  exists oi, In oi items /\ ref = Some (oi_order_id oi)
             /\ product_id r = oi_product_id oi.
Proof.
  unfold order_item_rows. intros H. apply in_flat_map in H.
  destruct H as (oi & Hoi & Hr). exists oi. split; [exact Hoi|].
  destruct (sql_eq (Some (oi_order_id oi)) ref) eqn:E; [|contradiction].
  apply sql_eq_true in E. destruct E as (x & Hx & Href).
  inversion Hx; subst. split; [reflexivity|].
  apply in_map_iff in Hr. destruct Hr as (q & Hq & _). subst r. reflexivity.
Qed.

Lemma order_item_rows_one (oi : OrderItem) (prods : list Product)
    (p : Product) :
  NoDup (map p_id prods) -> In p prods -> p_id p = oi_product_id oi ->
  order_item_rows (Some (oi_order_id oi)) [oi] prods
  = [ {| product_id := oi_product_id oi; quantity := oi_quantity oi;
         stock := p_stock p; product_type := p_product_type p |} ].
Proof.
  intros Hnd Hin Hid. unfold order_item_rows. cbn.
  rewrite str_eq_refl, <- Hid, (filter_by_pk prods p Hnd Hin). reflexivity.
Qed.

(** ** The handler on a payment notification *)

Section PaymentNotification.

Variable payment_get : Id -> option PaymentInfo.
Variable faults : Faults.
Variable now : Time.
Variable n : Notification.
Variable pd : PaymentData.

(** The notification is a payment event and the gateway resolved it. *)
Hypothesis resolved : processWebhook payment_get n = Ok (Some pd).

Lemma handleWebhook_cases (db : DB) :
  (handleWebhook payment_get faults now n db
     = (send 200 "OK", committed pd now db)
   /\ payment_update_accepted pd db = true)
  \/ handleWebhook payment_get faults now n db = (send 500 "Error", db).
Proof.
  unfold handleWebhook. rewrite resolved.
  destruct (transaction_cases faults (reconcile faults now pd) db)
    as [(a & c & Hcb & Htx) | (e & Htx)]; rewrite Htx.
  - apply reconcile_commits in Hcb. cbn [work] in Hcb.
    destruct Hcb as [Hacc Hw]. left. rewrite Hw. auto.
  - right. reflexivity.
Qed.

Lemma handleWebhook_acknowledged (db db' : DB) (r : Response) :
  handleWebhook payment_get faults now n db = (r, db') ->
  code r = 200 ->
  db' = committed pd now db /\ payment_update_accepted pd db = true.
Proof.
  intros Hh Hc.
  destruct (handleWebhook_cases db) as [[He Hacc] | He];
    rewrite He in Hh; inversion Hh; subst.
  - auto.
  - discriminate.
Qed.

Lemma handleWebhook_runs (db : DB) :
  (forall k, faults k = false) ->
  payment_update_accepted pd db = true ->
  handleWebhook payment_get faults now n db
    = (send 200 "OK", committed pd now db).
Proof.
  intros Hf Hacc. unfold handleWebhook, transaction. rewrite resolved, Hf.
  destruct (reconcile_runs faults now pd {| issued := 1; work := db |} Hf Hacc)
    as (c' & Hrun & Hw).
  rewrite Hrun, Hf, Hw. reflexivity.
Qed.

(** A status outside the CHECK list of [payments.status] cannot be stored:
    when a payment row matches, the handler answers 500 and nothing
    changes. *)
Lemma handleWebhook_unstorable_status (db : DB) (p : Payment) :
  In p (payments db) -> payment_matches pd p = true ->
  chk_payment_status (status pd) = false ->
  handleWebhook payment_get faults now n db = (send 500 "Error", db).
Proof.
  intros Hin Hm Hchk.
  destruct (handleWebhook_cases db) as [[_ Hacc] | He]; [|exact He].
  unfold payment_update_accepted in Hacc.
  rewrite forallb_forall in Hacc. specialize (Hacc p Hin).
  rewrite Hm, Hchk in Hacc. discriminate.
Qed.

(** X25.  When a webhook whose gateway-resolved status is approved is
    acknowledged, every line item of the order that is the last one of the
    order to name its product is written according to step (d), from the
    product as it was when the webhook arrived: in the database the handler
    leaves, a unique item has stock 0 and status agotado, any other product
    has stock max(0, stock - quantity) and status agotado when that is 0,
    disponible otherwise.  The primary key of products is kept. *)
Theorem handleWebhook_stock_per_line_item (db db' : DB) (r : Response) :
  status pd = "approved" ->
  handleWebhook payment_get faults now n db = (r, db') ->
  code r = 200 ->
  products_pk db ->
  products_pk db'
  /\ forall (pre post : list OrderItem) (oi : OrderItem) (p : Product),
       order_items db = (pre ++ oi :: post)%list ->
       external_reference pd = Some (oi_order_id oi) ->
       In p (products db) -> p_id p = oi_product_id oi ->
       (forall oj, In oj post -> oi_order_id oj = oi_order_id oi ->
                   oi_product_id oj <> oi_product_id oi) ->
       exists p', In p' (products db') /\ stock_rule p (oi_quantity oi) p'.
Proof.
  intros Hst Hh Hc Hpk.
  destruct (handleWebhook_acknowledged _ _ _ Hh Hc) as [-> _].
  assert (Happ : isPaymentApproved (status pd) = true)
    by (rewrite Hst; reflexivity).
  unfold products_pk, committed. cbn [products]. rewrite Happ.
  split.
  { rewrite stock_after_ids. exact Hpk. }
  intros pre post oi p Hitems Href Hin Hid Hlast.
  rewrite Href.
  assert (Hmid :
    exists p', In p' (stock_after now
                        (order_item_rows (Some (oi_order_id oi)) (pre ++ [oi])
                           (products db)) (products db))
               /\ stock_rule p (oi_quantity oi) p').
  { rewrite order_item_rows_app, stock_after_app.
    rewrite (order_item_rows_one oi (products db) p Hpk Hin Hid).
    destruct (stock_after_keeps now
                (order_item_rows (Some (oi_order_id oi)) pre (products db))
                (products db) p Hin) as (p1 & Hin1 & Hid1 & Hty1).
    cbn [stock_after fold_left].
    eapply stock_write_rule; eauto. }
  destruct Hmid as (p' & Hin' & Hrule).
  exists p'. split; [|exact Hrule].
  rewrite Hitems.
  replace (pre ++ oi :: post)%list with ((pre ++ [oi]) ++ post)%list
    by (rewrite <- app_assoc; reflexivity).
  rewrite order_item_rows_app, stock_after_app.
  apply stock_after_other; [|exact Hin'].
  intros row Hrow Heq.
  apply order_item_rows_in in Hrow.
  destruct Hrow as (oj & Hoj & Hord & Hprod).
  inversion Hord as [Hord'].
  apply (Hlast oj Hoj); [congruence|].
  destruct Hrule as (Hid' & _). congruence.
Qed.

(** X26.  When a webhook is acknowledged (answered 200), every order named
    by the gateway's external reference has the status derived from the
    gateway-resolved payment status: pagado for approved, cancelado for
    rejected or cancelled, pendiente for anything else; unless the status is
    approved, no product row is touched. *)
Theorem handleWebhook_order_status (db db' : DB) (r : Response) :
  handleWebhook payment_get faults now n db = (r, db') ->
  code r = 200 ->
  exists s,
    (status pd = "approved" -> s = "pagado")
    /\ (status pd = "rejected" \/ status pd = "cancelled" -> s = "cancelado")
    /\ (status pd <> "approved" -> status pd <> "rejected" ->
        status pd <> "cancelled" -> s = "pendiente")
    /\ (forall o, In o (orders db) -> external_reference pd = Some (o_id o) ->
                  In (order_set s (payment_id pd) now o) (orders db'))
    /\ (forall o', In o' (orders db') ->
                   external_reference pd = Some (o_id o') -> o_status o' = s)
    /\ (status pd <> "approved" -> products db' = products db).
Proof.
  intros Hh Hc.
  destruct (handleWebhook_acknowledged _ _ _ Hh Hc) as [-> _].
  exists (order_status_for (status pd)).
  unfold order_status_for, isPaymentApproved, isPaymentRejected, includes.
  cbn [existsb].
  repeat split.
  - intros ->. reflexivity.
  - intros [-> | ->]; reflexivity.
  - intros Ha Hr Hcn.
    apply str_eq_false in Ha, Hr, Hcn. rewrite Ha, Hr, Hcn. reflexivity.
  - intros o Hin Href. cbn [committed orders]. unfold orders_after.
    apply (in_map (fun o0 => if sql_eq (Some (o_id o0)) (external_reference pd)
                             then order_set (order_status_for (status pd))
                                    (payment_id pd) now o0
                             else o0)) in Hin.
    rewrite Href in Hin at 1. cbn [sql_eq] in Hin.
    rewrite str_eq_refl in Hin. exact Hin.
  - intros o' Hin Href. cbn [committed orders] in Hin. unfold orders_after in Hin.
    apply in_map_iff in Hin. destruct Hin as (o & Ho & _).
    destruct (sql_eq (Some (o_id o)) (external_reference pd)) eqn:E.
    + subst o'. reflexivity.
    + subst o'. rewrite Href in E. cbn in E. rewrite str_eq_refl in E.
      discriminate.
  - intros Ha. cbn [committed products]. unfold isPaymentApproved.
    apply str_eq_false in Ha. rewrite Ha. reflexivity.
Qed.

(** C4.  If a step of the reconciliation transaction fails (BEGIN, any
    statement of the callback, or COMMIT), the handler answers 500 and the
    store is the one it found: neither the payment update, nor a stock
    write, nor the order update persists.  If none fails, it answers 200 and
    the three updates are all in the store. *)
Theorem handleWebhook_all_or_nothing (db : DB) :
  (reconciliation_fails faults now pd db ->
   handleWebhook payment_get faults now n db = (send 500 "Error", db))
  /\ (~ reconciliation_fails faults now pd db ->
      handleWebhook payment_get faults now n db
        = (send 200 "OK", committed pd now db)).
Proof.
  unfold handleWebhook, transaction, reconciliation_fails.
  rewrite resolved. split.
  - intros [H0 | [(e & c & Hrun) | (u & c & Hrun & Hcommit)]].
    + rewrite H0. reflexivity.
    + rewrite Hrun. destruct (faults 0%nat); reflexivity.
    + rewrite Hrun, Hcommit. destruct (faults 0%nat); reflexivity.
  - intros Hnot.
    destruct (faults 0%nat) eqn:H0; [exfalso; apply Hnot; auto|].
    destruct (reconcile faults now pd {| issued := 1; work := db |})
      as [[u|e] c] eqn:Hrun; [|exfalso; apply Hnot; eauto].
    destruct (faults (issued c)) eqn:Hcommit;
      [exfalso; apply Hnot; eauto 6|].
    apply reconcile_commits in Hrun. destruct Hrun as [_ Hw].
    rewrite Hw. reflexivity.
Qed.

Lemma payment_matches_iff (p : Payment) :
  payment_matches pd p = true <->
  pay_external_id p = Some (payment_id pd)
  \/ external_reference pd = Some (pay_order_id p).
Proof.
  unfold payment_matches. rewrite orb_true_iff, !sql_eq_true. split.
  - intros [(x & H1 & H2) | (x & H1 & H2)]; [left | right]; congruence.
  - intros [H | H]; [left | right]; eauto.
Qed.

(** C5, as the code has it.  An acknowledged webhook rewrites the status, the
    stored gateway payload and the modification mark of every payment row
    whose external id is the gateway's payment id or whose order is the one
    the gateway's external reference names - every payment attempt of that
    order, then - and leaves every other payment row, and every other column,
    as it was. *)
Theorem handleWebhook_payment_rows (db db' : DB) (r : Response) :
  handleWebhook payment_get faults now n db = (r, db') ->
  code r = 200 ->
  exists f : Payment -> Payment,
    payments db' = map f (payments db)
    /\ forall p,
         (pay_external_id p = Some (payment_id pd)
          \/ external_reference pd = Some (pay_order_id p) ->
          f p = {| pay_id := pay_id p; pay_order_id := pay_order_id p;
                   pay_payment_method := pay_payment_method p;
                   pay_amount := pay_amount p; pay_currency := pay_currency p;
                   pay_status := status pd;
                   pay_external_id := pay_external_id p;
                   pay_gateway_response := Some (GwPayment pd);
                   pay_created_at := pay_created_at p;
                   pay_updated_at := now |})
         /\ (pay_external_id p <> Some (payment_id pd) ->
             external_reference pd <> Some (pay_order_id p) ->
             f p = p).
Proof.
  intros Hh Hc.
  destruct (handleWebhook_acknowledged _ _ _ Hh Hc) as [-> _].
  exists (fun p => if payment_matches pd p then payment_set pd now p else p).
  split; [reflexivity|].
  intros p. split.
  - intros H. apply payment_matches_iff in H. rewrite H. reflexivity.
  - intros H1 H2.
    destruct (payment_matches pd p) eqn:E; [|reflexivity].
    apply payment_matches_iff in E. destruct E; contradiction.
Qed.

End PaymentNotification.

Lemma handleWebhook_gateway_failure (payment_get : Id -> option PaymentInfo)
    (faults : Faults) (now : Time) (n : Notification) (db : DB) (e : Exn) :
  processWebhook payment_get n = Throw e ->
  handleWebhook payment_get faults now n db = (send 500 "Error", db).
Proof. intros H. unfold handleWebhook. rewrite H. reflexivity. Qed.

(** An event that is not a payment is acknowledged and ignored. *)
Lemma handleWebhook_other_event (payment_get : Id -> option PaymentInfo)
    (faults : Faults) (now : Time) (n : Notification) (db : DB) :
  n_type n <> "payment" ->
  handleWebhook payment_get faults now n db = (send 200 "OK", db).
Proof.
  intros H. apply str_eq_false in H.
  unfold handleWebhook, processWebhook. rewrite H. reflexivity.
Qed.

(** ** Stock on payment approval: the cases of the specification *)

(** Stock 5 and an approved payment for 3 units: stock 2, disponible. *)
Lemma handleWebhook_stock_per_line_item_witness :
  exists p', In p' (products (snd (handleWebhook (gateway_says "approved")
                                     no_faults 1000 payment_77 (shop 3))))
             /\ p_id p' = "P" /\ p_stock p' = 2 /\ p_status p' = "disponible".
Proof.
  destruct (handleWebhook_stock_per_line_item (gateway_says "approved")
              no_faults 1000 payment_77 (payment_data_77 "approved") eq_refl
              (shop 3)
              (snd (handleWebhook (gateway_says "approved") no_faults 1000
                      payment_77 (shop 3)))
              (send 200 "OK") eq_refl eq_refl eq_refl) as [_ H].
  - unfold products_pk. cbn. repeat constructor; cbn; intuition discriminate.
  - destruct (H [] [] {| oi_order_id := "O"; oi_product_id := "P";
                         oi_quantity := 3; oi_unit_price := 10000 |}
                (sample_product "P" "normal" 5) eq_refl eq_refl
                (or_introl eq_refl) eq_refl
                (fun oj Hoj => match Hoj with end))
      as (p' & Hin & Hid & _ & Hst & Hstatus).
    exists p'. cbn in Hid, Hst, Hstatus. rewrite Hst in Hstatus.
    repeat split; assumption.
Defined.

Example stock_5_quantity_3 :
  products (snd (handleWebhook (gateway_says "approved") no_faults 1000
                   payment_77 (shop 3)))
  = [product_set "disponible" 2 1000 (sample_product "P" "normal" 5);
     sample_product "U" "unico" 1].
Proof. reflexivity. Qed.

Example stock_5_quantity_5 :
  products (snd (handleWebhook (gateway_says "approved") no_faults 1000
                   payment_77 (shop 5)))
  = [product_set "agotado" 0 1000 (sample_product "P" "normal" 5);
     sample_product "U" "unico" 1].
Proof. reflexivity. Qed.

Example stock_5_quantity_7 :
  products (snd (handleWebhook (gateway_says "approved") no_faults 1000
                   payment_77 (shop 7)))
  = [product_set "agotado" 0 1000 (sample_product "P" "normal" 5);
     sample_product "U" "unico" 1].
Proof. reflexivity. Qed.

(** A unique item is sold out whatever the quantity ordered. *)
Example stock_unique_item :
  products (snd (handleWebhook (gateway_says "approved") no_faults 1000
                   payment_77 shop_unique))
  = [sample_product "P" "normal" 5;
     product_set "agotado" 0 1000 (sample_product "U" "unico" 1)].
Proof. reflexivity. Qed.

(** C1.  An order that names the same product on two lines, 2 units and
    1 unit of a stock of 5.  The approved webhook is acknowledged and the
    order is pagado, but the product ends with stock 4: each line's write is
    computed from the stock selected before the loop, so the second line
    (5 - 1) overwrites the first (5 - 2), where taking each line's quantity
    off the stock gives 2. *)
Theorem handleWebhook_two_lines_one_product :
  let out := handleWebhook (gateway_says "approved") no_faults 1000 payment_77
               shop_two_lines in
  map (fun oi => (oi_order_id oi, oi_product_id oi, oi_quantity oi))
      (order_items shop_two_lines)
  = [("O", "P", 2); ("O", "P", 1)]
  /\ map (fun p => (p_id p, p_product_type p, p_stock p))
         (products shop_two_lines)
     = [("P", "normal", 5); ("U", "unico", 1)]
  /\ fst out = send 200 "OK"
  /\ map o_status (orders (snd out)) = ["pagado"]
  /\ map (fun p => (p_id p, p_stock p, p_status p)) (products (snd out))
     = [("P", 4, "disponible"); ("U", 1, "disponible")]
  /\ Z.max 0 (Z.max 0 (5 - 2) - 1) = 2.
Proof. cbn. repeat split. Qed.

(** ** Order status: cases *)

(** A rejected payment: the order is cancelled and the stock stays. *)
Lemma handleWebhook_order_status_witness :
  (forall o', In o' (orders (snd (handleWebhook (gateway_says "rejected")
                                    no_faults 1000 payment_77 (shop 3)))) ->
              o_id o' = "O" -> o_status o' = "cancelado")
  /\ products (snd (handleWebhook (gateway_says "rejected") no_faults 1000
                      payment_77 (shop 3)))
     = products (shop 3).
Proof.
  destruct (handleWebhook_order_status (gateway_says "rejected") no_faults 1000
              payment_77 (payment_data_77 "rejected") eq_refl (shop 3)
              (snd (handleWebhook (gateway_says "rejected") no_faults 1000
                      payment_77 (shop 3)))
              (send 200 "OK") eq_refl eq_refl)
    as (s & _ & Hrej & _ & _ & Hall & Hprod).
  split.
  - intros o' Hin Hid. rewrite <- (Hrej (or_introl eq_refl)).
    apply Hall; [exact Hin|]. cbn. rewrite Hid. reflexivity.
  - apply Hprod. discriminate.
Defined.

Example order_status_approved :
  map o_status
    (orders (snd (handleWebhook (gateway_says "approved") no_faults 1000
                    payment_77 (shop 3))))
  = ["pagado"].
Proof. reflexivity. Qed.

Example order_status_pending_resets_paid_order :
  map o_status
    (orders (snd (handleWebhook (gateway_says "pending") no_faults 1000
                    payment_77
                    (set_orders (shop 3) [sample_order "O" "alice" "pagado"]))))
  = ["pendiente"].
Proof. reflexivity. Qed.

(** C3.  in_process and in_mediation are statuses of the gateway, which
    [isPaymentPending] lists, but [payments.status] admits neither.  For the
    sample order, which has a payment row, the webhook of a payment in
    process is answered 500 and nothing is written.  Once the order is
    pagado, the webhook that reports the payment in mediation is answered
    500 as well and the order stays pagado, where the status derived from
    in_mediation is pendiente. *)
Theorem handleWebhook_status_outside_check :
  isPaymentPending "in_process" = true
  /\ isPaymentPending "in_mediation" = true
  /\ order_status_for "in_process" = "pendiente"
  /\ order_status_for "in_mediation" = "pendiente"
  /\ handleWebhook (gateway_says "in_process") no_faults 1000 payment_77
       (shop 3)
     = (send 500 "Error", shop 3)
  /\ map o_status (orders shop_paid) = ["pagado"]
  /\ handleWebhook (gateway_says "in_mediation") no_faults 2000 payment_77
       shop_paid
     = (send 500 "Error", shop_paid).
Proof. cbn. repeat split. Qed.

(** ** Atomicity: a failure after two writes *)

(** The UPDATE of the order fails after the payment row and the stock have
    been rewritten in the working copy: nothing of it is left. *)
Lemma handleWebhook_all_or_nothing_witness :
  (exists c, reconcile (fault_at 4) 1000 (payment_data_77 "approved")
               {| issued := 1; work := shop 3 |} = (Throw ConnectionError, c)
             /\ map p_stock (products (work c)) = [2; 1]
             /\ map pay_status (payments (work c)) = ["approved"])
  /\ handleWebhook (gateway_says "approved") (fault_at 4) 1000 payment_77 (shop 3)
     = (send 500 "Error", shop 3).
Proof.
  split.
  - eexists. repeat split; reflexivity.
  - apply (handleWebhook_all_or_nothing (gateway_says "approved") (fault_at 4)
             1000 payment_77 (payment_data_77 "approved") eq_refl (shop 3)).
    right. left. eexists. eexists. reflexivity.
Defined.

(** ** Payment rows: two attempts for one order *)

Lemma handleWebhook_payment_rows_witness :
  map pay_status
    (payments (snd (handleWebhook (gateway_says "approved") no_faults 1000
                      payment_77 shop_two_attempts)))
  = ["approved"; "approved"].
Proof.
  destruct (handleWebhook_payment_rows (gateway_says "approved") no_faults 1000
              payment_77 (payment_data_77 "approved") eq_refl shop_two_attempts
              (snd (handleWebhook (gateway_says "approved") no_faults 1000
                      payment_77 shop_two_attempts))
              (send 200 "OK") eq_refl eq_refl) as (f & Hmap & Hf).
  rewrite Hmap. cbn [shop_two_attempts set_payments payments map].
  rewrite (proj1 (Hf (sample_payment "pay-1" "O" (Some "77") 100))
             (or_introl eq_refl)).
  rewrite (proj1 (Hf manual_attempt) (or_intror eq_refl)).
  reflexivity.
Defined.

(** C5, as stated, fails: the webhook for gateway payment 77 also rewrites
    the manual attempt of the same order, whose external id is not 77. *)
Lemma handleWebhook_rewrites_other_attempts :
  let db' := snd (handleWebhook (gateway_says "approved") no_faults 1000
                    payment_77 shop_two_attempts) in
  In manual_attempt (payments shop_two_attempts)
  /\ pay_external_id manual_attempt <> Some "77"
  /\ ~ In manual_attempt (payments db')
  /\ exists p', In p' (payments db') /\ pay_id p' = pay_id manual_attempt
                /\ pay_status p' = "approved"
                /\ pay_gateway_response p'
                   <> pay_gateway_response manual_attempt.
Proof.
  cbn. repeat split.
  - right. left. reflexivity.
  - discriminate.
  - intros [H | [H | []]]; discriminate.
  - eexists. split; [right; left; reflexivity|].
    cbn. repeat split. discriminate.
Qed.

(** ** Redelivery *)

Lemma payments_after_again (pd : PaymentData) (t1 t2 : Time)
    (l : list Payment) :
  payments_after pd t2 (payments_after pd t1 l) = payments_after pd t2 l.
Proof.
  unfold payments_after. rewrite map_map. apply map_ext. intros p.
  destruct (payment_matches pd p) eqn:E.
  - replace (payment_matches pd (payment_set pd t1 p)) with true
      by (symmetry; exact E).
    reflexivity.
  - rewrite E. reflexivity.
Qed.

Lemma orders_after_again (pd : PaymentData) (t1 t2 : Time) (l : list Order) :
  orders_after pd t2 (orders_after pd t1 l) = orders_after pd t2 l.
Proof.
  unfold orders_after. rewrite map_map. apply map_ext. intros o.
  destruct (sql_eq (Some (o_id o)) (external_reference pd)) eqn:E.
  - cbn [order_set o_id]. rewrite E. reflexivity.
  - rewrite E. reflexivity.
Qed.

(** C2, as the code has it.  Delivering the same approved-payment
    notification twice leaves the payments and the orders (and users,
    sessions and line items) exactly as one delivery at the time of the
    second does; the products are not covered: the second delivery runs step
    (d) again, on the stock the first one left. *)
Theorem handleWebhook_redelivery
    (payment_get : Id -> option PaymentInfo) (f1 f2 f3 : Faults)
    (t1 t2 : Time) (n : Notification) (db db1 db2 db3 : DB)
    (r1 r2 r3 : Response) (pd : PaymentData) :
  processWebhook payment_get n = Ok (Some pd) ->
  status pd = "approved" ->
  handleWebhook payment_get f1 t1 n db = (r1, db1) -> code r1 = 200 ->
  handleWebhook payment_get f2 t2 n db1 = (r2, db2) -> code r2 = 200 ->
  handleWebhook payment_get f3 t2 n db = (r3, db3) -> code r3 = 200 ->
  payments db2 = payments db3
  /\ orders db2 = orders db3
  /\ users db2 = users db3
  /\ user_sessions db2 = user_sessions db3
  /\ order_items db2 = order_items db3
  /\ products db2
     = stock_after t2
         (order_item_rows (external_reference pd) (order_items db1)
            (products db1))
         (products db1).
Proof.
  intros Hpw Hst H1 Hc1 H2 Hc2 H3 Hc3.
  destruct (handleWebhook_acknowledged _ _ _ _ _ Hpw _ _ _ H1 Hc1) as [-> _].
  destruct (handleWebhook_acknowledged _ _ _ _ _ Hpw _ _ _ H2 Hc2) as [-> _].
  destruct (handleWebhook_acknowledged _ _ _ _ _ Hpw _ _ _ H3 Hc3) as [-> _].
  assert (Happ : isPaymentApproved (status pd) = true)
    by (rewrite Hst; reflexivity).
  unfold committed. cbn [payments orders users user_sessions order_items products].
  rewrite payments_after_again, orders_after_again, Happ.
  repeat split; reflexivity.
Qed.

Lemma handleWebhook_redelivery_witness :
  let once := snd (handleWebhook (gateway_says "approved") no_faults 2000
                     payment_77 (shop 3)) in
  let first := snd (handleWebhook (gateway_says "approved") no_faults 1000
                      payment_77 (shop 3)) in
  let twice := snd (handleWebhook (gateway_says "approved") no_faults 2000
                      payment_77 first) in
  payments twice = payments once /\ orders twice = orders once.
Proof.
  intros once first twice.
  destruct (handleWebhook_redelivery (gateway_says "approved")
              no_faults no_faults no_faults 1000 2000 payment_77
              (shop 3) first twice once
              (send 200 "OK") (send 200 "OK") (send 200 "OK")
              (payment_data_77 "approved")
              eq_refl eq_refl eq_refl eq_refl eq_refl eq_refl eq_refl eq_refl)
    as (Hp & Ho & _).
  split; assumption.
Defined.

(** C2, as stated, fails: with stock 5 and 3 units ordered, one delivery
    leaves stock 2 and a second one takes another 3 units off. *)
Lemma handleWebhook_redelivery_decrements_again :
  let once := handleWebhook (gateway_says "approved") no_faults 1000
                payment_77 (shop 3) in
  let twice := handleWebhook (gateway_says "approved") no_faults 1000
                 payment_77 (snd once) in
  fst once = send 200 "OK" /\ fst twice = send 200 "OK"
  /\ map p_stock (products (snd once)) = [2; 1]
  /\ map p_stock (products (snd twice)) = [0; 1]
  /\ map p_status (products (snd twice)) = ["agotado"; "disponible"]
  /\ snd twice <> snd once.
Proof.
  cbn. repeat split. intros H. discriminate H.
Qed.

(** ** Opening a payment *)

Lemma createPreference_ok
    (preference_create : PreferenceRequest -> option PreferenceResult)
    (frontend_url backend_url : string) (now : Time) (od : OrderData)
    (pref : Preference) (calls : list PreferenceRequest) :
  createPreference preference_create frontend_url backend_url now od
    = (Ok pref, calls) ->
  exists req result,
    calls = [req] /\ preference_create req = Some result
    /\ pr_external_reference req = od_order_id od
    /\ preference_id pref = res_id result.
Proof.
  unfold createPreference.
  destruct (od_user od) as [[[name email] phone]|]; [|discriminate].
  match goal with
  | |- context [preference_create ?req] =>
      destruct (preference_create req) as [result|] eqn:Hgw; [|discriminate];
      intros H; inversion H; subst; exists req, result
  end.
  repeat split; assumption || reflexivity.
Qed.

Lemma insert_payment_some (uuid : Id) (now : Time) (order_id : Id)
    (method : option string) (amount : Z) (currency st : string)
    (external_id : option string) (response : option GatewayResponse)
    (db db' : DB) (row : Payment) :
  insert_payment uuid now order_id method amount currency st external_id
    response db = Some (row, db') ->
  exists m, method = Some m
    /\ row = {| pay_id := uuid; pay_order_id := order_id;
                pay_payment_method := m; pay_amount := amount;
                pay_currency := currency; pay_status := st;
                pay_external_id := external_id;
                pay_gateway_response := response;
                pay_created_at := now; pay_updated_at := now |}
    /\ db' = set_payments db (payments db ++ [row]).
Proof.
  unfold insert_payment. destruct method as [m|]; [|discriminate].
  destruct (chk_payment_status st && chk_nonneg amount); [|discriminate].
  intros H. inversion H; subst. exists m. repeat split.
Qed.

Lemma uuid_param_none (field : option UuidParam) :
  uuid_param field = None <-> exists text, field = Some (NotUuid text).
Proof.
  destruct field as [[id|text]|]; cbn; split; try discriminate; eauto.
  - intros (t & H). discriminate H.
  - intros (t & H). discriminate H.
Qed.

Lemma uuid_param_value (field : option UuidParam) (order_id : option Id)
    (id : Id) :
  uuid_param field = Some order_id ->
  (order_id = Some id <-> field = Some (IsUuid id)).
Proof.
  destruct field as [[id0|text]|]; cbn; intros H; inversion H; subst;
    split; intros E; inversion E; reflexivity.
Qed.

(** C6, as the code has it.  [createPaymentPreference] answers 500 when the
    order id of the request is not a uuid; otherwise 404 when no order with
    that id belongs to the caller, and 400 when the caller's order is not
    pendiente; in all three cases it asks nothing of the gateway and writes
    nothing.  It reaches the gateway or the store only for a pendiente order
    of the caller, and what it then writes is one new payment row, pending,
    whose external id is the preference id the gateway answered. *)
Theorem createPaymentPreference_guards
    (preference_create : PreferenceRequest -> option PreferenceResult)
    (frontend_url backend_url : string) (uuid : Id) (now : Time)
    (body_order_id : option UuidParam) (user : AuthUser) (db : DB) :
  (forall text, body_order_id = Some (NotUuid text) ->
     createPaymentPreference preference_create frontend_url backend_url uuid
       now body_order_id user db
     = (reply_error 500 "Error procesando la solicitud de pago", [], db))
  /\ ((forall text, body_order_id <> Some (NotUuid text)) ->
      (forall o, In o (orders db) -> body_order_id = Some (IsUuid (o_id o)) ->
                 o_user_id o <> au_id user) ->
      createPaymentPreference preference_create frontend_url backend_url uuid
        now body_order_id user db
      = (reply_error 404 "Orden no encontrada", [], db))
  /\ ((exists o, In o (orders db) /\ body_order_id = Some (IsUuid (o_id o))
                 /\ o_user_id o = au_id user) ->
      (forall o, In o (orders db) -> body_order_id = Some (IsUuid (o_id o)) ->
                 o_user_id o = au_id user -> o_status o <> "pendiente") ->
      createPaymentPreference preference_create frontend_url backend_url uuid
        now body_order_id user db
      = (reply_error 400 "La orden no está en estado válido para pago", [], db))
  /\ (forall r calls db',
        createPaymentPreference preference_create frontend_url backend_url
          uuid now body_order_id user db = (r, calls, db') ->
        calls <> [] \/ db' <> db ->
        exists o,
          In o (orders db) /\ body_order_id = Some (IsUuid (o_id o))
          /\ o_user_id o = au_id user /\ o_status o = "pendiente"
          /\ (db' = db
              \/ exists req result row,
                   calls = [req] /\ preference_create req = Some result
                   /\ pr_external_reference req = o_id o
                   /\ code r = 200
                   /\ db' = set_payments db (payments db ++ [row])
                   /\ pay_order_id row = o_id o
                   /\ pay_amount row = o_total o
                   /\ pay_status row = "pending"
                   /\ pay_external_id row = Some (res_id result))).
Proof.
  unfold createPaymentPreference.
  destruct (uuid_param body_order_id) as [order_id|] eqn:Hcast.
  2:{ apply uuid_param_none in Hcast. destruct Hcast as (t & Ht).
      split; [|split; [|split]].
      - intros _ _. reflexivity.
      - intros Huuid. exfalso. apply (Huuid t Ht).
      - intros (o & _ & Hbody & _). rewrite Ht in Hbody. discriminate Hbody.
      - intros r calls db' Hrun Hreach. inversion Hrun; subst.
        destruct Hreach as [H | H]; exfalso; auto. }
  pose proof (fun id => uuid_param_value body_order_id order_id id Hcast)
    as Hvalue.
  split.
  { intros text Ht. rewrite Ht in Hcast. discriminate Hcast. }
  destruct (find _ (orders db)) as [order|] eqn:Hfind.
  - apply find_some in Hfind. destruct Hfind as [Hin Hcond].
    apply andb_true_iff in Hcond. destruct Hcond as [Hid Hown].
    apply sql_eq_true in Hid. destruct Hid as (x & Hx & Hbody).
    inversion Hx; subst x. apply str_eq_true in Hown.
    apply Hvalue in Hbody.
    split; [|split].
    + intros _ Hnone. exfalso. apply (Hnone order Hin Hbody Hown).
    + intros _ Hnot.
      assert (Hne : str_eq (o_status order) "pendiente" = false)
        by (apply str_eq_false; apply (Hnot order Hin Hbody Hown)).
      rewrite Hne. reflexivity.
    + intros r calls db' Hrun Hreach.
      destruct (str_eq (o_status order) "pendiente") eqn:Hst; cbn [negb] in Hrun.
      2:{ inversion Hrun; subst. destruct Hreach as [H | H]; exfalso; auto. }
      apply str_eq_true in Hst.
      exists order. repeat (split; [assumption|]).
      destruct (createPreference _ _ _ _ _) as [[pref|e] calls0] eqn:Hpref.
      2:{ inversion Hrun; subst. left. reflexivity. }
      destruct (insert_payment _ _ _ _ _ _ _ _ _ db) as [[row db1]|] eqn:Hins.
      2:{ inversion Hrun; subst. left. reflexivity. }
      inversion Hrun; subst. right.
      apply createPreference_ok in Hpref.
      destruct Hpref as (req & result & Hcalls & Hgw & Href & Hpid).
      apply insert_payment_some in Hins.
      destruct Hins as (m & Hm & Hrow & Hdb).
      exists req, result, row. rewrite Hrow at 2 3 4 5. cbn.
      rewrite <- Hpid. repeat split; assumption.
  - split; [|split].
    + intros _ _. reflexivity.
    + intros (o & Hin & Hbody & Hown) _. exfalso.
      apply (find_none _ _ Hfind) in Hin.
      apply Hvalue in Hbody.
      rewrite Hbody in Hin. cbn [sql_eq] in Hin.
      rewrite str_eq_refl, Hown, str_eq_refl in Hin. discriminate.
    + intros r calls db' Hrun Hreach. inversion Hrun; subst.
      destruct Hreach as [H | H]; exfalso; auto.
Qed.

(** Bob asks to pay alice's order; alice does. *)
Lemma createPaymentPreference_guards_witness :
  createPaymentPreference granting_gateway "https://shop" "https://api"
    "pay-9" 1000 (Some (IsUuid "O")) bob_auth (shop 3)
  = (reply_error 404 "Orden no encontrada", [], shop 3)
  /\ exists row,
       payments (snd (createPaymentPreference granting_gateway "https://shop"
                        "https://api" "pay-9" 1000 (Some (IsUuid "O"))
                        alice_auth (shop 3)))
       = (payments (shop 3) ++ [row])%list
       /\ pay_status row = "pending"
       /\ pay_external_id row = Some "pref-9".
Proof.
  pose proof (createPaymentPreference_guards granting_gateway "https://shop"
                "https://api" "pay-9" 1000 (Some (IsUuid "O")) bob_auth
                (shop 3))
    as (_ & H404 & _ & _).
  pose proof (createPaymentPreference_guards granting_gateway "https://shop"
                "https://api" "pay-9" 1000 (Some (IsUuid "O")) alice_auth
                (shop 3))
    as (_ & _ & _ & Hreach).
  split.
  - apply H404; [discriminate|]. intros o [<- | []] _. cbn. discriminate.
  - destruct (Hreach _ _ _ eq_refl
                (or_introl (fun H => nil_cons (eq_sym H))))
      as (o & _ & _ & _ & _ & [Hsame | Hrow]).
    + cbn in Hsame. discriminate Hsame.
    + destruct Hrow as (req & result & row & _ & Hgw & _ & _ & Hdb & _ & _
                        & Hst & Hext).
      exists row. cbn in Hgw. inversion Hgw; subst result.
      cbn in Hext. repeat split; try assumption.
      cbn in Hdb. inversion Hdb as [Hp]. cbn. reflexivity.
Defined.

(** C6, as stated, fails: asked to pay the order "42", which does not exist,
    the handler answers 500 and not 404 - the text is not a uuid, and the
    query throws. *)
Lemma createPaymentPreference_malformed_order_id :
  (forall o, In o (orders (shop 3)) -> o_id o <> "42")
  /\ createPaymentPreference granting_gateway "https://shop" "https://api"
       "pay-9" 1000 (Some (NotUuid "42")) alice_auth (shop 3)
     = (reply_error 500 "Error procesando la solicitud de pago", [], shop 3)
  /\ reply_error 500 "Error procesando la solicitud de pago"
     <> reply_error 404 "Orden no encontrada".
Proof.
  split; [|split].
  - intros o [<- | []]. discriminate.
  - reflexivity.
  - discriminate.
Qed.

(** ** Reading the payment status *)

Lemma latest_none (rows : list (Payment * Order)) :
  latest rows = None -> rows = [].
Proof.
  destruct rows as [|r rest]; [reflexivity|]. cbn.
  destruct (latest rest) as [r'|]; [|discriminate].
  destruct (_ <? _); discriminate.
Qed.

Lemma latest_some (rows : list (Payment * Order)) (r : Payment * Order) :
  latest rows = Some r ->
  In r rows
  /\ forall r', In r' rows -> pay_created_at (fst r') <= pay_created_at (fst r).
Proof.
  revert r. induction rows as [|a rest IH]; intros r H; [discriminate|].
  cbn in H. destruct (latest rest) as [b|] eqn:Hrest.
  - destruct (IH b eq_refl) as [Hin Hmax].
    destruct (pay_created_at (fst a) <? pay_created_at (fst b)) eqn:E;
      inversion H; subst r.
    + apply Z.ltb_lt in E. split; [right; exact Hin|].
      intros r' [<- | Hr']; [lia | auto].
    + apply Z.ltb_ge in E. split; [left; reflexivity|].
      intros r' [<- | Hr']; [lia|]. specialize (Hmax r' Hr'). lia.
  - inversion H; subst r. apply latest_none in Hrest. subst rest.
    split; [left; reflexivity|]. intros r' [<- | []]. lia.
Qed.

Lemma payment_order_rows_in (order_id userId : Id) (db : DB) (p : Payment)
    (o : Order) :
  In (p, o) (payment_order_rows order_id userId db) <->
  In p (payments db) /\ In o (orders db) /\ pay_order_id p = o_id o
  /\ pay_order_id p = order_id /\ o_user_id o = userId.
Proof.
  unfold payment_order_rows. rewrite in_flat_map. split.
  - intros (p0 & Hp0 & Hin). apply in_map_iff in Hin.
    destruct Hin as (o0 & Heq & Ho0). inversion Heq; subst p0 o0.
    apply filter_In in Ho0. destruct Ho0 as [Ho Hc].
    rewrite !andb_true_iff, !str_eq_true in Hc. tauto.
  - intros (Hp & Ho & H1 & H2 & H3). exists p. split; [exact Hp|].
    apply in_map. apply filter_In. split; [exact Ho|].
    rewrite !andb_true_iff, !str_eq_true. tauto.
Qed.

(** C9.  [checkPaymentStatus] never writes.  For an order id that is a uuid
    it answers 404 when no order with that id belongs to the caller and when
    the order has no payment; when it answers 200, the data are the
    projection of a payment of that order, the order is the caller's, and no
    payment of the order is more recent.  A text that is not a uuid is
    answered 500. *)
Theorem checkPaymentStatus_scoped (order_id : Id) (user : AuthUser) (db : DB) :
  (forall param, snd (checkPaymentStatus param user db) = db)
  /\ ((forall o, In o (orders db) -> o_id o = order_id ->
                 o_user_id o <> au_id user) ->
      fst (checkPaymentStatus (IsUuid order_id) user db)
      = reply_error 404 "Pago no encontrado")
  /\ ((forall p, In p (payments db) -> pay_order_id p <> order_id) ->
      fst (checkPaymentStatus (IsUuid order_id) user db)
      = reply_error 404 "Pago no encontrado")
  /\ (code (fst (checkPaymentStatus (IsUuid order_id) user db)) = 200 ->
      exists p o,
        In p (payments db) /\ In o (orders db)
        /\ pay_order_id p = order_id /\ o_id o = order_id
        /\ o_user_id o = au_id user
        /\ fst (checkPaymentStatus (IsUuid order_id) user db)
           = {| code := 200;
                body := Json true None
                          (Some (DPaymentStatus (pay_id p) (pay_status p)
                                   (pay_amount p) (pay_currency p) (o_status o)
                                   (pay_created_at p) (pay_updated_at p))) |}
        /\ forall p', In p' (payments db) -> pay_order_id p' = order_id ->
                      pay_created_at p' <= pay_created_at p)
  /\ (forall text,
        fst (checkPaymentStatus (NotUuid text) user db)
        = reply_error 500 "Error verificando el pago").
Proof.
  split.
  { intros [oid|text]; unfold checkPaymentStatus; [|reflexivity].
    destruct (latest _) as [[p o]|]; reflexivity. }
  unfold checkPaymentStatus.
  destruct (latest (payment_order_rows order_id (au_id user) db))
    as [[p o]|] eqn:Hl.
  - apply latest_some in Hl. destruct Hl as [Hin Hmax].
    apply payment_order_rows_in in Hin.
    destruct Hin as (Hp & Ho & Hpo & Hpid & Hown).
    cbn [fst snd]. split; [|split; [|split]].
    + intros Hnone. exfalso. apply (Hnone o Ho); congruence.
    + intros Hnone. exfalso. apply (Hnone p Hp Hpid).
    + intros _. exists p, o. repeat split; try congruence.
      intros p' Hp' Hpid'.
      apply (Hmax (p', o)). apply payment_order_rows_in.
      repeat split; congruence.
    + reflexivity.
  - cbn [fst snd]. split; [|split; [|split]].
    + reflexivity.
    + reflexivity.
    + cbn. discriminate.
    + reflexivity.
Qed.

(** Bob asks for the status of alice's order, which has two payments. *)
Lemma checkPaymentStatus_scoped_witness :
  checkPaymentStatus (IsUuid "O") bob_auth shop_two_attempts
  = (reply_error 404 "Pago no encontrado", shop_two_attempts)
  /\ exists p, In p (payments shop_two_attempts)
               /\ pay_id p = "pay-2"
               /\ fst (checkPaymentStatus (IsUuid "O") alice_auth
                         shop_two_attempts)
                  = {| code := 200;
                       body := Json true None
                                 (Some (DPaymentStatus "pay-2" "pending" 30000
                                          "ARS" "pendiente" 200 200)) |}.
Proof.
  destruct (checkPaymentStatus_scoped "O" bob_auth shop_two_attempts)
    as (Hdb & H404 & _).
  destruct (checkPaymentStatus_scoped "O" alice_auth shop_two_attempts)
    as (_ & _ & _ & H200 & _).
  split.
  - rewrite (surjective_pairing (checkPaymentStatus _ _ _)), Hdb, H404;
      [reflexivity|].
    intros o [<- | []] _. cbn. discriminate.
  - destruct (H200 eq_refl) as (p & o & Hp & _ & _ & _ & _ & Hr & _).
    exists p. split; [exact Hp|].
    cbn in Hr. inversion Hr as [[Hid Hs Ha Hc Hos Hca Hua]].
    split; reflexivity.
Defined.

(** ** Manual payments *)

(** C10.  A manual submission that is accepted concerns a pendiente order of
    the caller and appends one payment row whose amount is the order's stored
    total and whose status is pending; nothing in the request body other than
    the order id, the payment method and the proof reaches the handler's
    answer or the store. *)
Theorem processManualPayment_amount_from_order (uuid : Id) (now : Time)
    (user : AuthUser) (db : DB) :
  (forall req_body r db',
     processManualPayment uuid now req_body user db = (r, db') ->
     code r = 200 ->
     exists order row,
       In order (orders db)
       /\ mb_order_id req_body = Some (IsUuid (o_id order))
       /\ o_user_id order = au_id user
       /\ o_status order = "pendiente"
       /\ db' = set_payments db (payments db ++ [row])
       /\ pay_order_id row = o_id order
       /\ pay_amount row = o_total order
       /\ pay_status row = "pending"
       /\ body r = Json true
            (Some "Comprobante de pago enviado. Será verificado en las próximas 24 horas.")
            (Some (DManual (pay_id row) "pending")))
  /\ (forall b1 b2,
        mb_order_id b1 = mb_order_id b2 ->
        mb_payment_method b1 = mb_payment_method b2 ->
        mb_payment_proof b1 = mb_payment_proof b2 ->
        processManualPayment uuid now b1 user db
        = processManualPayment uuid now b2 user db).
Proof.
  split.
  - intros req_body r db' Hrun Hcode. unfold processManualPayment in Hrun.
    destruct (uuid_param (mb_order_id req_body)) as [order_id|] eqn:Hcast.
    2:{ refused Hrun. }
    destruct (find _ (orders db)) as [order|] eqn:Hfind.
    2:{ refused Hrun. }
    apply find_some in Hfind. destruct Hfind as [Hin Hcond].
    rewrite !andb_true_iff, !str_eq_true in Hcond.
    destruct Hcond as [[Hid Hown] Hst].
    apply sql_eq_true in Hid. destruct Hid as (x & Hx & Hbody).
    inversion Hx; subst x.
    apply (uuid_param_value _ _ _ Hcast) in Hbody.
    destruct (insert_payment _ _ _ _ _ _ _ _ _ db) as [[row db1]|] eqn:Hins.
    2:{ refused Hrun. }
    inversion Hrun; subst.
    apply insert_payment_some in Hins.
    destruct Hins as (m & Hm & Hrow & Hdb).
    exists order, row. rewrite Hrow at 2 3 4. cbn.
    repeat split; assumption.
  - intros b1 b2 H1 H2 H3. unfold processManualPayment.
    rewrite H1, H2, H3. reflexivity.
Qed.

Lemma processManualPayment_amount_from_order_witness :
  processManualPayment "pay-3" 1000 (manual_body "1") alice_auth (shop 3)
  = processManualPayment "pay-3" 1000 (manual_body "30000") alice_auth (shop 3)
  /\ exists row,
       payments (snd (processManualPayment "pay-3" 1000 (manual_body "1")
                        alice_auth (shop 3)))
       = (payments (shop 3) ++ [row])%list
       /\ pay_amount row = 30000 /\ pay_status row = "pending".
Proof.
  destruct (processManualPayment_amount_from_order "pay-3" 1000 alice_auth
              (shop 3)) as [Hrow Hsame].
  split.
  - apply Hsame; reflexivity.
  - destruct (Hrow (manual_body "1") _ _ eq_refl eq_refl)
      as (order & row & Hin & _ & _ & _ & Hdb & _ & Hamount & Hst & _).
    exists row. destruct Hin as [<- | []].
    cbn in Hdb. inversion Hdb as [Hp]. cbn in Hamount.
    repeat split; assumption || reflexivity.
Defined.

(** ** Sessions *)

Lemma filter_app_one {A : Type} (f : A -> bool) (l : list A) (x : A) :
  filter f (l ++ [x]) = (filter f l ++ if f x then [x] else [])%list.
Proof. rewrite filter_app. reflexivity. Qed.

Lemma filter_filter_negb {A : Type} (f : A -> bool) (l : list A) :
  filter f (filter (fun x => negb (f x)) l) = [].
Proof.
  induction l as [|a l IH]; [reflexivity|]. cbn.
  destruct (f a) eqn:E; cbn; [exact IH|]. rewrite E. exact IH.
Qed.

Lemma filter_filter_same {A : Type} (f : A -> bool) (l : list A) :
  filter f (filter f l) = filter f l.
Proof.
  induction l as [|a l IH]; [reflexivity|]. cbn.
  destruct (f a) eqn:E; cbn; [rewrite E, IH|]; auto.
Qed.

Lemma filter_none {A : Type} (f : A -> bool) (l : list A) :
  (forall x, In x l -> f x = false) -> filter f l = [].
Proof.
  induction l as [|a l IH]; intros H; [reflexivity|]. cbn.
  rewrite (H a (or_introl eq_refl)). apply IH. intros x Hx. apply H. now right.
Qed.

(** C7, as the code has it.  After a successful login the user has exactly
    one session row, the one just inserted, which expires seven days later;
    the sessions of other users are as they were; and [authenticateToken]
    answers 401 to any token other than the one just issued that, before the
    login, was carried by sessions of this user only - the token of an
    earlier login, unless this login signed the same token again. *)
Theorem login_single_session (toLowerCase : string -> string) (K : Crypto) (now : Time) (errors : list string)
    (email password : string) (db db' : DB) (r : Response) :
  login toLowerCase K now errors email password db = (r, db') ->
  code r = 200 ->
  exists user token,
    In user (users db)
    /\ u_email user = toLowerCase email
    /\ body r = Json true (Some "Inicio de sesión exitoso")
                  (Some (DAuth (auth_user user) token))
    /\ filter (fun s => str_eq (s_user_id s) (u_id user)) (user_sessions db')
       = [ {| s_user_id := u_id user; s_token := token;
              s_expires_at := now + seven_days |} ]
    /\ now < now + seven_days
    /\ filter (fun s => negb (str_eq (s_user_id s) (u_id user)))
         (user_sessions db')
       = filter (fun s => negb (str_eq (s_user_id s) (u_id user)))
           (user_sessions db)
    /\ users db' = users db
    /\ forall (old : string) (authHeader : option string) (later : Time),
         bearer_token authHeader = Some old ->
         old <> token ->
         (forall s, In s (user_sessions db) -> s_token s = old ->
                    s_user_id s = u_id user) ->
         exists msg,
           authenticateToken K later authHeader db'
           = (Reply (reply_error 401 msg), db').
Proof.
  unfold login. intros Hrun Hcode.
  destruct errors as [|e errors]; [|refused Hrun].
  destruct (filter _ (users db)) as [|user rest] eqn:Husers;
    [refused Hrun|].
  destruct (bcrypt_compare K password (u_password user));
    cbn [negb] in Hrun; [|refused Hrun].
  assert (Hu : In user (filter (fun u => str_eq (u_email u) (toLowerCase email))
                          (users db)))
    by (rewrite Husers; left; reflexivity).
  apply filter_In in Hu. destruct Hu as [Hin Hmail].
  apply str_eq_true in Hmail.
  inversion Hrun; subst r db'. clear Hrun.
  eexists user, _. cbn [set_user_sessions user_sessions users body].
  split; [exact Hin|]. split; [exact Hmail|]. split; [reflexivity|].
  split; [|split; [|split; [|split]]].
  - rewrite filter_app_one, filter_filter_negb. cbn [s_user_id].
    rewrite str_eq_refl. reflexivity.
  - unfold seven_days. lia.
  - rewrite filter_app_one, filter_filter_same. cbn [s_user_id].
    rewrite str_eq_refl. cbn. apply app_nil_r.
  - reflexivity.
  - intros old authHeader later Hbearer Hneq Hmine.
    unfold authenticateToken. rewrite Hbearer. cbn [falsy].
    destruct (str_eq old "") eqn:Hempty; [eexists; reflexivity|].
    cbn [set_user_sessions user_sessions].
    rewrite filter_app_one. cbn [s_token].
    assert (Hnew : str_eq (jwt_sign K
                             {| jwt_userId := u_id user;
                                jwt_email := u_email user;
                                jwt_role := u_role user |} now) old = false).
    { apply str_eq_false. intros E. apply Hneq. symmetry. exact E. }
    rewrite Hnew, app_nil_r.
    rewrite filter_none; [eexists; reflexivity|].
    intros s Hs. apply filter_In in Hs. destruct Hs as [Hs Hother].
    destruct (str_eq (s_token s) old) eqn:E; [|reflexivity].
    apply str_eq_true in E. apply (Hmine s Hs) in E.
    rewrite E, str_eq_refl in Hother. discriminate.
Qed.

(** The session a login inserts opens requests for seven days, provided
    jsonwebtoken verifies the token it signed. *)
Lemma login_then_authenticate (toLowerCase : string -> string) (K : Crypto) (now later : Time)
    (email password : string) (db db' : DB) (r : Response) (user : AuthUser)
    (token : string) (authHeader : option string) (decoded : JwtPayload) :
  login toLowerCase K now [] email password db = (r, db') ->
  body r = Json true (Some "Inicio de sesión exitoso")
             (Some (DAuth user token)) ->
  bearer_token authHeader = Some token -> token <> "" ->
  later <= now + seven_days ->
  (forall s, In s (user_sessions db) -> s_token s = token ->
             s_user_id s = au_id user) ->
  jwt_verify K token later = JwtDecoded decoded ->
  jwt_userId decoded = au_id user ->
  exists u, authenticateToken K later authHeader db' = (Next (auth_user u), db')
            /\ In u (users db) /\ u_id u = au_id user.
Proof.
  unfold login. intros Hrun Hbody Hbearer Hne Hlater Hmine Hverify Hsub.
  destruct (filter _ (users db)) as [|u rest] eqn:Husers;
    [refused Hrun|].
  destruct (bcrypt_compare K password (u_password u));
    cbn [negb] in Hrun; [|refused Hrun].
  assert (Hu : In u (filter (fun u0 => str_eq (u_email u0) (toLowerCase email))
                       (users db)))
    by (rewrite Husers; left; reflexivity).
  apply filter_In in Hu. destruct Hu as [Hin _].
  inversion Hrun; subst r db'. clear Hrun.
  cbn [body] in Hbody. inversion Hbody as [[Huser Htoken]]. clear Hbody.
  unfold authenticateToken. rewrite Hbearer. cbn [falsy].
  apply str_eq_false in Hne. rewrite Hne.
  cbn [set_user_sessions user_sessions].
  rewrite filter_app_one. cbn [s_token]. rewrite Htoken, str_eq_refl.
  rewrite filter_none.
  2:{ intros s Hs. apply filter_In in Hs. destruct Hs as [Hs Hother].
      destruct (str_eq (s_token s) token) eqn:E; [|reflexivity].
      apply str_eq_true in E. apply (Hmine s Hs) in E.
      rewrite <- Huser in E. cbn [auth_user au_id] in E.
      rewrite E, str_eq_refl in Hother. discriminate. }
  cbn [app s_expires_at].
  replace (now + seven_days <? later) with false
    by (symmetry; apply Z.ltb_ge; exact Hlater).
  rewrite Hverify.
  assert (Hfound : In u (filter (fun u0 => str_eq (u_id u0) (jwt_userId decoded))
                           (users db))).
  { apply filter_In. split; [exact Hin|]. apply str_eq_true.
    rewrite Hsub, <- Huser. reflexivity. }
  destruct (filter (fun u0 => str_eq (u_id u0) (jwt_userId decoded)) (users db))
    as [|u' rest'] eqn:Hf; [contradiction|].
  assert (Hu' : In u' (filter (fun u0 => str_eq (u_id u0) (jwt_userId decoded))
                         (users db)))
    by (rewrite Hf; left; reflexivity).
  apply filter_In in Hu'. destruct Hu' as [Hin' Hid'].
  apply str_eq_true in Hid'.
  exists u'. cbn [set_user_sessions users]. rewrite Hf.
  repeat split; [exact Hin' | congruence].
Qed.

(** Alice logs in again at instant 2000; the token of her login at instant
    1000 no longer opens a request. *)
Lemma login_single_session_witness :
  exists db2,
    snd (login latin1_toLowerCase sample_crypto 2000 [] "alice@example.com" "Secret1"
           after_first_login) = db2
    /\ map s_token (user_sessions after_first_login) = ["alice.1000"]
    /\ map s_token (user_sessions db2) = ["alice.2000"]
    /\ exists msg,
         authenticateToken sample_crypto 3000 (Some "Bearer alice.1000") db2
         = (Reply (reply_error 401 msg), db2).
Proof.
  eexists. split; [reflexivity|]. split; [reflexivity|]. split; [reflexivity|].
  destruct (login_single_session latin1_toLowerCase sample_crypto 2000 [] "alice@example.com"
              "Secret1" after_first_login _ _ eq_refl eq_refl)
    as (user & token & Hin & _ & Hbody & _ & _ & _ & _ & Hreject).
  destruct Hin as [<- | []].
  cbn in Hbody. inversion Hbody as [Htok].
  apply (Hreject "alice.1000" (Some "Bearer alice.1000") 3000 eq_refl).
  - rewrite <- Htok. discriminate.
  - intros s [<- | []] _. reflexivity.
Defined.

(** C7, as stated, fails: jsonwebtoken signs the same payload within the same
    second to the same token.  Alice logs in at instants 1000 and 1900; the
    second login deletes the session of the first and inserts its own, with
    the token the first login issued, which still opens requests. *)
Lemma login_same_second_keeps_token :
  let first := login latin1_toLowerCase seconds_crypto 1000 []
                 "alice@example.com" "Secret1" (shop 3) in
  let second := login latin1_toLowerCase seconds_crypto 1900 []
                  "alice@example.com" "Secret1" (snd first) in
  body (fst first)
  = Json true (Some "Inicio de sesión exitoso")
      (Some (DAuth alice_auth "alice.1"))
  /\ code (fst second) = 200
  /\ user_sessions (snd second)
     = [ {| s_user_id := "alice"; s_token := "alice.1";
            s_expires_at := 1900 + seven_days |} ]
  /\ authenticateToken seconds_crypto 2500 (Some "Bearer alice.1") (snd second)
     = (Next alice_auth, snd second).
Proof. vm_compute. repeat split. Qed.

(** ** Registration *)

Lemma register_stores_lowercase (toLowerCase : string -> string) (K : Crypto) (uuid : Id) (now : Time)
    (errors : list string) (req_body : RegisterBody) (db db' : DB)
    (r : Response) :
  register toLowerCase K uuid now errors req_body db = (r, db') ->
  code r = 201 ->
  exists u, In u (users db') /\ u_email u = toLowerCase (rb_email req_body).
Proof.
  unfold register. intros Hrun Hcode.
  destruct errors; [|refused Hrun].
  destruct (filter _ (users db)); [|refused Hrun].
  inversion Hrun; subst. eexists. split.
  - cbn. apply in_or_app. right. left. reflexivity.
  - reflexivity.
Qed.

(** C8.  [register] stores an email as [toLowerCase] makes it.  When the
    email of a request, in whatever casing, has the same [toLowerCase] as
    the email a stored user was registered under, [register] answers 400 and
    leaves the store as it was: no user row, no session row, and no token in
    the answer.  With a request that passed validation the answer is the
    duplicate-email error.  This holds whatever [toLowerCase] does to the
    letters of an email, ASCII or not. *)
Theorem register_duplicate_email (toLowerCase : string -> string) (K : Crypto) (uuid : Id) (now : Time)
    (errors : list string) (req_body : RegisterBody) (db : DB) (u : User)
    (registered : string) :
  In u (users db) ->
  u_email u = toLowerCase registered ->
  toLowerCase (rb_email req_body) = toLowerCase registered ->
  exists r,
    register toLowerCase K uuid now errors req_body db = (r, db)
    /\ code r = 400
    /\ (errors = [] -> r = reply_error 400 "El email ya está registrado")
    /\ (errors <> [] ->
        r = {| code := 400; body := JsonErrors "Datos inválidos" errors |}).
Proof.
  intros Hin Hstored Hsame. unfold register.
  destruct errors as [|e errors].
  - destruct (filter _ (users db)) as [|u' rest] eqn:Hf.
    + exfalso.
      assert (Hu : In u (filter (fun u0 => str_eq (u_email u0)
                                             (toLowerCase (rb_email req_body)))
                           (users db))).
      { apply filter_In. split; [exact Hin|]. apply str_eq_true. congruence. }
      rewrite Hf in Hu. exact Hu.
    + eexists. split; [reflexivity|]. split; [reflexivity|].
      split; [reflexivity|]. intros H. contradiction.
  - eexists. split; [reflexivity|]. split; [reflexivity|].
    split; [discriminate|]. reflexivity.
Qed.

(** Alice's email in another casing, and an email with letters outside
    ASCII in capitals. *)
Lemma register_duplicate_email_witness :
  register latin1_toLowerCase sample_crypto "u-2" 1000 [] alice_again (shop 3)
  = (reply_error 400 "El email ya está registrado", shop 3)
  /\ register latin1_toLowerCase sample_crypto "u-2" 1000 [] nandu_again
       shop_nandu
     = (reply_error 400 "El email ya está registrado", shop_nandu).
Proof.
  split.
  - destruct (register_duplicate_email latin1_toLowerCase sample_crypto "u-2"
                1000 [] alice_again (shop 3) alice "Alice@Example.com")
      as (r & Hrun & _ & Hdup & _).
    + left. reflexivity.
    + vm_compute. reflexivity.
    + vm_compute. reflexivity.
    + rewrite Hrun, (Hdup eq_refl). reflexivity.
  - destruct (register_duplicate_email latin1_toLowerCase sample_crypto "u-2"
                1000 [] nandu_again shop_nandu nandu "ñandú@example.com")
      as (r & Hrun & _ & Hdup & _).
    + right. left. reflexivity.
    + vm_compute. reflexivity.
    + vm_compute. reflexivity.
    + rewrite Hrun, (Hdup eq_refl). reflexivity.
Defined.

(** * Further properties *)

(** ** The bearer header, as sent and as read *)

Lemma split_space_no_space (t cur : string) :
  no_space t = true -> split_space t cur = [cur ++ t].
Proof.
  revert cur. induction t as [|c t IH]; intros cur H; cbn in *.
  - f_equal. induction cur as [|a cur IHc]; cbn; congruence.
  - apply andb_true_iff in H. destruct H as [Hc Ht].
    apply negb_true_iff in Hc. rewrite Hc, (IH _ Ht). f_equal.
    clear. induction cur as [|a cur IHc]; cbn; congruence.
Qed.

Lemma bearer_token_header (t : string) :
  no_space t = true -> bearer_token (Some (bearer_header t)) = Some t.
Proof.
  intros H. unfold bearer_token, bearer_header. cbn.
  rewrite (split_space_no_space t "" H). reflexivity.
Qed.

Lemma prefix_empty (s : string) : String.prefix "" s = true.
Proof. destruct s; reflexivity. Qed.

Lemma remove_first_bearer (t : string) :
  remove_first "Bearer " (bearer_header t) = t.
Proof.
  unfold bearer_header. cbn. rewrite prefix_empty. reflexivity.
Qed.

Lemma falsy_some (t : string) : t <> "" -> falsy (Some t) = false.
Proof. intros H. cbn. apply str_eq_false. exact H. Qed.

(** ** Logging out *)

(** X1.  [logout] always answers 200.  Sent the header the storefront client
    builds for a token without spaces, it deletes the sessions carrying that
    token and no other, and [authenticateToken] then answers 401 to the same
    header. *)
Theorem logout_ends_session (K : Crypto) (later : Time) (t : string) (db : DB) :
  no_space t = true -> t <> "" ->
  exists db',
    logout (Some (bearer_header t)) db
    = ({| code := 200;
          body := Json true (Some "Sesión cerrada exitosamente") None |}, db')
    /\ user_sessions db'
       = filter (fun s => negb (str_eq (s_token s) t)) (user_sessions db)
    /\ users db' = users db
    /\ authenticateToken K later (Some (bearer_header t)) db'
       = (Reply (reply_error 401 "Token inválido"), db').
Proof.
  intros Hns Hne. unfold logout. cbn [option_map].
  rewrite remove_first_bearer, (falsy_some t Hne).
  eexists. split; [reflexivity|]. split; [reflexivity|]. split; [reflexivity|].
  unfold authenticateToken.
  rewrite (bearer_token_header t Hns), (falsy_some t Hne).
  cbn [set_user_sessions user_sessions].
  rewrite filter_filter_negb. reflexivity.
Qed.

Lemma logout_ends_session_witness :
  authenticateToken sample_crypto 1500 (Some "Bearer alice.1000")
    (snd (logout (Some "Bearer alice.1000") after_first_login))
  = (Reply (reply_error 401 "Token inválido"),
     snd (logout (Some "Bearer alice.1000") after_first_login))
  /\ user_sessions (snd (logout (Some "Bearer alice.1000") after_first_login))
     = [].
Proof.
  destruct (logout_ends_session sample_crypto 1500 "alice.1000"
              after_first_login eq_refl)
    as (db' & Hrun & Hs & _ & Hauth).
  - discriminate.
  - change (Some (bearer_header "alice.1000"))
      with (Some "Bearer alice.1000") in *.
    rewrite Hrun. cbn [snd]. split; [exact Hauth|].
    rewrite Hs. reflexivity.
Defined.

(** ** What the middlewares accept *)

(** X2.  When the first session row carrying the token has expired,
    [authenticateToken] answers 401 "Token expirado" and deletes every
    session row with that token, so that the same header is answered
    "Token inválido" from then on. *)
Theorem authenticateToken_expired_session (K : Crypto) (now : Time)
    (authHeader : option string) (t : string) (db : DB) (s : Session)
    (rest : list Session) :
  bearer_token authHeader = Some t -> t <> "" ->
  filter (fun s0 => str_eq (s_token s0) t) (user_sessions db) = s :: rest ->
  s_expires_at s < now ->
  exists db1,
    authenticateToken K now authHeader db
    = (Reply (reply_error 401 "Token expirado"), db1)
    /\ user_sessions db1
       = filter (fun s0 => negb (str_eq (s_token s0) t)) (user_sessions db)
    /\ forall later,
         authenticateToken K later authHeader db1
         = (Reply (reply_error 401 "Token inválido"), db1).
Proof.
  intros Hb Hne Hf Hexp. unfold authenticateToken.
  rewrite Hb, (falsy_some t Hne), Hf.
  apply Z.ltb_lt in Hexp. rewrite Hexp.
  eexists. split; [reflexivity|]. split; [reflexivity|].
  intros later. cbn [set_user_sessions user_sessions].
  rewrite filter_filter_negb. reflexivity.
Qed.

Lemma authenticateToken_expired_session_witness :
  exists db1,
    authenticateToken sample_crypto (1000 + seven_days + 1)
      (Some "Bearer alice.1000") after_first_login
    = (Reply (reply_error 401 "Token expirado"), db1)
    /\ user_sessions db1 = [].
Proof.
  destruct (authenticateToken_expired_session sample_crypto
              (1000 + seven_days + 1) (Some "Bearer alice.1000") "alice.1000"
              after_first_login
              {| s_user_id := "alice"; s_token := "alice.1000";
                 s_expires_at := 1000 + seven_days |} [] eq_refl)
    as (db1 & Hrun & Hs & _).
  - discriminate.
  - reflexivity.
  - reflexivity.
  - exists db1. split; [exact Hrun|]. rewrite Hs. reflexivity.
Defined.

(** X3.  [authenticateToken] lets a request through only with a non-empty
    token that a session row carries, whose first such row has not expired,
    and that jsonwebtoken verifies; the user it passes on is the row of
    [users] whose id the token names.  It writes nothing then, nor ever
    except to delete an expired session. *)
Theorem authenticateToken_sound (K : Crypto) (now : Time)
    (authHeader : option string) (db db' : DB) (out : AuthOutcome) :
  authenticateToken K now authHeader db = (out, db') ->
  (db' = db \/ out = Reply (reply_error 401 "Token expirado"))
  /\ forall u, out = Next u ->
       db' = db
       /\ exists t session decoded user,
            bearer_token authHeader = Some t /\ t <> ""
            /\ In session (user_sessions db) /\ s_token session = t
            /\ now <= s_expires_at session
            /\ jwt_verify K t now = JwtDecoded decoded
            /\ In user (users db) /\ u_id user = jwt_userId decoded
            /\ u = auth_user user.
Proof.
  unfold authenticateToken. intros Hrun.
  destruct (falsy (bearer_token authHeader)) eqn:Hfalsy.
  { inversion Hrun; subst. split; [left; reflexivity|]. discriminate. }
  destruct (bearer_token authHeader) as [t|] eqn:Hb; [|discriminate].
  cbn [falsy] in Hfalsy. apply str_eq_false in Hfalsy.
  destruct (filter _ (user_sessions db)) as [|session rest] eqn:Hs.
  { inversion Hrun; subst. split; [left; reflexivity|]. discriminate. }
  assert (Hsession : In session (filter (fun s => str_eq (s_token s) t)
                                   (user_sessions db)))
    by (rewrite Hs; left; reflexivity).
  apply filter_In in Hsession. destruct Hsession as [Hin Htok].
  apply str_eq_true in Htok.
  destruct (s_expires_at session <? now) eqn:Hexp.
  { inversion Hrun; subst. split; [right; reflexivity|]. discriminate. }
  apply Z.ltb_ge in Hexp.
  destruct (jwt_verify K t now) as [decoded| | |] eqn:Hv;
    try (inversion Hrun; subst; split; [left; reflexivity|]; discriminate).
  destruct (filter _ (users db)) as [|user rest'] eqn:Hu.
  { inversion Hrun; subst. split; [left; reflexivity|]. discriminate. }
  assert (Huser : In user (filter (fun u => str_eq (u_id u) (jwt_userId decoded))
                             (users db)))
    by (rewrite Hu; left; reflexivity).
  apply filter_In in Huser. destruct Huser as [Huin Huid].
  apply str_eq_true in Huid.
  inversion Hrun; subst out db'. split; [left; reflexivity|].
  intros u Hnext. inversion Hnext; subst u. split; [reflexivity|].
  exists t, session, decoded, user. repeat split; assumption.
Qed.

Lemma authenticateToken_sound_witness :
  exists session,
    In session (user_sessions after_first_login)
    /\ s_token session = "alice.1000"
    /\ 1500 <= s_expires_at session.
Proof.
  destruct (authenticateToken_sound sample_crypto 1500
              (Some "Bearer alice.1000") after_first_login after_first_login
              (Next alice_auth) eq_refl) as [_ H].
  destruct (H alice_auth eq_refl)
    as (_ & t & session & decoded & user & Hb & _ & Hin & Htok & Hexp & _).
  cbn in Hb. inversion Hb as [Ht].
  exists session. repeat split; congruence || assumption.
Defined.

(** X4.  [optionalAuth] sets [req.user] to a user exactly when
    [authenticateToken] would let the same request through as that user, and
    it never writes - not even to delete an expired session. *)
Theorem optionalAuth_agrees (K : Crypto) (now : Time)
    (authHeader : option string) (db : DB) :
  snd (optionalAuth K now authHeader db) = db
  /\ forall u,
       fst (optionalAuth K now authHeader db) = Some u
       <-> fst (authenticateToken K now authHeader db) = Next u.
Proof.
  unfold optionalAuth, authenticateToken.
  destruct (falsy (bearer_token authHeader)).
  { split; [reflexivity|]. intros u; split; discriminate. }
  destruct (filter _ (user_sessions db)) as [|session rest].
  { split; [reflexivity|]. intros u; split; discriminate. }
  destruct (s_expires_at session <? now).
  { split; [reflexivity|]. intros u; split; discriminate. }
  destruct (jwt_verify K _ now) as [decoded| | |];
    try (split; [reflexivity|]; intros u; split; discriminate).
  destruct (filter _ (users db)) as [|user rest'].
  { split; [reflexivity|]. intros u; split; discriminate. }
  split; [reflexivity|]. intros u. cbn [fst]. split; intros H; congruence.
Qed.

Lemma optionalAuth_agrees_witness :
  fst (optionalAuth sample_crypto 1500 (Some "Bearer alice.1000")
         after_first_login) = Some alice_auth
  /\ fst (optionalAuth sample_crypto (1000 + seven_days + 1)
            (Some "Bearer alice.1000") after_first_login) = None.
Proof.
  split.
  - apply (proj2 (optionalAuth_agrees sample_crypto 1500
                    (Some "Bearer alice.1000") after_first_login)).
    reflexivity.
  - destruct (fst (optionalAuth sample_crypto (1000 + seven_days + 1)
                     (Some "Bearer alice.1000") after_first_login))
      as [u|] eqn:E; [|reflexivity].
    apply (proj2 (optionalAuth_agrees sample_crypto (1000 + seven_days + 1)
                    (Some "Bearer alice.1000") after_first_login)) in E.
    discriminate E.
Defined.

(** ** Roles *)

(** X5.  An account opened through [register] is a customer: the user the
    answer carries is turned away by [requireAdmin] with 403, and the set of
    administrators is the one before. *)
Theorem register_never_admin (toLowerCase : string -> string) (K : Crypto) (uuid : Id) (now : Time)
    (errors : list string) (req_body : RegisterBody) (db db' : DB)
    (r : Response) (m : option string) (user : AuthUser) (token : string) :
  register toLowerCase K uuid now errors req_body db = (r, db') ->
  body r = Json true m (Some (DAuth user token)) ->
  requireAdmin (Some user)
  = Reply (reply_error 403 "Permisos de administrador requeridos")
  /\ admin_ids db' = admin_ids db
  /\ exists row, In row (users db') /\ u_id row = au_id user
                 /\ u_role row = "customer".
Proof.
  unfold register. intros Hrun Hbody.
  destruct errors; [|inversion Hrun; subst; discriminate].
  destruct (filter _ (users db)); [|inversion Hrun; subst; discriminate].
  inversion Hrun; subst r db'. clear Hrun.
  cbn [body] in Hbody. inversion Hbody; subst. clear Hbody.
  split; [reflexivity|]. split.
  - unfold admin_ids. cbn [set_user_sessions set_users users].
    rewrite filter_app. cbn. rewrite app_nil_r. reflexivity.
  - eexists. split.
    + cbn [set_user_sessions set_users users]. apply in_or_app. right.
      left. reflexivity.
    + split; reflexivity.
Qed.

Lemma register_never_admin_witness :
  exists user token,
    body (fst (register latin1_toLowerCase sample_crypto "u-2" 1000 []
                 {| rb_name := "Bob"; rb_email := "Bob@Example.com";
                    rb_password := "Secret3"; rb_phone := None;
                    rb_address := None |} (shop 3)))
    = Json true (Some "Usuario registrado exitosamente")
        (Some (DAuth user token))
    /\ requireAdmin (Some user)
       = Reply (reply_error 403 "Permisos de administrador requeridos").
Proof.
  eexists. eexists. split; [reflexivity|].
  apply (register_never_admin latin1_toLowerCase sample_crypto "u-2" 1000 []
           {| rb_name := "Bob"; rb_email := "Bob@Example.com";
              rb_password := "Secret3"; rb_phone := None;
              rb_address := None |} (shop 3) _ _ _ _ _ eq_refl eq_refl).
Defined.

(** X6.  [login], [logout], [updateProfile] and [changePassword] never change
    the id, the email or the role of any account, whatever they answer: no
    request to them makes an administrator. *)
Theorem account_handlers_keep_identity (toLowerCase : string -> string) (K : Crypto) (now : Time)
    (errors : list string) (db : DB) :
  (forall email password,
     map identity_of (users (snd (login toLowerCase K now errors email password db)))
     = map identity_of (users db))
  /\ (forall authHeader,
        map identity_of (users (snd (logout authHeader db)))
        = map identity_of (users db))
  /\ (forall req_body user,
        map identity_of (users (snd (updateProfile errors req_body user db)))
        = map identity_of (users db))
  /\ (forall current new user,
        map identity_of
          (users (snd (changePassword K errors current new user db)))
        = map identity_of (users db)).
Proof.
  repeat split.
  - intros email password. unfold login.
    destruct errors; [|reflexivity].
    destruct (filter _ (users db)) as [|user rest]; [reflexivity|].
    destruct (bcrypt_compare K password (u_password user)); reflexivity.
  - intros authHeader. unfold logout.
    destruct (falsy _); reflexivity.
  - intros req_body user. unfold updateProfile.
    destruct errors; [|reflexivity].
    destruct (pb_name req_body) as [name|].
    + cbn [snd set_users users]. rewrite map_map. apply map_ext.
      intros u. destruct (str_eq (u_id u) (au_id user)); reflexivity.
    + destruct (filter _ (users db)); reflexivity.
  - intros current new user. unfold changePassword.
    destruct errors; [|reflexivity].
    destruct (filter _ (users db)) as [|row rest]; [reflexivity|].
    destruct (bcrypt_compare K current (u_password row)); [|reflexivity].
    cbn [negb snd set_user_sessions set_users users].
    rewrite map_map. apply map_ext.
    intros u. destruct (str_eq (u_id u) (au_id user)); reflexivity.
Qed.

(** ** Registration and login together *)

Lemma filter_nil_all {A : Type} (f : A -> bool) (l : list A) :
  filter f l = [] -> forall x, In x l -> f x = false.
Proof.
  intros H x Hin. destruct (f x) eqn:E; [|reflexivity].
  assert (Hx : In x (filter f l)) by (apply filter_In; auto).
  rewrite H in Hx. contradiction.
Qed.

(** X7.  After a successful [register], [login] with the same email in any
    casing and the same password succeeds as the account just created,
    provided bcrypt accepts a password against its own hash. *)
Theorem register_then_login (toLowerCase : string -> string) (K : Crypto) (uuid : Id) (t1 t2 : Time)
    (req_body : RegisterBody) (db db1 : DB) (r1 : Response) (email : string) :
  bcrypt_compare K (rb_password req_body)
    (bcrypt_hash K (rb_password req_body)) = true ->
  register toLowerCase K uuid t1 [] req_body db = (r1, db1) ->
  code r1 = 201 ->
  toLowerCase email = toLowerCase (rb_email req_body) ->
  exists db2 user token,
    login toLowerCase K t2 [] email (rb_password req_body) db1
    = ({| code := 200;
          body := Json true (Some "Inicio de sesión exitoso")
                    (Some (DAuth user token)) |}, db2)
    /\ au_id user = uuid
    /\ au_email user = toLowerCase (rb_email req_body)
    /\ au_role user = "customer".
Proof.
  unfold register. intros Hbcrypt Hrun Hcode Hmail.
  destruct (filter _ (users db)) as [|x rest] eqn:Hnone;
    [|inversion Hrun; subst; discriminate].
  inversion Hrun; subst r1 db1. clear Hrun.
  unfold login. cbn [set_user_sessions set_users users].
  rewrite Hmail, filter_app, Hnone. cbn [filter app u_email].
  rewrite str_eq_refl. cbn [u_password]. rewrite Hbcrypt. cbn [negb].
  eexists. eexists. eexists. split; [reflexivity|].
  repeat split.
Qed.

Lemma register_then_login_witness :
  exists db2 user token,
    login latin1_toLowerCase sample_crypto 2000 [] "BOB@example.com" "Secret3"
      (snd (register latin1_toLowerCase sample_crypto "u-2" 1000 []
              {| rb_name := "Bob"; rb_email := "Bob@Example.com";
                 rb_password := "Secret3"; rb_phone := None;
                 rb_address := None |} (shop 3)))
    = ({| code := 200;
          body := Json true (Some "Inicio de sesión exitoso")
                    (Some (DAuth user token)) |}, db2)
    /\ au_id user = "u-2".
Proof.
  destruct (register_then_login latin1_toLowerCase sample_crypto "u-2" 1000 2000
              {| rb_name := "Bob"; rb_email := "Bob@Example.com";
                 rb_password := "Secret3"; rb_phone := None;
                 rb_address := None |} (shop 3) _ _ "BOB@example.com"
              eq_refl eq_refl eq_refl eq_refl)
    as (db2 & user & token & Hrun & Hid & _).
  exists db2, user, token. split; assumption.
Defined.

(** X8.  [register] keeps the stored emails pairwise distinct and each the
    result of [toLowerCase], whatever it answers. *)
Theorem register_keeps_emails_normal (toLowerCase : string -> string)
    (K : Crypto) (uuid : Id) (now : Time) (errors : list string)
    (req_body : RegisterBody) (db : DB) :
  emails_normal toLowerCase db ->
  emails_normal toLowerCase
    (snd (register toLowerCase K uuid now errors req_body db)).
Proof.
  intros [Hnd Hlow]. unfold register.
  destruct errors; [|split; assumption].
  destruct (filter _ (users db)) as [|x rest] eqn:Hnone; [|split; assumption].
  unfold emails_normal. cbn [snd set_user_sessions set_users users].
  split.
  - rewrite map_app. cbn [map u_email].
    assert (Hfresh : ~ In (toLowerCase (rb_email req_body))
                       (map u_email (users db))).
    { intros Hin. apply in_map_iff in Hin. destruct Hin as (u & Hu & Hin).
      pose proof (filter_nil_all _ _ Hnone u Hin) as Hf. cbn in Hf.
      rewrite Hu, str_eq_refl in Hf. discriminate. }
    clear - Hnd Hfresh.
    induction (map u_email (users db)) as [|e l IH]; cbn.
    + constructor; [intros []|constructor].
    + inversion Hnd as [|e' l' Hnotin Hnd']; subst. constructor.
      * intros Hin. apply in_app_or in Hin. destruct Hin as [Hin | [Hin | []]].
        -- contradiction.
        -- apply Hfresh. left. symmetry. exact Hin.
      * apply IH; [exact Hnd'|]. intros Hin. apply Hfresh. right. exact Hin.
  - intros u Hin. apply in_app_or in Hin. destruct Hin as [Hin | [<- | []]].
    + apply Hlow. exact Hin.
    + cbn [u_email]. eexists. reflexivity.
Qed.

Lemma register_keeps_emails_normal_witness :
  emails_normal latin1_toLowerCase
    (snd (register latin1_toLowerCase sample_crypto "u-2" 1000 []
            {| rb_name := "Bob"; rb_email := "Bob@Example.com";
               rb_password := "Secret3"; rb_phone := None;
               rb_address := None |} (shop 3))).
Proof.
  apply register_keeps_emails_normal. split.
  - cbn. repeat constructor. intros [].
  - intros u [<- | []]. exists "Alice@Example.com". reflexivity.
Defined.

(** X9.  [login] gives the same answer, 401 "Credenciales inválidas", and
    writes nothing whether no account has the email or the account's
    password does not match. *)
Theorem login_rejections_alike (toLowerCase : string -> string) (K : Crypto) (now : Time)
    (email password : string) (db : DB) :
  (forall u,
     hd_error (filter (fun u0 => str_eq (u_email u0) (toLowerCase email))
                 (users db)) = Some u ->
     bcrypt_compare K password (u_password u) = false) ->
  login toLowerCase K now [] email password db
  = (reply_error 401 "Credenciales inválidas", db).
Proof.
  intros H. unfold login.
  destruct (filter _ (users db)) as [|user rest]; [reflexivity|].
  rewrite (H user eq_refl). reflexivity.
Qed.

Lemma login_rejections_alike_witness :
  login latin1_toLowerCase sample_crypto 1000 [] "nobody@example.com" "Secret1" (shop 3)
  = login latin1_toLowerCase sample_crypto 1000 [] "alice@example.com" "wrong" (shop 3).
Proof.
  rewrite (login_rejections_alike latin1_toLowerCase sample_crypto 1000 "nobody@example.com"
             "Secret1" (shop 3)) by (intros u H; discriminate H).
  rewrite (login_rejections_alike latin1_toLowerCase sample_crypto 1000 "alice@example.com"
             "wrong" (shop 3)); [reflexivity|].
  intros u H. cbn in H. inversion H; subst. reflexivity.
Defined.

(** ** Changing the password *)

(** X10.  A [changePassword] that succeeds deletes every session of the
    caller and leaves those of other users; any token that only the caller's
    sessions carried is answered 401 afterwards.  One that does not succeed
    writes nothing. *)
Theorem changePassword_invalidates_sessions (K : Crypto)
    (errors : list string) (current new : string) (user : AuthUser)
    (db db' : DB) (r : Response) :
  changePassword K errors current new user db = (r, db') ->
  (code r <> 200 -> db' = db)
  /\ (code r = 200 ->
      filter (fun s => str_eq (s_user_id s) (au_id user)) (user_sessions db')
      = []
      /\ filter (fun s => negb (str_eq (s_user_id s) (au_id user)))
           (user_sessions db')
         = filter (fun s => negb (str_eq (s_user_id s) (au_id user)))
             (user_sessions db)
      /\ forall (authHeader : option string) (t : string) (later : Time),
           bearer_token authHeader = Some t ->
           (forall s, In s (user_sessions db) -> s_token s = t ->
                      s_user_id s = au_id user) ->
           exists msg,
             authenticateToken K later authHeader db'
             = (Reply (reply_error 401 msg), db')).
Proof.
  unfold changePassword. intros Hrun.
  destruct errors as [|e errors].
  2:{ inversion Hrun; subst. split; [reflexivity|]. discriminate. }
  destruct (filter _ (users db)) as [|row rest].
  { inversion Hrun; subst. split; [reflexivity|]. discriminate. }
  destruct (bcrypt_compare K current (u_password row)); cbn [negb] in Hrun.
  2:{ inversion Hrun; subst. split; [reflexivity|]. discriminate. }
  inversion Hrun; subst r db'. clear Hrun.
  split; [intros H; exfalso; apply H; reflexivity|]. intros _.
  cbn [set_user_sessions set_users user_sessions].
  split; [apply filter_filter_negb|]. split; [apply filter_filter_same|].
  intros authHeader t later Hb Hmine.
  unfold authenticateToken. rewrite Hb. cbn [falsy].
  destruct (str_eq t ""); [eexists; reflexivity|].
  cbn [set_user_sessions set_users user_sessions].
  rewrite filter_none; [eexists; reflexivity|].
  intros s Hs. apply filter_In in Hs. destruct Hs as [Hs Hother].
  destruct (str_eq (s_token s) t) eqn:E; [|reflexivity].
  apply str_eq_true in E. apply (Hmine s Hs) in E.
  rewrite E, str_eq_refl in Hother. discriminate.
Qed.

Lemma changePassword_invalidates_sessions_witness :
  user_sessions (snd (changePassword sample_crypto [] "Secret1" "Secret9"
                        alice_auth after_first_login)) = []
  /\ snd (changePassword sample_crypto [] "wrong" "Secret9" alice_auth
            after_first_login) = after_first_login.
Proof.
  destruct (changePassword_invalidates_sessions sample_crypto [] "Secret1"
              "Secret9" alice_auth after_first_login _ _ eq_refl)
    as [_ Hok].
  destruct (changePassword_invalidates_sessions sample_crypto [] "wrong"
              "Secret9" alice_auth after_first_login _ _ eq_refl)
    as [Hfail _].
  split.
  - destruct (Hok eq_refl) as (Hmine & Hothers & _).
    cbn in Hothers.
    destruct (user_sessions _) as [|s l] eqn:E; [reflexivity|].
    cbn in Hmine, Hothers.
    destruct (str_eq (s_user_id s) "alice"); cbn in Hothers; discriminate.
  - apply Hfail. discriminate.
Defined.

(** X11.  After a [changePassword] that succeeds, [login] with the new
    password succeeds for an email whose first account is the caller's,
    provided bcrypt accepts a password against its own hash; and with any
    password that bcrypt rejects against the new hash - the old one, say -
    it answers 401. *)
Theorem changePassword_then_login (toLowerCase : string -> string) (K : Crypto) (now : Time)
    (current new : string) (user : AuthUser) (db db' : DB) (r : Response)
    (email : string) (row : User) :
  bcrypt_compare K new (bcrypt_hash K new) = true ->
  changePassword K [] current new user db = (r, db') ->
  code r = 200 ->
  hd_error (filter (fun u => str_eq (u_email u) (toLowerCase email)) (users db))
  = Some row ->
  u_id row = au_id user ->
  (exists db2 token,
     login toLowerCase K now [] email new db'
     = ({| code := 200;
           body := Json true (Some "Inicio de sesión exitoso")
                     (Some (DAuth (auth_user row) token)) |}, db2))
  /\ forall other,
       bcrypt_compare K other (bcrypt_hash K new) = false ->
       login toLowerCase K now [] email other db'
       = (reply_error 401 "Credenciales inválidas", db').
Proof.
  unfold changePassword. intros Hbcrypt Hrun Hcode Hrow Hid.
  destruct (filter (fun u => str_eq (u_id u) (au_id user)) (users db))
    as [|row0 rest0]; [inversion Hrun; subst; discriminate|].
  destruct (bcrypt_compare K current (u_password row0)); cbn [negb] in Hrun;
    [|inversion Hrun; subst; discriminate].
  inversion Hrun; subst r db'. clear Hrun Hcode.
  assert (Hfilter :
    forall l,
      hd_error (filter (fun u => str_eq (u_email u) (toLowerCase email)) l)
      = Some row ->
      exists rest,
        filter (fun u => str_eq (u_email u) (toLowerCase email))
          (map (fun u => if str_eq (u_id u) (au_id user)
                         then {| u_id := u_id u; u_name := u_name u;
                                 u_email := u_email u;
                                 u_password := bcrypt_hash K new;
                                 u_role := u_role u; u_phone := u_phone u;
                                 u_address := u_address u |}
                         else u) l)
        = {| u_id := u_id row; u_name := u_name row; u_email := u_email row;
             u_password := bcrypt_hash K new; u_role := u_role row;
             u_phone := u_phone row; u_address := u_address row |} :: rest).
  { induction l as [|a l IH]; intros H; [discriminate|]. cbn in H. cbn [map].
    destruct (str_eq (u_email a) (toLowerCase email)) eqn:E.
    - cbn in H. inversion H; subst a. rewrite Hid, str_eq_refl.
      cbn [filter u_email]. rewrite E. eexists. reflexivity.
    - assert (E' : str_eq (u_email (if str_eq (u_id a) (au_id user)
                                    then {| u_id := u_id a; u_name := u_name a;
                                            u_email := u_email a;
                                            u_password := bcrypt_hash K new;
                                            u_role := u_role a;
                                            u_phone := u_phone a;
                                            u_address := u_address a |}
                                    else a)) (toLowerCase email) = false)
        by (destruct (str_eq (u_id a) (au_id user)); exact E).
      cbn [filter]. rewrite E'. apply IH. exact H. }
  destruct (Hfilter (users db) Hrow) as (rest & Hf).
  unfold login. cbn [set_user_sessions set_users users].
  rewrite Hf. cbn [u_password]. split.
  - rewrite Hbcrypt. cbn [negb]. eexists. eexists. reflexivity.
  - intros other Hother. rewrite Hother. reflexivity.
Qed.

Lemma changePassword_then_login_witness :
  (exists db2 token,
     login latin1_toLowerCase sample_crypto 3000 [] "alice@example.com" "Secret9"
       (snd (changePassword sample_crypto [] "Secret1" "Secret9" alice_auth
               after_first_login))
     = ({| code := 200;
           body := Json true (Some "Inicio de sesión exitoso")
                     (Some (DAuth alice_auth token)) |}, db2))
  /\ fst (login latin1_toLowerCase sample_crypto 3000 [] "alice@example.com" "Secret1"
            (snd (changePassword sample_crypto [] "Secret1" "Secret9"
                    alice_auth after_first_login)))
     = reply_error 401 "Credenciales inválidas".
Proof.
  destruct (changePassword_then_login latin1_toLowerCase sample_crypto 3000 "Secret1" "Secret9"
              alice_auth after_first_login
              (snd (changePassword sample_crypto [] "Secret1" "Secret9"
                      alice_auth after_first_login))
              (fst (changePassword sample_crypto [] "Secret1" "Secret9"
                      alice_auth after_first_login))
              "alice@example.com" alice
              eq_refl eq_refl eq_refl eq_refl eq_refl) as [Hnew Hold].
  split.
  - exact Hnew.
  - rewrite (Hold "Secret1" eq_refl). reflexivity.
Defined.

(** ** The profile *)

(** X12.  After an [updateProfile] with a name, [getProfile] of the same
    caller shows the name, phone and address just given, with the email and
    the role the account had; [updateProfile] writes no other account. *)
Theorem updateProfile_then_getProfile (name : string)
    (phone address : option string) (user : AuthUser) (db : DB) (row : User) :
  hd_error (filter (fun u => str_eq (u_id u) (au_id user)) (users db))
  = Some row ->
  let db' := snd (updateProfile []
                    {| pb_name := Some name; pb_phone := phone;
                       pb_address := address |} user db) in
  getProfile user db'
  = (ProfileJson 200 None
       (Some {| row_id := au_id user; row_name := name;
                row_email := u_email row; row_phone := phone;
                row_address := address; row_role := u_role row |}), db')
  /\ filter (fun u => negb (str_eq (u_id u) (au_id user))) (users db')
     = filter (fun u => negb (str_eq (u_id u) (au_id user))) (users db)
  /\ user_sessions db' = user_sessions db.
Proof.
  intros Hrow db'. subst db'. unfold updateProfile, getProfile.
  cbn [pb_name pb_phone pb_address snd set_users users user_sessions].
  split; [|split]; [| |reflexivity].
  - assert (Hf : exists rest,
      filter (fun u => str_eq (u_id u) (au_id user))
        (map (fun u => if str_eq (u_id u) (au_id user)
                       then {| u_id := u_id u; u_name := name;
                               u_email := u_email u;
                               u_password := u_password u;
                               u_role := u_role u; u_phone := phone;
                               u_address := address |}
                       else u) (users db))
      = {| u_id := u_id row; u_name := name; u_email := u_email row;
           u_password := u_password row; u_role := u_role row;
           u_phone := phone; u_address := address |} :: rest).
    { induction (users db) as [|a l IH]; [discriminate|].
      cbn [map filter] in *.
      destruct (str_eq (u_id a) (au_id user)) eqn:E.
      - cbn [u_id]. rewrite E. cbn in Hrow. inversion Hrow; subst a.
        eexists. reflexivity.
      - rewrite E. apply IH. exact Hrow. }
    destruct Hf as (rest & Hf). rewrite Hf.
    assert (Hid : u_id row = au_id user).
    { assert (Hin : In row (filter (fun u => str_eq (u_id u) (au_id user))
                              (users db))).
      { destruct (filter _ (users db)) as [|x l]; [discriminate|].
        cbn in Hrow. inversion Hrow. left. reflexivity. }
      apply filter_In in Hin. apply str_eq_true. apply Hin. }
    unfold profile_row. cbn. rewrite Hid. reflexivity.
  - clear Hrow. induction (users db) as [|a l IH]; [reflexivity|].
    cbn [map filter].
    destruct (str_eq (u_id a) (au_id user)) eqn:E.
    + cbn [u_id]. rewrite E. cbn [negb]. apply IH.
    + rewrite E. cbn [negb]. rewrite IH. reflexivity.
Qed.

Lemma updateProfile_then_getProfile_witness :
  fst (getProfile alice_auth
         (snd (updateProfile []
                 {| pb_name := Some "Alice B"; pb_phone := Some "1155550000";
                    pb_address := None |} alice_auth (shop 3))))
  = ProfileJson 200 None
      (Some {| row_id := "alice"; row_name := "Alice B";
               row_email := "alice@example.com";
               row_phone := Some "1155550000"; row_address := None;
               row_role := "customer" |}).
Proof.
  destruct (updateProfile_then_getProfile "Alice B" (Some "1155550000") None
              alice_auth (shop 3) alice eq_refl) as [H _].
  rewrite H. reflexivity.
Defined.

(** ** The webhook: what cannot be stored, what is never touched *)

(** X13.  A gateway status other than pending, approved, rejected and
    cancelled cannot be written to [payments.status]: when a payment row has
    the gateway's payment id as external id or belongs to the order the
    gateway names, the handler answers 500 and changes nothing - the order
    keeps the status it had.  in_process and in_mediation, which
    [isPaymentPending] expects, are such statuses. *)
Theorem handleWebhook_status_not_storable
    (payment_get : Id -> option PaymentInfo) (faults : Faults) (now : Time)
    (n : Notification) (pd : PaymentData) (db : DB) (p : Payment) :
  processWebhook payment_get n = Ok (Some pd) ->
  status pd <> "pending" -> status pd <> "approved" ->
  status pd <> "rejected" -> status pd <> "cancelled" ->
  In p (payments db) ->
  pay_external_id p = Some (payment_id pd)
  \/ external_reference pd = Some (pay_order_id p) ->
  handleWebhook payment_get faults now n db = (send 500 "Error", db).
Proof.
  intros Hpw H1 H2 H3 H4 Hin Hm.
  apply str_eq_false in H1, H2, H3, H4.
  destruct (handleWebhook_cases payment_get faults now n pd Hpw db)
    as [[_ Hacc] | He]; [|exact He].
  unfold payment_update_accepted in Hacc.
  rewrite forallb_forall in Hacc. specialize (Hacc p Hin).
  rewrite (proj2 (payment_matches_iff pd p) Hm) in Hacc.
  unfold chk_payment_status, includes in Hacc. cbn [existsb] in Hacc.
  rewrite H1, H2, H3, H4 in Hacc. discriminate.
Qed.

Lemma handleWebhook_status_not_storable_witness :
  isPaymentPending "in_process" = true
  /\ handleWebhook (gateway_says "in_process") no_faults 1000 payment_77 (shop 3)
     = (send 500 "Error", shop 3).
Proof.
  split; [reflexivity|].
  apply (handleWebhook_status_not_storable (gateway_says "in_process")
           no_faults 1000 payment_77 (payment_data_77 "in_process") (shop 3)
           (sample_payment "pay-1" "O" (Some "pref-1") 100) eq_refl);
    try discriminate.
  - left. reflexivity.
  - right. reflexivity.
Defined.

Lemma kept_or_rewritten_refl (t : list Product) : Forall2 kept_or_rewritten t t.
Proof. induction t; constructor; [left; reflexivity | assumption]. Qed.

Lemma write_row_kept (now : Time) (item : ItemRow) (p p1 : Product) :
  kept_or_rewritten p p1 -> kept_or_rewritten p (write_row now item p1).
Proof.
  intros H. unfold write_row.
  destruct (str_eq (p_id p1) (product_id item)); [|exact H].
  right. cbn [product_set p_id p_name p_product_type p_stock p_status].
  assert (Hsame : p_id p1 = p_id p /\ p_name p1 = p_name p
                  /\ p_product_type p1 = p_product_type p).
  { destruct H as [-> | (H1 & H2 & H3 & _)]; auto. }
  destruct Hsame as (H1 & H2 & H3). repeat (split; [assumption|]).
  unfold written_status_stock.
  destruct (str_eq (product_type item) "unico"); cbn [fst snd];
    [left; split; reflexivity|].
  destruct (Z.max 0 (stock item - quantity item) =? 0) eqn:E.
  - left. apply Z.eqb_eq in E. split; [exact E | reflexivity].
  - right. apply Z.eqb_neq in E. split; [lia | reflexivity].
Qed.

Lemma stock_after_kept (now : Time) (rows : list ItemRow)
    (t t1 : list Product) :
  Forall2 kept_or_rewritten t t1 ->
  Forall2 kept_or_rewritten t (stock_after now rows t1).
Proof.
  unfold stock_after. revert t1.
  induction rows as [|r rows IH]; intros t1 H; cbn; [exact H|].
  apply IH. unfold stock_write. clear IH.
  induction H as [|p p1 l l1 Hp Hl IHl]; cbn; constructor.
  - apply write_row_kept. exact Hp.
  - exact IHl.
Qed.

(** X14.  Whatever [handleWebhook] is sent and whatever it answers, it leaves
    users, sessions and line items as they were, and each product row either
    as it was or rewritten by the stock loop: same id, name and kind, with
    stock 0 and status agotado, or a positive stock and status disponible.
    Stock is never negative, and a product that was descontinuado is
    disponible again after a sale that leaves stock. *)
Theorem handleWebhook_products_invariant
    (payment_get : Id -> option PaymentInfo) (faults : Faults) (now : Time)
    (n : Notification) (db : DB) :
  let db' := snd (handleWebhook payment_get faults now n db) in
  Forall2 kept_or_rewritten (products db) (products db')
  /\ users db' = users db
  /\ user_sessions db' = user_sessions db
  /\ order_items db' = order_items db.
Proof.
  cbn zeta.
  destruct (processWebhook payment_get n) as [[pd|]|e] eqn:Hpw.
  - destruct (handleWebhook_cases payment_get faults now n pd Hpw db)
      as [[He _] | He]; rewrite He; cbn [snd].
    + unfold committed. cbn [products users user_sessions order_items].
      repeat split.
      destruct (isPaymentApproved (status pd)).
      * apply stock_after_kept. apply kept_or_rewritten_refl.
      * apply kept_or_rewritten_refl.
    + repeat split. apply kept_or_rewritten_refl.
  - unfold handleWebhook. rewrite Hpw. cbn [snd].
    repeat split. apply kept_or_rewritten_refl.
  - unfold handleWebhook. rewrite Hpw. cbn [snd].
    repeat split. apply kept_or_rewritten_refl.
Qed.

Example discontinued_product_relisted :
  map p_status (products shop_discontinued) = ["descontinuado"; "disponible"]
  /\ map p_status
       (products (snd (handleWebhook (gateway_says "approved") no_faults 1000
                         payment_77 shop_discontinued)))
     = ["disponible"; "disponible"].
Proof. split; reflexivity. Qed.

(** X15.  A notification that is not a payment event is acknowledged with 200
    and changes nothing, whatever the gateway would say; a payment event
    without [data], or that the gateway does not resolve, is answered 500
    and changes nothing either. *)
Theorem handleWebhook_without_payment_data
    (payment_get : Id -> option PaymentInfo) (faults : Faults) (now : Time)
    (n : Notification) (db : DB) :
  (n_type n <> "payment" ->
   handleWebhook payment_get faults now n db = (send 200 "OK", db))
  /\ (n_type n = "payment" ->
      (forall id, n_data n = Some id -> payment_get id = None) ->
      handleWebhook payment_get faults now n db = (send 500 "Error", db)).
Proof.
  unfold handleWebhook, processWebhook. split.
  - intros H. apply str_eq_false in H. rewrite H. reflexivity.
  - intros H Hgw. rewrite H. cbn.
    destruct (n_data n) as [id|]; [|reflexivity].
    rewrite (Hgw id eq_refl). reflexivity.
Qed.

Lemma handleWebhook_without_payment_data_witness :
  handleWebhook (gateway_says "approved") (fault_at 1) 1000
    {| n_type := "merchant_order"; n_data := Some "77" |} (shop 3)
  = (send 200 "OK", shop 3)
  /\ handleWebhook (gateway_says "approved") no_faults 1000
       {| n_type := "payment"; n_data := Some "78" |} (shop 3)
     = (send 500 "Error", shop 3).
Proof.
  split.
  - apply (proj1 (handleWebhook_without_payment_data _ _ _ _ _)).
    discriminate.
  - apply (proj2 (handleWebhook_without_payment_data _ _ _ _ _)).
    + reflexivity.
    + intros id H. inversion H; subst. reflexivity.
Defined.

(** ** From the preference to the webhook *)

Lemma find_hd_filter {A : Type} (f : A -> bool) (l : list A) :
  find f l = hd_error (filter f l).
Proof.
  induction l as [|a l IH]; [reflexivity|]. cbn.
  destruct (f a); [reflexivity | exact IH].
Qed.

Lemma str_eq_sym (a b : string) : str_eq a b = str_eq b a.
Proof. unfold str_eq. apply String.eqb_sym. Qed.

Lemma createPaymentPreference_accepted
    (preference_create : PreferenceRequest -> option PreferenceResult)
    (frontend_url backend_url : string) (uuid : Id) (now : Time)
    (body_order_id : option UuidParam) (user : AuthUser) (db db1 : DB)
    (r : Response) (calls : list PreferenceRequest) :
  createPaymentPreference preference_create frontend_url backend_url uuid now
    body_order_id user db = (r, calls, db1) ->
  code r = 200 ->
  exists order external_id,
    find (fun o => sql_eq (Some (o_id o)) (Some (o_id order))
                   && str_eq (o_user_id o) (au_id user)) (orders db)
    = Some order
    /\ body_order_id = Some (IsUuid (o_id order))
    /\ o_status order = "pendiente"
    /\ db1 = set_payments db
               (payments db ++
                [ {| pay_id := uuid; pay_order_id := o_id order;
                     pay_payment_method := "mercadopago";
                     pay_amount := o_total order; pay_currency := "ARS";
                     pay_status := "pending";
                     pay_external_id := Some external_id;
                     pay_gateway_response := None;
                     pay_created_at := now; pay_updated_at := now |} ]).
Proof.
  unfold createPaymentPreference. intros Hrun Hcode.
  destruct (uuid_param body_order_id) as [order_id|] eqn:Hcast;
    [|refused Hrun].
  destruct (find _ (orders db)) as [order|] eqn:Hfind; [|refused Hrun].
  destruct (str_eq (o_status order) "pendiente") eqn:Hst; cbn [negb] in Hrun;
    [|refused Hrun].
  destruct (createPreference _ _ _ _ _) as [[pref|e] calls0]; [|refused Hrun].
  destruct (insert_payment _ _ _ _ _ _ _ _ _ db) as [[row db']|] eqn:Hins;
    [|refused Hrun].
  inversion Hrun; subst. clear Hrun.
  apply insert_payment_some in Hins. destruct Hins as (m & Hm & Hrow & Hdb).
  inversion Hm; subst m.
  exists order, (preference_id pref).
  pose proof (find_some _ _ Hfind) as [_ Hcond].
  apply andb_true_iff in Hcond. destruct Hcond as [Hid _].
  apply sql_eq_true in Hid. destruct Hid as (x & Hx & Hbody).
  inversion Hx; subst x. subst order_id.
  split; [exact Hfind|].
  split; [apply (uuid_param_value _ _ _ Hcast); reflexivity|].
  split; [apply str_eq_true; exact Hst|].
  rewrite Hdb, Hrow. reflexivity.
Qed.

(** X16.  The payment row that [createPaymentPreference] opens for an order
    is the one an approved webhook closes: when the gateway's payment names
    that order as its external reference and the webhook is acknowledged,
    the row is approved and holds the gateway payload, and the order is
    pagado with the gateway's payment id. *)
Theorem preference_then_approved_webhook
    (preference_create : PreferenceRequest -> option PreferenceResult)
    (frontend_url backend_url : string) (uuid : Id) (t1 t2 : Time)
    (oid : Id) (user : AuthUser) (db db1 db2 : DB) (r1 r2 : Response)
    (calls : list PreferenceRequest)
    (payment_get : Id -> option PaymentInfo) (faults : Faults)
    (n : Notification) (pd : PaymentData) :
  createPaymentPreference preference_create frontend_url backend_url uuid t1
    (Some (IsUuid oid)) user db = (r1, calls, db1) ->
  code r1 = 200 ->
  processWebhook payment_get n = Ok (Some pd) ->
  status pd = "approved" ->
  external_reference pd = Some oid ->
  handleWebhook payment_get faults t2 n db1 = (r2, db2) ->
  code r2 = 200 ->
  (exists p, In p (payments db2)
             /\ pay_id p = uuid /\ pay_order_id p = oid
             /\ pay_status p = "approved"
             /\ pay_gateway_response p = Some (GwPayment pd))
  /\ (exists o, In o (orders db2)
                /\ o_id o = oid /\ o_user_id o = au_id user
                /\ o_status o = "pagado"
                /\ o_payment_id o = Some (payment_id pd)).
Proof.
  intros Hpref Hc1 Hpw Hst Href Hhook Hc2.
  destruct (createPaymentPreference_accepted _ _ _ _ _ _ _ _ _ _ _ Hpref Hc1)
    as (order & ext & Hfind & Hbody & _ & Hdb1).
  inversion Hbody as [Hoid]. subst oid. clear Hbody.
  destruct (handleWebhook_acknowledged _ _ _ _ _ Hpw _ _ _ Hhook Hc2)
    as [-> _].
  pose proof (find_some _ _ Hfind) as [Hin Hcond].
  apply andb_true_iff in Hcond. destruct Hcond as [_ Hown].
  apply str_eq_true in Hown.
  subst db1. unfold committed. cbn [payments orders set_payments].
  split.
  - eexists. split.
    + unfold payments_after. apply in_map. apply in_or_app. right.
      left. reflexivity.
    + unfold payment_matches. cbn [pay_order_id pay_external_id].
      rewrite Href. cbn [sql_eq]. rewrite str_eq_refl, orb_true_r.
      cbn. rewrite Hst. repeat split.
  - exists (order_set "pagado" (payment_id pd) t2 order). split.
    + unfold orders_after. apply in_map_iff. exists order.
      split; [|exact Hin].
      rewrite Href, Hst. cbn [sql_eq]. rewrite str_eq_refl. reflexivity.
    + cbn. repeat split; congruence.
Qed.

Lemma preference_then_approved_webhook_witness :
  let db1 := snd (createPaymentPreference granting_gateway "https://shop"
                    "https://api" "pay-9" 500 (Some (IsUuid "O")) alice_auth
                    (shop 3)) in
  let db2 := snd (handleWebhook (gateway_says "approved") no_faults 1000
                    payment_77 db1) in
  (exists p, In p (payments db2) /\ pay_id p = "pay-9"
             /\ pay_status p = "approved")
  /\ map o_status (orders db2) = ["pagado"].
Proof.
  intros db1 db2.
  destruct (preference_then_approved_webhook granting_gateway "https://shop"
              "https://api" "pay-9" 500 1000 "O" alice_auth (shop 3) db1 db2
              _ (send 200 "OK") _ (gateway_says "approved") no_faults
              payment_77 (payment_data_77 "approved")
              eq_refl eq_refl eq_refl eq_refl eq_refl eq_refl eq_refl)
    as [(p & Hin & Hid & _ & Hst & _) _].
  split; [|reflexivity].
  exists p. repeat split; assumption.
Defined.

(** ** From the preference to the status *)

Lemma latest_app_new (l1 l2 : list (Payment * Order)) (r : Payment * Order) :
  (forall x, In x l1 -> pay_created_at (fst x) < pay_created_at (fst r)) ->
  (forall x, In x l2 -> pay_created_at (fst x) <= pay_created_at (fst r)) ->
  latest (l1 ++ r :: l2) = Some r.
Proof.
  intros H1 H2. induction l1 as [|a l1 IH]; cbn [app latest].
  - destruct (latest l2) as [r'|] eqn:E; [|reflexivity].
    apply latest_some in E. destruct E as [Hin _].
    replace (pay_created_at (fst r) <? pay_created_at (fst r')) with false;
      [reflexivity|].
    symmetry. apply Z.ltb_ge. apply H2. exact Hin.
  - rewrite IH by (intros x Hx; apply H1; right; exact Hx).
    replace (pay_created_at (fst a) <? pay_created_at (fst r)) with true;
      [reflexivity|].
    symmetry. apply Z.ltb_lt. apply H1. left. reflexivity.
Qed.

(** X17.  Right after [createPaymentPreference] has opened a payment at an
    instant later than every earlier payment of the order,
    [checkPaymentStatus] for that order and caller shows that payment:
    pending, for the order's total in ARS, the order pendiente. *)
Theorem preference_then_status
    (preference_create : PreferenceRequest -> option PreferenceResult)
    (frontend_url backend_url : string) (uuid : Id) (now : Time)
    (oid : Id) (user : AuthUser) (db db1 : DB) (r : Response)
    (calls : list PreferenceRequest) :
  createPaymentPreference preference_create frontend_url backend_url uuid now
    (Some (IsUuid oid)) user db = (r, calls, db1) ->
  code r = 200 ->
  (forall p, In p (payments db) -> pay_order_id p = oid ->
             pay_created_at p < now) ->
  exists total,
    checkPaymentStatus (IsUuid oid) user db1
    = ({| code := 200;
          body := Json true None
                    (Some (DPaymentStatus uuid "pending" total "ARS"
                             "pendiente" now now)) |}, db1)
    /\ exists order, In order (orders db) /\ o_id order = oid
                     /\ o_total order = total.
Proof.
  intros Hpref Hc Hearlier.
  destruct (createPaymentPreference_accepted _ _ _ _ _ _ _ _ _ _ _ Hpref Hc)
    as (order & ext & Hfind & Hbody & Hpending & Hdb1).
  inversion Hbody as [Hoid]. subst oid. clear Hbody.
  pose proof (find_some _ _ Hfind) as [Hin _].
  exists (o_total order). split; [|exists order; auto].
  rewrite find_hd_filter in Hfind.
  unfold checkPaymentStatus, payment_order_rows.
  subst db1. cbn [payments orders set_payments].
  rewrite flat_map_app. cbn [flat_map pay_order_id]. rewrite app_nil_r.
  assert (Hext : forall l,
            filter (fun o => str_eq (o_id order) (o_id o)
                             && str_eq (o_id order) (o_id order)
                             && str_eq (o_user_id o) (au_id user)) l
            = filter (fun o => sql_eq (Some (o_id o)) (Some (o_id order))
                               && str_eq (o_user_id o) (au_id user)) l).
  { intros l. apply filter_ext. intros o. cbn [sql_eq].
    rewrite str_eq_refl, andb_true_r, (str_eq_sym (o_id o)). reflexivity. }
  rewrite Hext.
  destruct (filter _ (orders db)) as [|o0 rest]; [discriminate|].
  cbn in Hfind. inversion Hfind; subst o0. cbn [map].
  rewrite latest_app_new.
  - rewrite Hpending. reflexivity.
  - intros [p o] Hx. cbn [fst pay_created_at].
    apply in_flat_map in Hx. destruct Hx as (p0 & Hp0 & Hx).
    apply in_map_iff in Hx. destruct Hx as (o1 & Heq & Ho1).
    inversion Heq; subst p0 o1.
    apply filter_In in Ho1. destruct Ho1 as [_ Hc1].
    rewrite !andb_true_iff, !str_eq_true in Hc1.
    apply Hearlier; [exact Hp0|]. tauto.
  - intros [p o] Hx. apply in_map_iff in Hx.
    destruct Hx as (o1 & Heq & _). inversion Heq; subst. cbn. lia.
Qed.

Lemma preference_then_status_witness :
  fst (checkPaymentStatus (IsUuid "O") alice_auth
         (snd (createPaymentPreference granting_gateway "https://shop"
                 "https://api" "pay-9" 500 (Some (IsUuid "O")) alice_auth
                 (shop 3))))
  = {| code := 200;
       body := Json true None
                 (Some (DPaymentStatus "pay-9" "pending" 30000 "ARS"
                          "pendiente" 500 500)) |}.
Proof.
  destruct (preference_then_status granting_gateway "https://shop"
              "https://api" "pay-9" 500 "O" alice_auth (shop 3)
              (snd (createPaymentPreference granting_gateway "https://shop"
                      "https://api" "pay-9" 500 (Some (IsUuid "O")) alice_auth
                      (shop 3)))
              _ _ eq_refl eq_refl)
    as (total & Hrun & order & Hin & _ & Htotal).
  - intros p [<- | []] _. cbn. lia.
  - rewrite Hrun. cbn [fst]. destruct Hin as [<- | []].
    cbn in Htotal. rewrite <- Htotal. reflexivity.
Defined.

(** ** What the payment handlers never touch *)

(** X18.  Whatever they answer, [createPaymentPreference] and
    [processManualPayment] leave the store as it was or append one payment
    row, pending and with the identifier drawn for it: they rewrite no
    payment, no order and no stock.  [checkPaymentStatus] leaves the store as
    it was. *)
Theorem payment_handlers_frame
    (preference_create : PreferenceRequest -> option PreferenceResult)
    (frontend_url backend_url : string) (uuid : Id) (now : Time)
    (user : AuthUser) (db : DB) :
  (forall body_order_id,
     let db' := snd (createPaymentPreference preference_create frontend_url
                       backend_url uuid now body_order_id user db) in
     db' = db
     \/ exists row, db' = set_payments db (payments db ++ [row])
                    /\ pay_id row = uuid /\ pay_status row = "pending")
  /\ (forall req_body,
        let db' := snd (processManualPayment uuid now req_body user db) in
        db' = db
        \/ exists row, db' = set_payments db (payments db ++ [row])
                       /\ pay_id row = uuid /\ pay_status row = "pending")
  /\ (forall order_id, snd (checkPaymentStatus order_id user db) = db).
Proof.
  split; [|split].
  - intros body_order_id. cbn zeta. unfold createPaymentPreference.
    destruct (uuid_param body_order_id) as [order_id|]; [|left; reflexivity].
    destruct (find _ (orders db)) as [order|]; [|left; reflexivity].
    destruct (negb _); [left; reflexivity|].
    destruct (createPreference _ _ _ _ _) as [[pref|e] calls];
      [|left; reflexivity].
    destruct (insert_payment _ _ _ _ _ _ _ _ _ db) as [[row db1]|] eqn:Hins;
      [|left; reflexivity].
    apply insert_payment_some in Hins. destruct Hins as (m & _ & Hrow & Hdb).
    right. exists row. cbn [snd]. split; [exact Hdb|].
    rewrite Hrow. split; reflexivity.
  - intros req_body. cbn zeta. unfold processManualPayment.
    destruct (uuid_param (mb_order_id req_body)) as [order_id|];
      [|left; reflexivity].
    destruct (find _ (orders db)) as [order|]; [|left; reflexivity].
    destruct (insert_payment _ _ _ _ _ _ _ _ _ db) as [[row db1]|] eqn:Hins;
      [|left; reflexivity].
    apply insert_payment_some in Hins. destruct Hins as (m & _ & Hrow & Hdb).
    right. exists row. cbn [snd]. split; [exact Hdb|].
    rewrite Hrow. split; reflexivity.
  - intros [order_id|text]; unfold checkPaymentStatus; [|reflexivity].
    destruct (latest _) as [[p o]|]; reflexivity.
Qed.

(** X19.  [processManualPayment] answers the same 404 when the order id is
    missing from the body or is a uuid that names no order, another user's
    order or an order that is not pendiente; it answers 500 when the order
    id is not a uuid; and without a payment method in the body it never
    answers 200.  In none of these cases does it write. *)
Theorem processManualPayment_refusals (uuid : Id) (now : Time)
    (req_body : ManualBody) (user : AuthUser) (db : DB) :
  ((forall text, mb_order_id req_body <> Some (NotUuid text)) ->
   (forall o, In o (orders db) ->
              mb_order_id req_body = Some (IsUuid (o_id o)) ->
              o_user_id o = au_id user -> o_status o <> "pendiente") ->
   processManualPayment uuid now req_body user db
   = (reply_error 404 "Orden no encontrada o no válida", db))
  /\ (forall text, mb_order_id req_body = Some (NotUuid text) ->
      processManualPayment uuid now req_body user db
      = (reply_error 500 "Error procesando el pago", db))
  /\ (mb_payment_method req_body = None ->
      snd (processManualPayment uuid now req_body user db) = db
      /\ code (fst (processManualPayment uuid now req_body user db)) <> 200).
Proof.
  unfold processManualPayment. split; [|split].
  - intros Huuid Hnone.
    destruct (uuid_param (mb_order_id req_body)) as [order_id|] eqn:Hcast.
    2:{ apply uuid_param_none in Hcast. destruct Hcast as (t & Ht).
        exfalso. apply (Huuid t Ht). }
    destruct (find _ (orders db)) as [order|] eqn:Hfind; [|reflexivity].
    exfalso. apply find_some in Hfind. destruct Hfind as [Hin Hcond].
    rewrite !andb_true_iff, !str_eq_true in Hcond.
    destruct Hcond as [[Hid Hown] Hst].
    apply sql_eq_true in Hid. destruct Hid as (x & Hx & Hbody).
    inversion Hx; subst x.
    apply (uuid_param_value _ _ _ Hcast) in Hbody.
    apply (Hnone order Hin Hbody Hown Hst).
  - intros text Ht. rewrite Ht. reflexivity.
  - intros Hm. rewrite Hm.
    destruct (uuid_param _) as [order_id|];
      [|cbn; split; reflexivity || discriminate].
    destruct (find _ (orders db)) as [order|]; cbn; split;
      reflexivity || discriminate.
Qed.

(** Bob submits a proof for alice's order; alice for an order already paid,
    for an order named by a text that is no uuid, and without a method. *)
Lemma processManualPayment_refusals_witness :
  fst (processManualPayment "pay-3" 1000 (manual_body "1") bob_auth (shop 3))
  = fst (processManualPayment "pay-3" 1000 (manual_body "1") alice_auth
           (set_orders (shop 3) [sample_order "O" "alice" "pagado"]))
  /\ code (fst (processManualPayment "pay-3" 1000
                  {| mb_order_id := Some (NotUuid "42");
                     mb_payment_method := Some "efectivo";
                     mb_payment_proof := None; mb_other_fields := [] |}
                  alice_auth (shop 3))) = 500
  /\ code (fst (processManualPayment "pay-3" 1000
                  {| mb_order_id := Some (IsUuid "O");
                     mb_payment_method := None;
                     mb_payment_proof := None; mb_other_fields := [] |}
                  alice_auth (shop 3))) = 500.
Proof.
  split; [|split].
  - rewrite (proj1 (processManualPayment_refusals "pay-3" 1000
                      (manual_body "1") bob_auth (shop 3))).
    + pose proof (proj1 (processManualPayment_refusals "pay-3" 1000
                           (manual_body "1") alice_auth
                           (set_orders (shop 3)
                              [sample_order "O" "alice" "pagado"]))) as H.
      rewrite H; [reflexivity | discriminate |].
      intros o [<- | []] _ _. discriminate.
    + discriminate.
    + intros o [<- | []] _ Hown. discriminate Hown.
  - rewrite (proj1 (proj2 (processManualPayment_refusals "pay-3" 1000
                             {| mb_order_id := Some (NotUuid "42");
                                mb_payment_method := Some "efectivo";
                                mb_payment_proof := None;
                                mb_other_fields := [] |}
                             alice_auth (shop 3))) "42" eq_refl).
    reflexivity.
  - destruct (proj2 (proj2 (processManualPayment_refusals "pay-3" 1000
                       {| mb_order_id := Some (IsUuid "O");
                          mb_payment_method := None;
                          mb_payment_proof := None; mb_other_fields := [] |}
                       alice_auth (shop 3))) eq_refl) as [_ H].
    reflexivity.
Defined.

(** ** What is sent to the gateway *)

Lemma filter_pk_at_most_one (prods : list Product) (x : Id) :
  NoDup (map p_id prods) ->
  filter (fun p => str_eq x (p_id p)) prods = []
  \/ exists p, filter (fun p => str_eq x (p_id p)) prods = [p].
Proof.
  intros Hnd.
  destruct (filter (fun p => str_eq x (p_id p)) prods) as [|p rest] eqn:E;
    [left; reflexivity|].
  right. exists p.
  assert (Hp : In p (filter (fun p => str_eq x (p_id p)) prods))
    by (rewrite E; left; reflexivity).
  apply filter_In in Hp. destruct Hp as [Hin Hid].
  apply str_eq_true in Hid. subst x.
  rewrite <- E. apply filter_by_pk; assumption.
Qed.

(** X20.  Every request that [createPaymentPreference] sends to the gateway
    names the order as external reference, expires 24 hours after the
    instant of the request, never has an empty payer phone, and, product ids
    being unique, carries exactly one item per line of the order, in the
    order of the lines and with the product, quantity and unit price
    recorded on the line - or, for an order without lines, a single item
    whose fields are all null. *)
Theorem createPaymentPreference_request
    (preference_create : PreferenceRequest -> option PreferenceResult)
    (frontend_url backend_url : string) (uuid : Id) (now : Time)
    (oid : Id) (user : AuthUser) (db db' : DB) (r : Response)
    (calls : list PreferenceRequest) (req : PreferenceRequest) :
  products_pk db ->
  createPaymentPreference preference_create frontend_url backend_url uuid now
    (Some (IsUuid oid)) user db = (r, calls, db') ->
  In req calls ->
  calls = [req]
  /\ pr_external_reference req = oid
  /\ pr_expiration_from req = now
  /\ pr_expiration_to req = now + 86400000
  /\ pr_payer_phone req <> ""
  /\ map item_key (pr_items req)
     = match order_lines oid db with
       | [] => [(None, None, None)]
       | (_ :: _) as lines => map line_key lines
       end.
Proof.
  unfold createPaymentPreference. cbn [uuid_param]. intros Hpk Hrun Hin.
  destruct (find _ (orders db)) as [order|] eqn:Hfind;
    [|inversion Hrun; subst; contradiction].
  destruct (negb _); [inversion Hrun; subst; contradiction|].
  pose proof (find_some _ _ Hfind) as [_ Hcond].
  apply andb_true_iff in Hcond. destruct Hcond as [Hid _].
  cbn [sql_eq] in Hid. apply str_eq_true in Hid.
  unfold createPreference in Hrun. cbn [od_user od_items od_order_id
    od_shipping_address] in Hrun.
  destruct (option_map _ _) as [[[name email] phone]|];
    [|inversion Hrun; subst; contradiction].
  match type of Hrun with
  | context [preference_create ?rq] => set (request := rq) in *
  end.
  assert (Hcalls : calls = [request]).
  { destruct (preference_create request) as [result|].
    - destruct (insert_payment _ _ _ _ _ _ _ _ _ db) as [[row db1]|];
        inversion Hrun; reflexivity.
    - inversion Hrun; reflexivity. }
  subst calls. destruct Hin as [<- | []]. clear Hrun.
  split; [reflexivity|]. split; [exact Hid|]. split; [reflexivity|].
  split; [cbn; f_equal; lia|]. split.
  { cbn [request pr_payer_phone]. unfold or_default.
    destruct phone as [s|]; [|discriminate].
    destruct (str_eq s "") eqn:E; [discriminate|].
    apply str_eq_false. exact E. }
  cbn [request pr_items]. unfold order_json_items, order_lines.
  rewrite Hid.
  destruct (filter _ (order_items db)) as [|oi0 ois]; [reflexivity|].
  cbv beta iota. rewrite map_map.
  generalize (oi0 :: ois). intros lines.
  induction lines as [|oi lines IH]; [reflexivity|].
  cbn [flat_map]. rewrite map_app, IH.
  change (map line_key (oi :: lines))
    with ([line_key oi] ++ map line_key lines)%list.
  f_equal.
  destruct (filter_pk_at_most_one (products db) (oi_product_id oi) Hpk)
    as [-> | (q & ->)]; reflexivity.
Qed.

(** The sample order has one line, of three units. *)
Lemma createPaymentPreference_request_witness :
  exists req,
    snd (fst (createPaymentPreference granting_gateway "https://shop"
                "https://api" "pay-9" 500 (Some (IsUuid "O")) alice_auth
                (shop 3)))
    = [req]
    /\ pr_external_reference req = "O"
    /\ pr_payer_phone req = "1234567890"
    /\ map item_key (pr_items req) = [(Some "P", Some 3, Some 10000)].
Proof.
  assert (Hpk : products_pk (shop 3)).
  { unfold products_pk. cbn. repeat constructor; cbn; intuition discriminate. }
  eexists. split; [reflexivity|].
  destruct (createPaymentPreference_request granting_gateway "https://shop"
              "https://api" "pay-9" 500 "O" alice_auth (shop 3) _ _ _ _
              Hpk eq_refl (or_introl eq_refl))
    as (_ & Href & _ & _ & _ & Hitems).
  split; [exact Href|]. split; [reflexivity|]. exact Hitems.
Defined.

(** ** Deleting a product *)

(** X21.  [deleteProduct] on an id that a product carries answers 200 and
    removes the product and, with it, every order line that names it, while
    orders, payments and the other products and lines stay; a second
    [deleteProduct] for the id answers 404 and changes nothing.  Whether the
    image file could be unlinked changes neither the answer nor the store.
    A text that is not a uuid is answered 500 and changes nothing. *)
Theorem deleteProduct_cascades (unlink : string -> bool) (id : Id) (db : DB)
    (p : Product) :
  In p (products db) -> p_id p = id ->
  let out := deleteProduct unlink (IsUuid id) db in
  let db' := snd out in
  code (fst (fst out)) = 200
  /\ products db' = filter (fun q => negb (str_eq (p_id q) id)) (products db)
  /\ order_items db'
     = filter (fun oi => negb (str_eq (oi_product_id oi) id)) (order_items db)
  /\ orders db' = orders db /\ payments db' = payments db
  /\ (forall unlink',
        fst (fst (deleteProduct unlink' (IsUuid id) db)) = fst (fst out)
        /\ snd (deleteProduct unlink' (IsUuid id) db) = db')
  /\ (forall unlink',
        deleteProduct unlink' (IsUuid id) db'
        = (reply_error 404 "Producto no encontrado", [], db'))
  /\ (forall unlink' text,
        deleteProduct unlink' (NotUuid text) db
        = (reply_error 500 "Error interno del servidor", [], db)).
Proof.
  intros Hin Hid. cbn zeta.
  assert (Hrows : exists row rest,
            filter (fun q => str_eq (p_id q) id) (products db) = row :: rest).
  { destruct (filter _ (products db)) as [|row rest] eqn:E; [|eauto].
    pose proof (filter_nil_all _ _ E p Hin) as Hf. cbn in Hf.
    rewrite Hid, str_eq_refl in Hf. discriminate. }
  destruct Hrows as (row & rest & Hrows).
  assert (Hshape : forall u,
    deleteProduct u (IsUuid id) db
    = ({| code := 200;
          body := Json true (Some "Producto eliminado exitosamente") None |},
       snd (fst (deleteProduct u (IsUuid id) db)),
       {| users := users db; user_sessions := user_sessions db;
          products := filter (fun q => negb (str_eq (p_id q) id)) (products db);
          orders := orders db;
          order_items := filter (fun oi => negb (str_eq (oi_product_id oi) id))
                           (order_items db);
          payments := payments db |})).
  { intros u. unfold deleteProduct. rewrite Hrows.
    destruct (p_image_url row) as [url|]; [|reflexivity].
    destruct (str_eq url ""); [reflexivity|].
    destruct (u url); reflexivity. }
  rewrite (Hshape unlink). cbn [fst snd code products order_items orders payments].
  repeat split.
  - rewrite (Hshape unlink'). reflexivity.
  - rewrite (Hshape unlink'). reflexivity.
  - intros unlink'. unfold deleteProduct at 1. cbn [products].
    rewrite filter_filter_negb. reflexivity.
Qed.

Lemma deleteProduct_cascades_witness :
  let db' := snd (deleteProduct (fun _ => false) (IsUuid "P") (shop 3)) in
  map p_id (products db') = ["U"] /\ order_items db' = []
  /\ orders db' = orders (shop 3)
  /\ fst (fst (deleteProduct (fun _ => true) (IsUuid "P") db'))
     = reply_error 404 "Producto no encontrado".
Proof.
  destruct (deleteProduct_cascades (fun _ => false) "P" (shop 3)
              (sample_product "P" "normal" 5) (or_introl eq_refl) eq_refl)
    as (_ & Hp & Hoi & Ho & _ & _ & Hagain & _).
  cbn zeta. rewrite Hp, Hoi, Ho, (Hagain (fun _ => true)).
  repeat split.
Defined.

(** ** The two queries of the product listing *)

Lemma push_if_lengths (x : option string) (cond : string -> string)
    (v : string -> SqlParam) (st : list string * list SqlParam) :
  List.length (fst st) = List.length (snd st) ->
  List.length (fst (push_if x cond v st))
  = List.length (snd (push_if x cond v st))
  /\ List.length (fst (push_if x cond v st))
     = (List.length (fst st) + if truthy x then 1 else 0)%nat.
Proof.
  intros H. unfold push_if, push_filter.
  destruct (truthy x); cbn [fst snd].
  - rewrite !length_app. cbn. lia.
  - lia.
Qed.

Lemma product_filters_lengths (q : ProductsQuery) :
  List.length (fst (product_filters q)) = List.length (snd (product_filters q))
  /\ List.length (fst (product_filters q)) = S (optional_filters q).
Proof.
  unfold product_filters, optional_filters.
  set (st0 := (["p.status = $1"], [PText _])).
  assert (H0 : List.length (fst st0) = List.length (snd st0)) by reflexivity.
  destruct (push_if_lengths (q_category q) (fun ph => "c.slug = " ++ ph)
              PText st0 H0) as [H1 L1].
  set (st1 := push_if (q_category q) _ _ st0) in *.
  destruct (push_if_lengths (q_type q) (fun ph => "p.product_type = " ++ ph)
              PText st1 H1) as [H2 L2].
  set (st2 := push_if (q_type q) _ _ st1) in *.
  destruct (push_if_lengths (q_featured q)
              (fun ph => "p.is_featured = " ++ ph)
              (fun s => PBool (str_eq s "true")) st2 H2) as [H3 L3].
  set (st3 := push_if (q_featured q) _ _ st2) in *.
  destruct (push_if_lengths (q_search q)
              (fun ph => "(p.name ILIKE " ++ ph ++ " OR p.description ILIKE "
                         ++ ph ++ ")")
              (fun s => PText ("%" ++ s ++ "%")) st3 H3) as [H4 L4].
  split; [exact H4|].
  rewrite L4, L3, L2, L1. cbn [st0 fst List.length]. lia.
Qed.

(** X22.  In the listing query the parameters are the filters followed by
    the limit and the offset, which the LIMIT and OFFSET placeholders
    address.  The count query is built from all but the last two conditions
    and all but the last two parameters: it keeps every filter parameter but
    two conditions fewer, so it never has as many conditions as parameters,
    and its WHERE clause is empty unless at least two of the optional
    filters are given. *)
Theorem getProducts_count_statement (q : ProductsQuery) :
  let s := getProducts_statements q in
  let n := S (optional_filters q) in
  List.length (list_params s) = (n + 2)%nat
  /\ list_limit s = placeholder (n + 1)
  /\ list_offset s = placeholder (n + 2)
  /\ count_params s = snd (product_filters q)
  /\ List.length (count_params s) = n
  /\ count_where s
     = join_and (firstn (n - 2) (fst (product_filters q)))
  /\ ((optional_filters q <= 1)%nat -> count_where s = "").
Proof.
  cbn zeta. destruct (product_filters_lengths q) as [Heq Hn].
  unfold getProducts_statements, slice_off_two.
  cbn [list_params list_limit list_offset count_params count_where].
  rewrite !length_app, <- Heq, Hn. cbn [List.length].
  split; [lia|].
  split; [f_equal; lia|]. split; [f_equal; lia|].
  assert (Hfirst : firstn (S (optional_filters q) + 2 - 2)
                     (snd (product_filters q) ++ [PLimit; POffset])
                   = snd (product_filters q)).
  { replace (S (optional_filters q) + 2 - 2)%nat
      with (List.length (snd (product_filters q)) + 0)%nat by lia.
    rewrite firstn_app_2. cbn. apply app_nil_r. }
  split; [exact Hfirst|]. split; [rewrite Hfirst; lia|].
  split; [reflexivity|].
  intros Hle.
  replace (S (optional_filters q) - 2)%nat with 0%nat by lia.
  reflexivity.
Qed.

Lemma getProducts_count_statement_witness :
  count_where (getProducts_statements
                 {| q_category := None; q_type := None; q_status := None;
                    q_featured := None; q_search := None |}) = ""
  /\ count_params (getProducts_statements
                     {| q_category := None; q_type := None; q_status := None;
                        q_featured := None; q_search := None |})
     = [PText "disponible"].
Proof.
  pose proof (getProducts_count_statement
                {| q_category := None; q_type := None; q_status := None;
                   q_featured := None; q_search := None |})
    as (_ & _ & _ & Hp & _ & _ & Hw).
  split.
  - apply Hw. cbn. lia.
  - rewrite Hp. reflexivity.
Defined.

Example getProducts_three_filters :
  let s := getProducts_statements
             {| q_category := Some "hardware"; q_type := Some "nuevo";
                q_status := None; q_featured := None;
                q_search := Some "rtx" |} in
  list_where s
  = "p.status = $1 AND c.slug = $2 AND p.product_type = $3 AND (p.name ILIKE $4 OR p.description ILIKE $4)"
  /\ list_limit s = "$5" /\ list_offset s = "$6"
  /\ count_where s = "p.status = $1 AND c.slug = $2"
  /\ count_params s
     = [PText "disponible"; PText "hardware"; PText "nuevo"; PText "%rtx%"].
Proof. cbn. repeat split. Qed.

(** ** The statement of a product update *)

Section UpdateStatementFacts.

Variables V P : Type.
Variables parseFloat parseInt stringify as_is : V -> P.
Variable text : string -> P.
Variable new_date : P.

Lemma numbered_app (from : nat) (l1 l2 : list string) :
  numbered from (l1 ++ l2)
  = (numbered from l1 ++ numbered (from + List.length l1) l2)%list.
Proof.
  revert from. induction l1 as [|c l1 IH]; intros from; cbn.
  - rewrite Nat.add_0_r. reflexivity.
  - rewrite IH. do 3 f_equal. lia.
Qed.

Lemma numbered_length (from : nat) (l : list string) :
  List.length (numbered from l) = List.length l.
Proof.
  revert from. induction l as [|c l IH]; intros from; cbn; [|rewrite IH];
    reflexivity.
Qed.

Lemma each_key_loop (updates : list (string * V)) (b : Building P) :
  let b' := fold_left (each_key V P parseFloat parseInt stringify as_is)
              updates b in
  fields b' = (fields b ++ numbered (paramCount b) (kept_keys updates))%list
  /\ paramCount b' = (paramCount b + List.length (kept_keys updates))%nat
  /\ List.length (values b')
     = (List.length (values b) + List.length (kept_keys updates))%nat.
Proof.
  cbn zeta. revert b. unfold kept_keys.
  induction updates as [|kv updates IH]; intros b; cbn [fold_left filter map].
  - cbn. rewrite app_nil_r. repeat split; lia.
  - unfold each_key at 2 4 6.
    destruct (negb (str_eq (fst kv) "id")).
    + destruct (IH (push_field P (fst kv)
                      (convert V P parseFloat parseInt stringify as_is
                         (fst kv) (snd kv)) b)) as (Hf & Hp & Hv).
      rewrite Hf, Hp, Hv. cbn [push_field fields paramCount values map numbered
        List.length]. rewrite <- app_assoc, length_app. cbn.
      repeat split; lia.
    + apply IH.
Qed.

(** X23.  [updateProduct] answers 400 exactly when the body has no key other
    than id - an uploaded image alone is refused.  Otherwise the statement
    sets the body's other keys in their order, then image_url if a file came,
    then updated_at, with placeholders counted from 1; the id is the last
    parameter and the WHERE clause addresses it, so there is one parameter
    for each placeholder. *)
Theorem updateProduct_statement_shape (id : P) (updates : list (string * V))
    (file : option string) :
  let cols := (kept_keys updates
               ++ (match file with Some _ => ["image_url"] | None => [] end)
               ++ ["updated_at"])%list in
  (updateProduct_statement V P parseFloat parseInt stringify as_is text
     new_date id updates file = None
   <-> forall kv, In kv updates -> fst kv = "id")
  /\ forall st,
       updateProduct_statement V P parseFloat parseInt stringify as_is text
         new_date id updates file = Some st ->
       set_clauses st = numbered 1 cols
       /\ where_id st = "id = " ++ placeholder (S (List.length cols))
       /\ List.length (parameters st) = S (List.length cols)
       /\ nth_error (parameters st) (List.length cols) = Some id.
Proof.
  cbn zeta. unfold updateProduct_statement.
  destruct (each_key_loop updates
              {| fields := []; values := []; paramCount := 1 |})
    as (Hf & Hp & Hv).
  cbn [fields paramCount values app List.length] in Hf, Hp, Hv.
  set (b1 := fold_left _ updates _) in *. clearbody b1.
  destruct b1 as [f v pc]. cbn [fields paramCount values] in *. subst f pc.
  assert (Hkept : kept_keys updates = []
                  <-> forall kv, In kv updates -> fst kv = "id").
  { unfold kept_keys. split.
    - intros H kv Hin. apply map_eq_nil in H.
      pose proof (filter_nil_all _ _ H kv Hin) as Hk. cbn in Hk.
      apply negb_false_iff in Hk. apply str_eq_true. exact Hk.
    - intros H. rewrite filter_none; [reflexivity|].
      intros kv Hin. rewrite (H kv Hin). reflexivity. }
  rewrite <- Hkept. clear Hkept.
  destruct (kept_keys updates) as [|c rest].
  - split; [split; reflexivity|]. intros st H. discriminate H.
  - split; [split; discriminate|].
    intros st H. cbn [numbered] in H. inversion H; subst st. clear H.
    cbn [set_clauses where_id parameters].
    destruct file as [filename|];
      cbn [push_field fields paramCount values];
      rewrite !numbered_app; cbn [numbered app List.length];
      rewrite !length_app; cbn [List.length].
    all: cbn [List.length] in Hv.
    all: rewrite <- ?app_assoc; cbn [app String.append].
    all: repeat split;
      [ repeat f_equal; lia
      | repeat f_equal; lia
      | lia
      | rewrite nth_error_app2; rewrite ?length_app; cbn [List.length];
        [|lia];
        match goal with
        | |- nth_error _ ?k = _ =>
            first [ replace k with 1%nat by lia
                  | replace k with 2%nat by lia ]
        end; reflexivity ].
Qed.

End UpdateStatementFacts.

Lemma updateProduct_statement_shape_witness :
  updateProduct_statement string string (fun v => v) (fun v => v) (fun v => v)
    (fun v => v) (fun s => s) "now" "P" [("id", "Q")] (Some "new.png") = None
  /\ option_map (fun st => (set_clauses st, where_id st, parameters st))
       (updateProduct_statement string string (fun v => v) (fun v => v)
          (fun v => v) (fun v => v) (fun s => s) "now" "P"
          [("id", "Q"); ("stock", "4"); ("status", "agotado")] None)
     = Some (["stock = $1"; "status = $2"; "updated_at = $3"], "id = $4",
             ["4"; "agotado"; "now"; "P"]).
Proof.
  pose proof (updateProduct_statement_shape string string (fun v => v)
                (fun v => v) (fun v => v) (fun v => v) (fun s => s) "now" "P"
                [("id", "Q")] (Some "new.png")) as [Hnone _].
  split.
  - apply Hnone. intros kv [<- | []]. reflexivity.
  - reflexivity.
Defined.

(** ** Stock only goes down *)

Lemma pk_injective (prods : list Product) (a b : Product) :
  NoDup (map p_id prods) -> In a prods -> In b prods -> p_id a = p_id b ->
  a = b.
Proof.
  induction prods as [|x l IH]; intros Hnd Ha Hb Heq; [contradiction|].
  cbn in Hnd. inversion Hnd as [|y m Hnotin Hnd']; subst.
  destruct Ha as [-> | Ha], Hb as [-> | Hb].
  - reflexivity.
  - exfalso. apply Hnotin. rewrite Heq. apply in_map. exact Hb.
  - exfalso. apply Hnotin. rewrite <- Heq. apply in_map. exact Ha.
  - apply IH; assumption.
Qed.

Lemma order_item_rows_snapshot (ref : option Id) (items : list OrderItem)
    (prods : list Product) (r : ItemRow) :
  In r (order_item_rows ref items prods) ->
  exists oi q, In oi items /\ In q prods
               /\ product_id r = p_id q /\ stock r = p_stock q
               /\ quantity r = oi_quantity oi.
Proof.
  unfold order_item_rows. intros H. apply in_flat_map in H.
  destruct H as (oi & Hoi & Hr).
  destruct (sql_eq _ ref); [|contradiction].
  apply in_map_iff in Hr. destruct Hr as (q & <- & Hq).
  apply filter_In in Hq. destruct Hq as [Hq Hid]. apply str_eq_true in Hid.
  exists oi, q. cbn. repeat split; assumption.
Qed.

Lemma stock_after_bounded (now : Time) (rows : list ItemRow)
    (l l1 : list Product) :
  (forall r p, In r rows -> In p l -> product_id r = p_id p ->
               stock r = p_stock p /\ 0 <= quantity r) ->
  Forall2 stock_bounded l l1 ->
  Forall2 stock_bounded l (stock_after now rows l1).
Proof.
  unfold stock_after. revert l1.
  induction rows as [|r rows IH]; intros l1 Hrows H; cbn; [exact H|].
  apply IH; [intros r' p Hr'; apply Hrows; right; exact Hr'|].
  assert (Hr : forall p, In p l -> product_id r = p_id p ->
                         stock r = p_stock p /\ 0 <= quantity r)
    by (intros p; apply Hrows; left; reflexivity).
  clear IH Hrows. unfold stock_write.
  induction H as [|p p1 m m1 Hp Hm IHm]; cbn; constructor.
  - unfold write_row. destruct Hp as [Hid Hb].
    destruct (str_eq (p_id p1) (product_id r)) eqn:E; [|split; assumption].
    apply str_eq_true in E.
    assert (Hrp : product_id r = p_id p) by congruence.
    destruct (Hr p (or_introl eq_refl) Hrp) as [Hs Hq].
    unfold stock_bounded, written_status_stock.
    cbn [product_set p_id p_stock].
    split; [exact Hid|].
    destruct (str_eq (product_type r) "unico"); cbn [snd]; lia.
  - apply IHm. intros q Hq. apply Hr. right. exact Hq.
Qed.

Lemma stock_bounded_refl (l : list Product) :
  (forall p, In p l -> 0 <= p_stock p) -> Forall2 stock_bounded l l.
Proof.
  induction l as [|p l IH]; intros H; constructor.
  - split; [reflexivity|]. specialize (H p (or_introl eq_refl)). lia.
  - apply IH. intros q Hq. apply H. right. exact Hq.
Qed.

(** X24.  On a store whose products have distinct ids and no negative stock
    and whose order lines have no negative quantity, as the schema requires,
    [handleWebhook] never raises the stock of a product and never makes it
    negative, whatever it is sent and whatever it answers. *)
Theorem handleWebhook_stock_only_decreases
    (payment_get : Id -> option PaymentInfo) (faults : Faults) (now : Time)
    (n : Notification) (db : DB) :
  products_pk db ->
  (forall p, In p (products db) -> 0 <= p_stock p) ->
  (forall oi, In oi (order_items db) -> 0 <= oi_quantity oi) ->
  Forall2 stock_bounded (products db)
    (products (snd (handleWebhook payment_get faults now n db))).
Proof.
  intros Hpk Hstock Hqty.
  destruct (processWebhook payment_get n) as [[pd|]|e] eqn:Hpw.
  - destruct (handleWebhook_cases payment_get faults now n pd Hpw db)
      as [[He _] | He]; rewrite He; cbn [snd];
      [|apply stock_bounded_refl; exact Hstock].
    unfold committed. cbn [products].
    destruct (isPaymentApproved (status pd));
      [|apply stock_bounded_refl; exact Hstock].
    apply stock_after_bounded; [|apply stock_bounded_refl; exact Hstock].
    intros r p Hr Hp Hid.
    apply order_item_rows_snapshot in Hr.
    destruct Hr as (oi & q & Hoi & Hq & Hrq & Hs & Hquant).
    assert (q = p)
      by (apply (pk_injective (products db)); [exact Hpk | exact Hq | exact Hp
                                               | congruence]).
    subst q. split; [exact Hs|]. rewrite Hquant. apply Hqty. exact Hoi.
  - unfold handleWebhook. rewrite Hpw. apply stock_bounded_refl. exact Hstock.
  - unfold handleWebhook. rewrite Hpw. apply stock_bounded_refl. exact Hstock.
Qed.

Lemma handleWebhook_stock_only_decreases_witness :
  Forall2 stock_bounded (products shop_two_lines)
    (products (snd (handleWebhook (gateway_says "approved") no_faults 1000
                      payment_77 shop_two_lines))).
Proof.
  apply handleWebhook_stock_only_decreases.
  - unfold products_pk. cbn. repeat constructor; cbn; intuition discriminate.
  - intros p [<- | [<- | []]]; cbn; lia.
  - intros oi [<- | [<- | []]]; cbn; lia.
Defined.
